(** * Verification of the book-holding checker (AH100-1/book-project)

    A shallow embedding of the resolution-and-verification pipeline of the
    Next.js front end:

    - [lib/aladin.ts]   ISBN resolution by title and author,
    - [lib/read365.ts]  catalog search (paged, multi-region) and school matching,
    - [lib/cache.ts]    the process-wide result cache,
    - [lib/store.ts] and the [verify] route: the job record and the batch loop,
    - the job, download and book search routes.

    Conventions of the embedding.

    - A JavaScript string is the list of its UTF-16 code units ([jsstring]).
    - [null] and [undefined] are [None]; a thrown value is carried as the text
      that a template literal [`${err}`] renders for it.
    - The two external services are a [Network] instance: a world state and
      one transition per outbound [fetch].  Every outbound request is also
      appended to a log kept in the model state, so that theorems can count
      requests.
    - The answers of the two services have the fields and the types that
      the source declares for them.
    - JSON numbers are integers ([Z]); scores are binary64 floats ([float]).
    - Loops that the source bounds only through the service's answers take a
      fuel argument; [None] means that the fuel ran out.
    - Time stamps ([createdAt], [updatedAt]), console output and the fixed
      100 ms delays are left out: no property below observes them. *)

From Stdlib Require Import ZArith NArith List String Ascii Lia Bool DecimalString.
From Stdlib Require Import PrimFloat Uint63 SpecFloat FloatOps FloatAxioms.
From stdpp Require Import base option list gmap relations.
Import ListNotations.

Set Default Proof Using "Type".

(* ================================================================== *)
(** * JavaScript strings *)
(* ================================================================== *)

Module JS.

(** A string value: its UTF-16 code units. *)
Abbreviation jsstring := (list N).

(** ** Literals: decoding the UTF-8 bytes of a source literal *)

Definition cont (b : N) : N := N.land b 63.

(** Code points of a UTF-8 byte sequence (ill-formed tails are dropped). *)
Fixpoint utf8_points (bs : list N) : list N :=
  match bs with
  | [] => []
  | b0 :: r0 =>
    if (b0 <? 128)%N then b0 :: utf8_points r0
    else if (b0 <? 224)%N then
      match r0 with
      | b1 :: r1 => (N.land b0 31 * 64 + cont b1)%N :: utf8_points r1
      | _ => []
      end
    else if (b0 <? 240)%N then
      match r0 with
      | b1 :: b2 :: r2 =>
        (N.land b0 15 * 4096 + cont b1 * 64 + cont b2)%N :: utf8_points r2
      | _ => []
      end
    else
      match r0 with
      | b1 :: b2 :: b3 :: r3 =>
        (N.land b0 7 * 262144 + cont b1 * 4096 + cont b2 * 64 + cont b3)%N
          :: utf8_points r3
      | _ => []
      end
  end.

(** UTF-16 code units of a code point (a surrogate pair above the BMP). *)
Definition utf16_units (cp : N) : list N :=
  if (cp <? 65536)%N then [cp]
  else let v := (cp - 65536)%N in
       [(55296 + N.shiftr v 10)%N; (56320 + N.land v 1023)%N].

Definition bytes_of (s : string) : list N :=
  List.map N_of_ascii (list_ascii_of_string s).

(** The string value denoted by a source literal. *)
Definition lit (s : string) : jsstring :=
  List.concat (List.map utf16_units (utf8_points (bytes_of s))).

Arguments lit : simpl never.

(** ** Truthiness, [||] *)

(** A string is truthy iff it is not empty. *)
Definition truthy (s : jsstring) : bool :=
  match s with [] => false | _ => true end.

(** [o || d] for an optional string [o]: [null], [undefined] and [''] are
    falsy. *)
Definition or_else (o : option jsstring) (d : jsstring) : jsstring :=
  match o with
  | Some s => if truthy s then s else d
  | None => d
  end.

(** Truthiness of an optional string. *)
Definition otruthy (o : option jsstring) : bool :=
  match o with Some s => truthy s | None => false end.

(** ** White space: the class [\s] of regular expressions, which is also
    what [trim] removes *)

Definition is_space (c : N) : bool :=
  ((9 <=? c) && (c <=? 13) || (c =? 32) || (c =? 160) || (c =? 5760)
   || (8192 <=? c) && (c <=? 8202) || (c =? 8232) || (c =? 8233)
   || (c =? 8239) || (c =? 8287) || (c =? 12288) || (c =? 65279))%N.

(** [s.replace(/\s/g, '')] *)
Definition strip_spaces (s : jsstring) : jsstring :=
  List.filter (fun c => negb (is_space c)) s.

Fixpoint trimStart (s : jsstring) : jsstring :=
  match s with
  | c :: r => if is_space c then trimStart r else s
  | [] => []
  end.

(** [s.trim()] *)
Definition trim (s : jsstring) : jsstring :=
  List.rev (trimStart (List.rev (trimStart s))).

(** ** [includes], [slice], [join], concatenation *)

Fixpoint startsWith (s t : jsstring) {struct t} : bool :=
  match t, s with
  | [], _ => true
  | _ :: _, [] => false
  | d :: t', c :: s' => (c =? d)%N && startsWith s' t'
  end.

(** [s.includes(t)]: [t] occurs in [s] at some position. *)
Fixpoint includes (s t : jsstring) : bool :=
  startsWith s t ||
  match s with
  | [] => false
  | _ :: s' => includes s' t
  end.

(** [s === t] on strings. *)
Fixpoint str_eqb (s t : jsstring) : bool :=
  match s, t with
  | [], [] => true
  | c :: s', d :: t' => (c =? d)%N && str_eqb s' t'
  | _, _ => false
  end.

(** [s.slice(0, n)] for [0 <= n]. *)
Definition slice0 (n : nat) (s : jsstring) : jsstring := firstn n s.

(** [xs.join(sep)] *)
Fixpoint join (sep : jsstring) (xs : list jsstring) : jsstring :=
  match xs with
  | [] => []
  | [x] => x
  | x :: r => x ++ sep ++ join sep r
  end.

(** ** Numbers in template literals *)

(** [`${n}`] for an integer [n]. *)
Definition show_N (n : N) : jsstring :=
  bytes_of (NilZero.string_of_uint (N.to_uint n)).

Definition show_nat (n : nat) : jsstring := show_N (N.of_nat n).

(** An integer as a number value (exact below 2^53). *)
Definition number (z : Z) : float :=
  if (z <? 0)%Z then PrimFloat.opp (of_uint63 (Uint63.of_Z (- z)))
  else of_uint63 (Uint63.of_Z z).

Definition two_digits (n : Z) : jsstring :=
  if (n <? 10)%Z then 48%N :: show_N (Z.to_N n) else show_N (Z.to_N n).

(** [x.toFixed(2)] for a number below 10^21: the integer [n] nearest to
    [100 * |x|], the larger one on a tie, printed with two decimals. *)
Definition toFixed2 (x : float) : jsstring :=
  match Prim2SF x with
  | S754_zero _ => bytes_of "0.00"
  | S754_infinity false => bytes_of "Infinity"
  | S754_infinity true => bytes_of "-Infinity"
  | S754_nan => bytes_of "NaN"
  | S754_finite sign m e =>
    let n :=
      if (0 <=? e)%Z then (Zpos m * 2 ^ e * 100)%Z
      else ((200 * Zpos m + 2 ^ (- e)) / 2 ^ (1 - e))%Z in
    (if sign then [45%N] else [])
      ++ show_N (Z.to_N (n / 100)) ++ [46%N] ++ two_digits (n mod 100)
  end.

(** ** What the host implements *)

(** [String.prototype.toLowerCase] follows the Unicode case tables, which
    are part of the engine and not of the program. *)
Class Runtime := {
  toLowerCase : jsstring -> jsstring
}.

(** The case mapping on Basic Latin; it agrees with the engine's on every
    string whose code units are ASCII or have no case (Hangul among them). *)
Definition ascii_lower (c : N) : N :=
  if ((65 <=? c) && (c <=? 90))%N then (c + 32)%N else c.

End JS.

Export JS.

(* ================================================================== *)
(** * lib/cache.ts: the result cache *)
(* ================================================================== *)

Module Cache.

Record ISBNResult := {
  isbn13 : option jsstring;
  error : option jsstring
}.

Record SearchResult := {
  exists_ : bool;
  itemCount : nat;
  matchedSchool : option jsstring;
  search_error : option jsstring
}.

Record CacheStats := {
  isbnHits : nat;
  isbnMisses : nat;
  searchHits : nat;
  searchMisses : nat;
  isbnCacheSize : nat;
  searchCacheSize : nat
}.

(** The two [Map]s of the class and its counters. *)
Record ResultCache := {
  isbnCache : gmap jsstring ISBNResult;
  searchCache : gmap jsstring SearchResult;
  stats : CacheStats
}.

Definition no_stats : CacheStats :=
  {| isbnHits := 0; isbnMisses := 0; searchHits := 0; searchMisses := 0;
     isbnCacheSize := 0; searchCacheSize := 0 |}.

(** [new ResultCache()], also the state after [clear()]. *)
Definition empty : ResultCache :=
  {| isbnCache := ∅; searchCache := ∅; stats := no_stats |}.

Section WithRuntime.
Context `{Runtime}.

Definition normalizeKey (text : jsstring) : jsstring :=
  strip_spaces (toLowerCase text).

Definition makeISBNKey (title author : jsstring) : jsstring :=
  normalizeKey title ++ lit "|" ++ normalizeKey author.

Definition makeSearchKey (school isbn : jsstring) : jsstring :=
  normalizeKey school ++ lit "|" ++ isbn.

Definition getISBN (title author : jsstring) (c : ResultCache)
  : option ISBNResult * ResultCache :=
  let key := makeISBNKey title author in
  let st := stats c in
  match isbnCache c !! key with
  | Some result =>
    (Some result,
     {| isbnCache := isbnCache c; searchCache := searchCache c;
        stats := {| isbnHits := S (isbnHits st); isbnMisses := isbnMisses st;
                    searchHits := searchHits st;
                    searchMisses := searchMisses st;
                    isbnCacheSize := isbnCacheSize st;
                    searchCacheSize := searchCacheSize st |} |})
  | None =>
    (None,
     {| isbnCache := isbnCache c; searchCache := searchCache c;
        stats := {| isbnHits := isbnHits st; isbnMisses := S (isbnMisses st);
                    searchHits := searchHits st;
                    searchMisses := searchMisses st;
                    isbnCacheSize := isbnCacheSize st;
                    searchCacheSize := searchCacheSize st |} |})
  end.

Definition setISBN (title author : jsstring) (isbn : option jsstring)
    (err : option jsstring) (c : ResultCache) : ResultCache :=
  let key := makeISBNKey title author in
  let m := <[key := {| isbn13 := isbn; error := err |}]> (isbnCache c) in
  let st := stats c in
  {| isbnCache := m; searchCache := searchCache c;
     stats := {| isbnHits := isbnHits st; isbnMisses := isbnMisses st;
                 searchHits := searchHits st; searchMisses := searchMisses st;
                 isbnCacheSize := size m;
                 searchCacheSize := searchCacheSize st |} |}.

Definition getSearch (school isbn : jsstring) (c : ResultCache)
  : option SearchResult * ResultCache :=
  let key := makeSearchKey school isbn in
  let st := stats c in
  match searchCache c !! key with
  | Some result =>
    (Some result,
     {| isbnCache := isbnCache c; searchCache := searchCache c;
        stats := {| isbnHits := isbnHits st; isbnMisses := isbnMisses st;
                    searchHits := S (searchHits st);
                    searchMisses := searchMisses st;
                    isbnCacheSize := isbnCacheSize st;
                    searchCacheSize := searchCacheSize st |} |})
  | None =>
    (None,
     {| isbnCache := isbnCache c; searchCache := searchCache c;
        stats := {| isbnHits := isbnHits st; isbnMisses := isbnMisses st;
                    searchHits := searchHits st;
                    searchMisses := S (searchMisses st);
                    isbnCacheSize := isbnCacheSize st;
                    searchCacheSize := searchCacheSize st |} |})
  end.

Definition setSearch (school isbn : jsstring) (ex : bool) (count : nat)
    (matched : option jsstring) (err : option jsstring) (c : ResultCache)
  : ResultCache :=
  let key := makeSearchKey school isbn in
  let m := <[key := {| exists_ := ex; itemCount := count;
                       matchedSchool := matched; search_error := err |}]>
             (searchCache c) in
  let st := stats c in
  {| isbnCache := isbnCache c; searchCache := m;
     stats := {| isbnHits := isbnHits st; isbnMisses := isbnMisses st;
                 searchHits := searchHits st; searchMisses := searchMisses st;
                 isbnCacheSize := isbnCacheSize st;
                 searchCacheSize := size m |} |}.

Definition getStats (c : ResultCache) : CacheStats := stats c.

Definition clear (c : ResultCache) : ResultCache := empty.

End WithRuntime.

End Cache.

(* ================================================================== *)
(** * The outside world and the effect monad *)
(* ================================================================== *)

Module Net.

(** What [await fetch(...)] followed by [response.json()] can produce. *)
Inductive fetched (A : Type) : Type :=
| Rejected (err : jsstring)
    (** [fetch] rejects: a transport failure, carried as its text *)
| Response (ok : bool) (status : N) (body : jsstring + A)
    (** a response; [response.json()] throws ([inl]) or yields a value *).
Arguments Rejected {A} err.
Arguments Response {A} ok status body.

(** ** Aladin: query parameters and answer *)

Record AladinParams := {
  TTBKey : jsstring;
  Query : jsstring;
  QueryType : jsstring;
  MaxResults : jsstring;
  start : jsstring;
  SearchTarget : jsstring;
  output : jsstring;
  Version : jsstring
}.

Record AladinBook := {
  a_title : option jsstring;
  a_author : option jsstring;
  a_isbn13 : option jsstring;
  a_publisher : option jsstring
}.

Record AladinResponse := { item : option (list AladinBook) }.

(** ** Read365: request body and answer *)

(** What the body can carry under [provCode]: a string, or the empty
    object. *)
Inductive BodyValue :=
| Text (s : jsstring)
| EmptyObject.

Record Payload := {
  searchKeyword : jsstring;
  coverYn : jsstring;
  facet : jsstring;
  p_provCode : option BodyValue;
  p_page : option Z;
  p_rows : option Z
}.

Record Read365Book := {
  title : option jsstring;
  author : option jsstring;
  schoolName : option jsstring;
  provName : option jsstring;
  isbn : option jsstring
}.

Record Read365Data := {
  allTotalCount : option Z;
  totalPage : option Z;
  bookList : option (list Read365Book)
}.

Record Read365ApiResponse := {
  status : jsstring;
  data : option Read365Data
}.

Inductive request :=
| ToAladin (q : AladinParams)
| ToRead365 (p : Payload).

(** The two services: a state of the world and its answer to each request. *)
Class Network := {
  world : Type;
  aladin : world -> AladinParams -> world * fetched AladinResponse;
  read365 : world -> Payload -> world * fetched Read365ApiResponse
}.

(** Fuzzball's [token_set_ratio]: an integer percentage. *)
Class Fuzzball := {
  token_set_ratio : jsstring -> jsstring -> Z
}.

(** How a computation ends: with a value or with a thrown one. *)
Inductive outcome (A : Type) : Type :=
| Ret (a : A)
| Throw (err : jsstring).
Arguments Ret {A} a.
Arguments Throw {A} err.

Section Monad.
Context `{Network}.

(** The state the program runs in. *)
Record machine := {
  net : world;
  log : list request;
  cache : Cache.ResultCache
}.

(** A computation: [None] when the fuel ran out. *)
Definition M (A : Type) : Type := machine -> option (outcome A * machine).

Definition ret {A} (a : A) : M A := fun s => Some (Ret a, s).
Definition throw {A} (err : jsstring) : M A := fun s => Some (Throw err, s).
Definition out_of_fuel {A} : M A := fun _ => None.

Definition bind {A B} (m : M A) (f : A -> M B) : M B :=
  fun s =>
    match m s with
    | Some (Ret a, s') => f a s'
    | Some (Throw e, s') => Some (Throw e, s')
    | None => None
    end.

(** [try { m } catch (err) { h err }] *)
Definition try_catch {A} (m : M A) (h : jsstring -> M A) : M A :=
  fun s =>
    match m s with
    | Some (Throw e, s') => h e s'
    | r => r
    end.

(** Operations on the cache, lifted. *)
Definition with_cache {A} (f : Cache.ResultCache -> A * Cache.ResultCache)
  : M A :=
  fun s =>
    let (a, c) := f (cache s) in
    Some (Ret a, {| net := net s; log := log s; cache := c |}).

Definition update_cache (f : Cache.ResultCache -> Cache.ResultCache)
  : M unit :=
  with_cache (fun c => (tt, f c)).

(** One outbound request to Aladin. *)
Definition fetch_aladin (q : AladinParams) : M (fetched AladinResponse) :=
  fun s =>
    let (w, r) := aladin (net s) q in
    Some (Ret r, {| net := w; log := log s ++ [ToAladin q];
                    cache := cache s |}).

(** One outbound request to Read365. *)
Definition fetch_read365 (p : Payload) : M (fetched Read365ApiResponse) :=
  fun s =>
    let (w, r) := read365 (net s) p in
    Some (Ret r, {| net := w; log := log s ++ [ToRead365 p];
                    cache := cache s |}).

End Monad.

End Net.

Export Net.

Notation "'let*' x ':=' m 'in' k" := (bind m (fun x => k))
  (at level 10, x binder, m at level 100, k at level 200).

(* ================================================================== *)
(** * lib/read365.ts: the catalog client *)
(* ================================================================== *)

Module Read365.

(** The own properties of the object literal, in order. *)
Definition REGION_CODE_MAP : list (jsstring * jsstring) :=
  [ (lit "서울", lit "B10"); (lit "서울특별시", lit "B10");
    (lit "부산", lit "C10"); (lit "부산광역시", lit "C10");
    (lit "대구", lit "D10"); (lit "대구광역시", lit "D10");
    (lit "인천", lit "E10"); (lit "인천광역시", lit "E10");
    (lit "광주", lit "F10"); (lit "광주광역시", lit "F10");
    (lit "대전", lit "G10"); (lit "대전광역시", lit "G10");
    (lit "울산", lit "H10"); (lit "울산광역시", lit "H10");
    (lit "세종", lit "I10"); (lit "세종특별자치시", lit "I10");
    (lit "경기", lit "J10"); (lit "경기도", lit "J10");
    (lit "강원", lit "K10"); (lit "강원도", lit "K10");
    (lit "충북", lit "M10"); (lit "충청북도", lit "M10");
    (lit "충남", lit "N10"); (lit "충청남도", lit "N10");
    (lit "전북", lit "P10"); (lit "전라북도", lit "P10");
    (lit "전남", lit "Q10"); (lit "전라남도", lit "Q10");
    (lit "경북", lit "R10"); (lit "경상북도", lit "R10");
    (lit "경남", lit "S10"); (lit "경상남도", lit "S10");
    (lit "제주", lit "T10"); (lit "제주특별자치도", lit "T10") ].

Definition MAJOR_REGION_CODES : list jsstring :=
  List.map lit
    [ "B10"; "C10"; "D10"; "E10"; "F10"; "G10"; "H10"; "I10";
      "J10"; "K10"; "M10"; "N10"; "P10"; "Q10"; "R10"; "S10"; "T10" ]%string.

(** What evaluating [REGION_CODE_MAP[regionName]] can give besides
    [undefined]: the code under an own key of the literal, or a property
    that the literal inherits from [Object.prototype], which is a method
    or, under ['__proto__'], the prototype itself. *)
Inductive ProvCode :=
| Code (code : jsstring)
| Method (name : jsstring)
| ObjectPrototype.

(** The properties of [Object.prototype] (ECMAScript, section 20.1.3), each
    with what reading it from an object literal gives. *)
Definition Object_prototype : list (jsstring * ProvCode) :=
  [ (lit "constructor", Method (lit "constructor"));
    (lit "hasOwnProperty", Method (lit "hasOwnProperty"));
    (lit "isPrototypeOf", Method (lit "isPrototypeOf"));
    (lit "propertyIsEnumerable", Method (lit "propertyIsEnumerable"));
    (lit "toLocaleString", Method (lit "toLocaleString"));
    (lit "toString", Method (lit "toString"));
    (lit "valueOf", Method (lit "valueOf"));
    (lit "__defineGetter__", Method (lit "__defineGetter__"));
    (lit "__defineSetter__", Method (lit "__defineSetter__"));
    (lit "__lookupGetter__", Method (lit "__lookupGetter__"));
    (lit "__lookupSetter__", Method (lit "__lookupSetter__"));
    (lit "__proto__", ObjectPrototype) ].

Fixpoint property {V : Type} (k : jsstring) (obj : list (jsstring * V))
  : option V :=
  match obj with
  | [] => None
  | (k', v) :: r => if str_eqb k k' then Some v else property k r
  end.

(** [REGION_CODE_MAP[regionName]]: the own keys first, then the prototype. *)
Definition REGION_CODE_MAP_at (regionName : jsstring) : option ProvCode :=
  match property regionName REGION_CODE_MAP with
  | Some code => Some (Code code)
  | None => property regionName Object_prototype
  end.

(** Truthiness: functions and objects are truthy. *)
Definition is_truthy (v : ProvCode) : bool :=
  match v with
  | Code code => truthy code
  | Method _ | ObjectPrototype => true
  end.

(** The declared result type is [string | null]; for the names of
    [Object.prototype] the value returned is not a string. *)
Definition getProvCode (regionName : jsstring) : option ProvCode :=
  match REGION_CODE_MAP_at regionName with
  | Some v => if is_truthy v then Some v else None
  | None => None
  end.

Record Read365SearchResult := {
  totalCount : Z;
  totalPages : Z;
  books : list Read365Book
}.

Definition num_or_0 (n : option Z) : Z := default 0%Z n.

(** [xs.includes(x)] for a string [x]: a function or an object in the
    array is never equal to it. *)
Definition array_includes (xs : list ProvCode) (x : jsstring) : bool :=
  existsb (fun v => match v with
                    | Code code => str_eqb x code
                    | Method _ | ObjectPrototype => false
                    end) xs.

(** The regions pushed before the loop over [MAJOR_REGION_CODES]: what
    [getProvCode] returns for [primaryRegion], when it is truthy. *)
Definition preferred (primaryRegion : option jsstring) : list ProvCode :=
  match primaryRegion with
  | Some r =>
    if truthy r then
      match getProvCode r with
      | Some provCode => [provCode]
      | None => []
      end
    else []
  | None => []
  end.

(** The body of the loop over [MAJOR_REGION_CODES]. *)
Definition add_region (maxRegions : Z) (acc : list ProvCode)
    (code : jsstring) : list ProvCode :=
  if negb (array_includes acc code)
     && (Z.of_nat (length acc) <? maxRegions)%Z
  then acc ++ [Code code] else acc.

(** The list of regions that [searchISBNMultiRegion] builds before it
    searches. *)
Definition searchRegions (primaryRegion : option jsstring) (maxRegions : Z)
  : list ProvCode :=
  fold_left (add_region maxRegions) MAJOR_REGION_CODES
    (preferred primaryRegion).

(** How [JSON.stringify] writes a property with this value: a property
    whose value is a function is left out, and [Object.prototype], which
    has no enumerable property, is written as the empty object. *)
Definition stringified (v : ProvCode) : option BodyValue :=
  match v with
  | Code code => Some (Text code)
  | Method _ => None
  | ObjectPrototype => Some EmptyObject
  end.

(** The request body that [searchISBN] sends: the payload that it builds,
    as [JSON.stringify] writes it. *)
Definition payload_of (isbn : jsstring) (provCode : option ProvCode)
    (page pageSize : Z) : Payload :=
  {| searchKeyword := isbn; coverYn := lit "Y"; facet := lit "Y";
     p_provCode := match provCode with
                   | Some v => if is_truthy v then stringified v else None
                   | None => None
                   end;
     p_page := if (1 <? page)%Z then Some page else None;
     p_rows := if (pageSize =? 100)%Z then None else Some pageSize |}.

Section WithNetwork.
Context `{Network}.

Definition searchISBN (isbn : jsstring) (provCode : option ProvCode)
    (page pageSize : Z) : M Read365SearchResult :=
  let payload := payload_of isbn provCode page pageSize in
  try_catch
    (let* response := fetch_read365 payload in
     match response with
     | Rejected err => throw err
     | Response ok code body =>
       if negb ok then throw (lit "Error: HTTP " ++ show_N code)
       else
         match body with
         | inl err => throw err
         | inr d =>
           match str_eqb (status d) (lit "OK"), data d with
           | true, Some dd =>
             ret {| totalCount := num_or_0 (allTotalCount dd);
                    totalPages := num_or_0 (totalPage dd);
                    books := default [] (bookList dd) |}
           | _, _ =>
             ret {| totalCount := 0; totalPages := 0; books := [] |}
           end
         end
     end)
    (fun error => throw error).

(** The [while (true)] loop of [searchISBNAllPages]; one unit of fuel per
    page request. *)
Fixpoint allPages_loop (fuel : nat) (isbn : jsstring)
    (provCode : option ProvCode) (allBooks : list Read365Book) (page : Z)
  : M (list Read365Book) :=
  match fuel with
  | O => out_of_fuel
  | S fuel' =>
    let* result := searchISBN isbn provCode page 100 in
    if (length (books result) =? 0)%nat then ret allBooks
    else
      let allBooks' := allBooks ++ books result in
      if (totalPages result <=? page)%Z then ret allBooks'
      else allPages_loop fuel' isbn provCode allBooks' (page + 1)%Z
  end.

Definition searchISBNAllPages (fuel : nat) (isbn : jsstring)
    (provCode : option ProvCode) : M (list Read365Book) :=
  allPages_loop fuel isbn provCode [] 1%Z.

Record MultiRegionResult := {
  m_totalCount : nat;
  m_books : list Read365Book
}.

(** The [for (const regionCode of searchRegions)] loop. *)
Fixpoint regions_loop (fuel : nat) (isbn : jsstring)
    (regions : list ProvCode) (acc : MultiRegionResult)
  : M MultiRegionResult :=
  match regions with
  | [] => ret acc
  | regionCode :: rest =>
    let* acc' :=
      try_catch
        (let* bs := searchISBNAllPages fuel isbn (Some regionCode) in
         ret {| m_totalCount := m_totalCount acc + length bs;
                m_books := m_books acc ++ bs |})
        (fun error => ret acc) in
    regions_loop fuel isbn rest acc'
  end.

Definition searchISBNMultiRegion (fuel : nat) (isbn : jsstring)
    (primaryRegion : option jsstring) (maxRegions : Z)
  : M MultiRegionResult :=
  regions_loop fuel isbn (searchRegions primaryRegion maxRegions)
    {| m_totalCount := 0; m_books := [] |}.

End WithNetwork.

Section WithRuntime.
Context `{Runtime}.

(** The test of the loop in [findSchoolBooks] (the normalisations of both
    names and the two-way containment), which the specification calls
    [schoolNameMatches]. *)
Definition schoolNameMatches (bookSchool schoolName : jsstring) : bool :=
  let normalizedSchool := toLowerCase (strip_spaces schoolName) in
  let normalizedBookSchool := toLowerCase (strip_spaces bookSchool) in
  includes normalizedBookSchool normalizedSchool
  || includes normalizedSchool normalizedBookSchool.

(** What [findSchoolBooks] returns: these two properties and no other. *)
Record SchoolBooks := {
  found : list Read365Book;
  matchedSchool : option jsstring
}.

Definition findSchoolBooks (bs : list Read365Book) (school : jsstring)
  : SchoolBooks :=
  fold_left
    (fun acc book =>
       let bookSchool := or_else (schoolName book) [] in
       if schoolNameMatches bookSchool school then
         {| found := found acc ++ [book];
            matchedSchool :=
              if negb (otruthy (matchedSchool acc)) then Some bookSchool
              else matchedSchool acc |}
       else acc)
    bs {| found := []; matchedSchool := None |}.

End WithRuntime.

End Read365.

(* ================================================================== *)
(** * lib/aladin.ts: the ISBN resolver *)
(* ================================================================== *)

Module Aladin.

Definition ALADIN_BASE_URL : jsstring :=
  lit "https://www.aladin.co.kr/ttb/api/ItemSearch.aspx".

Definition is_open (c : N) : bool := ((c =? 40) || (c =? 91))%N.
Definition is_close (c : N) : bool := ((c =? 41) || (c =? 93))%N.

(** [replace(/[(\[][^)\]]*[)\]]/g, ' ')]: an opening bracket up to the
    first closing one becomes a space; an opening bracket with no closing
    one after it stays. *)
Fixpoint drop_annotations (inside : bool) (s : jsstring) : jsstring :=
  match s with
  | [] => []
  | c :: r =>
    if inside then
      if is_close c then drop_annotations false r
      else drop_annotations true r
    else if is_open c && existsb is_close r then
      32%N :: drop_annotations true r
    else c :: drop_annotations false r
  end.

(** [replace(/[.:;,\-_]/g, ' ')] *)
Definition is_punct (c : N) : bool :=
  ((c =? 46) || (c =? 58) || (c =? 59) || (c =? 44) || (c =? 45)
   || (c =? 95))%N.
Definition blank_punct (s : jsstring) : jsstring :=
  List.map (fun c => if is_punct c then 32%N else c) s.

(** [replace(/\s+/g, ' ')] *)
Fixpoint collapse_spaces (after_space : bool) (s : jsstring) : jsstring :=
  match s with
  | [] => []
  | c :: r =>
    if is_space c then
      if after_space then collapse_spaces true r
      else 32%N :: collapse_spaces true r
    else c :: collapse_spaces false r
  end.

Definition normalizeTitle (title : jsstring) : jsstring :=
  trim (collapse_spaces false (blank_punct (drop_annotations false title))).

(** The query parameters that [searchISBNByTitleAuthor] sends. *)
Definition params_of (ttbKey title : jsstring) : AladinParams :=
  let normalizedTitle := normalizeTitle title in
  {| TTBKey := ttbKey; Query := normalizedTitle; QueryType := lit "Title";
     MaxResults := lit "20"; start := lit "1"; SearchTarget := lit "Book";
     output := lit "JS"; Version := lit "20131101" |}.

Record Resolved := {
  isbn13 : option jsstring;
  error : option jsstring;
  candidateCount : nat
}.

Section WithFuzzball.
Context `{Fuzzball}.

(** [0.7] and [0.3] as the binary64 values that the literals denote. *)
Definition w_title : float := 0x1.6666666666666p-1%float.
Definition w_author : float := 0x1.3333333333333p-2%float.

(** The score of one candidate, as the loop computes it from the trimmed
    strings (the specification calls it [titleAuthorScore]). *)
Definition titleAuthorScore (candTitle candAuthor needleTitle needleAuthor
    : jsstring) : float :=
  let titleScore := (number (token_set_ratio needleTitle candTitle) / 100)%float in
  let authorScore :=
    if truthy needleAuthor
    then (number (token_set_ratio needleAuthor candAuthor) / 100)%float
    else 0%float in
  (w_title * titleScore + w_author * authorScore)%float.

(** The [for (const item of items)] loop: the first candidate with the
    highest score. *)
Definition pick_best (needleTitle needleAuthor : jsstring)
    (items : list AladinBook) : option AladinBook * float :=
  fold_left
    (fun acc item =>
       let candTitle := trim (or_else (a_title item) []) in
       let candAuthor := trim (or_else (a_author item) []) in
       let score :=
         titleAuthorScore candTitle candAuthor needleTitle needleAuthor in
       if PrimFloat.ltb (snd acc) score then (Some item, score) else acc)
    items (None, (-1)%float).

Context `{Network}.

Definition searchISBNByTitleAuthor (ttbKey title author : jsstring)
    (threshold : float) : M Resolved :=
  if negb (truthy title) then
    ret {| isbn13 := None; error := Some (lit "빈 제목"); candidateCount := 0 |}
  else
    let params := params_of ttbKey title in
    try_catch
      (let* response := fetch_aladin params in
       match response with
       | Rejected err => throw err
       | Response ok code body =>
         if negb ok then throw (lit "Error: HTTP " ++ show_N code)
         else
           match body with
           | inl err => throw err
           | inr d =>
             let items := default [] (item d) in
             if (length items =? 0)%nat then
               ret {| isbn13 := None; error := Some (lit "검색 결과 없음");
                      candidateCount := 0 |}
             else
               let needleTitle := trim title in
               let needleAuthor := trim (or_else (Some author) []) in
               let (best, bestScore) :=
                 pick_best needleTitle needleAuthor items in
               let below :=
                 {| isbn13 := None;
                    error := Some (lit "유사도 미달(" ++ toFixed2 bestScore
                                     ++ lit ")");
                    candidateCount := length items |} in
               match best with
               | Some b =>
                 if PrimFloat.leb threshold bestScore then
                   let isbn := trim (or_else (a_isbn13 b) []) in
                   if truthy isbn then
                     ret {| isbn13 := Some isbn; error := None;
                            candidateCount := length items |}
                   else
                     ret {| isbn13 := None;
                            error := Some (lit "isbn 비어있음");
                            candidateCount := length items |}
                 else ret below
               | None => ret below
               end
           end
       end)
      (fun error => throw error).

End WithFuzzball.

End Aladin.

(* ================================================================== *)
(** * lib/excel.ts, lib/store.ts and the upload route: rows, jobs, files *)
(* ================================================================== *)

Module Store.

Record BookRow := {
  학교명 : jsstring;
  도서명 : jsstring;
  저자 : jsstring;
  출판사 : jsstring
}.

Record ResultRow := {
  row : BookRow;
  ISBN13 : jsstring;
  검색학교 : jsstring;
  존재여부 : jsstring;
  사유 : jsstring
}.

Inductive JobStatus := pending | running | completed | failed.

Record Job := {
  jobId : jsstring;
  status : JobStatus;
  progress : nat;
  total : nat;
  message : jsstring;
  resultFile : option jsstring;
  inputData : list BookRow;
  results : list ResultRow;
  region : jsstring;
  schoolLevel : jsstring
}.

Record UploadedFile := {
  fileId : jsstring;
  filename : jsstring;
  data : list BookRow;
  totalRows : nat
}.

(** The record that the upload route stores for the rows it has read. *)
Definition uploaded (id name : jsstring) (rows : list BookRow)
  : UploadedFile :=
  {| fileId := id; filename := name; data := rows;
     totalRows := length rows |}.

(** The [jobs] map. *)
Definition getJob (id : jsstring) (jobs : gmap jsstring Job) : option Job :=
  jobs !! id.
Definition setJob (job : Job) (jobs : gmap jsstring Job)
  : gmap jsstring Job :=
  <[jobId job := job]> jobs.
Definition deleteJob (id : jsstring) (jobs : gmap jsstring Job)
  : bool * gmap jsstring Job :=
  (bool_decide (is_Some (jobs !! id)), delete id jobs).

End Store.

(* ================================================================== *)
(** * The verify route: one job per uploaded file *)
(* ================================================================== *)

Module Verify.
Import Store.

(** What reading [.length] of [undefined] throws, as [`${err}`] prints it. *)
Definition undefined_length : jsstring :=
  lit "TypeError: Cannot read properties of undefined (reading 'length')".

(** The threshold [0.6] passed to the resolver. *)
Definition threshold : float := 0x1.3333333333333p-1%float.

Definition mark (ex : bool) : jsstring :=
  if ex then lit "✅" else lit "❌".

Section WithEnv.
Context `{Runtime} `{Fuzzball} `{Network}.

(** ** The body of the loop of [processVerification] *)

(** Step 1, "ISBN": the values of [isbn13], [candidateCount] and [reason]
    after it. *)
Definition resolve_step (ttbKey title author : jsstring)
  : M (option jsstring * nat * jsstring) :=
  let* cachedISBN := with_cache (Cache.getISBN title author) in
  match cachedISBN with
  | Some c =>
    ret (Cache.isbn13 c, 0,
         if otruthy (Cache.error c) then default [] (Cache.error c) else [])
  | None =>
    try_catch
      (let* result :=
         Aladin.searchISBNByTitleAuthor ttbKey title author threshold in
       let isbn13 := Aladin.isbn13 result in
       let* _ :=
         update_cache
           (Cache.setISBN title author isbn13 (Aladin.error result)) in
       ret (isbn13, Aladin.candidateCount result,
            if negb (otruthy isbn13)
            then lit "알라딘 ISBN 미확인: "
                   ++ or_else (Aladin.error result) (lit "알 수 없음")
            else []))
      (fun err =>
         let reason := lit "알라딘 오류: " ++ err in
         let* _ :=
           update_cache (Cache.setISBN title author None (Some reason)) in
         ret (None, 0, reason))
  end.

(** The [catch] block of step 2, entered with the values that [existsMark]
    and [matchedSchool] have when the [try] block is left. *)
Definition search_failed (school isbn13 existsMark : jsstring)
    (matchedSchool : option jsstring) (err : jsstring)
  : M (jsstring * option jsstring * jsstring) :=
  let reason := lit "Read365 검색 오류: " ++ err in
  let* _ :=
    update_cache
      (Cache.setSearch school isbn13 false 0 None (Some reason)) in
  ret (existsMark, matchedSchool, reason).

(** Step 2, "Read365", for a truthy [isbn13]: the values of [existsMark],
    [matchedSchool] and [reason] after it. *)
Definition holding_step (fuel : nat) (school isbn13 : jsstring)
    (candidateCount : nat) (reason : jsstring)
  : M (jsstring * option jsstring * jsstring) :=
  let* cachedSearch := with_cache (Cache.getSearch school isbn13) in
  match cachedSearch with
  | Some c =>
    ret (mark (Cache.exists_ c), Cache.matchedSchool c,
         if otruthy (Cache.search_error c)
         then default [] (Cache.search_error c) else reason)
  | None =>
    try_catch
      (let* r := Read365.searchISBNMultiRegion fuel isbn13 None 6 in
       let totalCount := Read365.m_totalCount r in
       let fb := Read365.findSchoolBooks (Read365.m_books r) school in
       let found := Read365.found fb in
       let matched := Read365.matchedSchool fb in
       (* a property that the returned object does not have *)
       let matchedSchools : option (list jsstring) := None in
       let ex := (0 <? length found)%nat in
       let existsMark := mark ex in
       let* _ :=
         update_cache
           (Cache.setSearch school isbn13 ex (length found) matched None) in
       if ex then
         match matchedSchools with
         | None =>
           (* [matchedSchools.length] throws inside the [try] block *)
           search_failed school isbn13 existsMark matched undefined_length
         | Some names =>
           if (1 <? length names)%nat then
             ret (existsMark, matched,
                  lit "동명 학교 " ++ show_nat (length names)
                    ++ lit "개 매칭: " ++ join (lit ", ") names)
           else ret (existsMark, matched, reason)
         end
       else if (totalCount =? 0)%nat then
         ret (existsMark, matched, lit "주요 지역에 등록된 도서 없음")
       else
         let reason' :=
           school ++ lit "에 없음 (타 학교 " ++ show_nat totalCount
             ++ lit "권 보유)" in
         ret (existsMark, matched,
              if (1 <? candidateCount)%nat
              then reason' ++ lit " - 동일 제목 " ++ show_nat candidateCount
                     ++ lit "개 버전 존재, 도서명을 더 정확히 입력하세요"
              else reason'))
      (search_failed school isbn13 (mark false) None)
  end.

(** One record: the row pushed onto [results]. *)
Definition verifyRow (fuel : nat) (ttbKey : jsstring) (r : BookRow)
  : M ResultRow :=
  let school := 학교명 r in
  let title := 도서명 r in
  let author := 저자 r in
  let* step1 := resolve_step ttbKey title author in
  let isbn13 := fst (fst step1) in
  let candidateCount := snd (fst step1) in
  let reason := snd step1 in
  let* step2 :=
    if otruthy isbn13
    then holding_step fuel school (default [] isbn13) candidateCount reason
    else ret (mark false, None, reason) in
  ret {| row := r;
         ISBN13 := or_else isbn13 [];
         검색학교 := or_else (snd (fst step2)) school;
         존재여부 := fst (fst step2);
         사유 := snd step2 |}.

(** ** The job and the loop *)

(** The program state: the services and caches, and the [jobs] map. *)
Record system := {
  mach : machine;
  jobs : gmap jsstring Job
}.

(** The job object after the assignments that end iteration [i]. *)
Definition progress_update (job : Job) (i : nat) (title : jsstring)
    (results' : list ResultRow) : Job :=
  {| jobId := jobId job; status := status job;
     progress := i + 1;
     total := total job;
     message := lit "처리 중: " ++ show_nat (i + 1) ++ lit "/"
                  ++ show_nat (length (inputData job)) ++ lit " - "
                  ++ slice0 20 title ++ lit "...";
     resultFile := resultFile job;
     inputData := inputData job;
     results := results';
     region := region job; schoolLevel := schoolLevel job |}.

(** The job object after the assignments that follow the loop. *)
Definition finished (id : jsstring) (job : Job) (results' : list ResultRow)
  : Job :=
  {| jobId := jobId job; status := completed;
     progress := progress job;
     total := total job;
     message := lit "완료! " ++ show_nat (length (inputData job))
                  ++ lit "권 처리됨 (API 모드)";
     resultFile := Some (lit "result_" ++ id);
     inputData := inputData job;
     results := results';
     region := region job; schoolLevel := schoolLevel job |}.

(** The job object after the handler that [POST] attaches with [.catch]. *)
Definition rejected (j : Job) (err : jsstring) : Job :=
  {| jobId := jobId j; status := failed;
     progress := progress j;
     total := total j;
     message := lit "오류: " ++ err;
     resultFile := resultFile j;
     inputData := inputData j;
     results := results j;
     region := region j; schoolLevel := schoolLevel j |}.

(** Iteration [i] of the [for] loop, on record [r]. *)
Definition iteration (fuel : nat) (ttbKey : jsstring) (i : nat) (r : BookRow)
    (results : list ResultRow) (job : Job) (s : system)
  : option (outcome (list ResultRow * Job) * system) :=
  match verifyRow fuel ttbKey r (mach s) with
  | None => None
  | Some (Throw e, m) => Some (Throw e, {| mach := m; jobs := jobs s |})
  | Some (Ret out, m) =>
    let results' := results ++ [out] in
    let job' := progress_update job i (도서명 r) results' in
    Some (Ret (results', job'),
          {| mach := m; jobs := setJob job' (jobs s) |})
  end.

Fixpoint rows_loop (fuel : nat) (ttbKey : jsstring) (rows : list BookRow)
    (i : nat) (results : list ResultRow) (job : Job) (s : system)
  : option (outcome (list ResultRow * Job) * system) :=
  match rows with
  | [] => Some (Ret (results, job), s)
  | r :: rest =>
    match iteration fuel ttbKey i r results job s with
    | Some (Ret (results', job'), s') =>
      rows_loop fuel ttbKey rest (S i) results' job' s'
    | other => other
    end
  end.

Definition finish (id : jsstring) (job : Job) (results' : list ResultRow)
    (s : system) : system :=
  {| mach := mach s; jobs := setJob (finished id job results') (jobs s) |}.

Definition processVerification (fuel : nat) (id ttbKey : jsstring)
    (s : system) : option (outcome unit * system) :=
  match getJob id (jobs s) with
  | None => Some (Ret tt, s)
  | Some job =>
    match rows_loop fuel ttbKey (inputData job) 0 [] job s with
    | Some (Ret (results', job'), s') =>
      Some (Ret tt, finish id job' results' s')
    | Some (Throw e, s') => Some (Throw e, s')
    | None => None
    end
  end.

(** The [.catch] handler of [POST]. *)
Definition on_rejected (id err : jsstring) (s : system) : system :=
  match getJob id (jobs s) with
  | Some j => {| mach := mach s; jobs := setJob (rejected j err) (jobs s) |}
  | None => s
  end.

(** [processVerification(jobId, ttbKey).catch(...)], run to its end. *)
Definition background (fuel : nat) (id ttbKey : jsstring) (s : system)
  : option system :=
  match processVerification fuel id ttbKey s with
  | Some (Ret _, s') => Some s'
  | Some (Throw e, s') => Some (on_rejected id e s')
  | None => None
  end.

Definition new_job (id : jsstring) (f : UploadedFile)
    (region0 school_level : option jsstring) : Job :=
  {| jobId := id; status := running; progress := 0;
     total := totalRows f;
     message := lit "처리 시작...";
     resultFile := None;
     inputData := data f;
     results := [];
     region := or_else region0 (lit "경기");
     schoolLevel := or_else school_level (lit "초등학교") |}.

(** The state in which [POST] starts the background task. *)
Definition registered (job : Job) (s : system) : system :=
  {| mach := mach s; jobs := setJob job (jobs s) |}.

Inductive reply :=
| NotFound
| NoKey
| Started (job_id : jsstring).

(** [POST], followed by the background task that it starts.  [uuid] is
    the identifier drawn, [uploadedFile] the result of [getUploadedFile]
    and [env_key] the value of [ALADIN_TTB_KEY]. *)
Definition POST (fuel : nat) (uuid : jsstring)
    (uploadedFile : option UploadedFile) (env_key : option jsstring)
    (region0 school_level : option jsstring) (s : system)
  : option (reply * system) :=
  match uploadedFile with
  | None => Some (NotFound, s)
  | Some f =>
    if negb (otruthy env_key) then Some (NoKey, s)
    else
      let id := slice0 8 uuid in
      let job := new_job id f region0 school_level in
      match background fuel id (default [] env_key) (registered job s) with
      | Some s' => Some (Started id, s')
      | None => None
      end
  end.

(** ** The same run, one observable state at a time *)

(** Where the background task stands: before the iteration on the first
    of [rest], or settled. *)
Inductive control :=
| AtRow (rest : list BookRow) (i : nat) (results : list ResultRow) (job : Job)
| Settled.

Inductive step (fuel : nat) (id ttbKey : jsstring)
  : system * control -> system * control -> Prop :=
| step_row s r rest i results job results' job' s' :
    iteration fuel ttbKey i r results job s
      = Some (Ret (results', job'), s') ->
    step fuel id ttbKey (s, AtRow (r :: rest) i results job)
                         (s', AtRow rest (S i) results' job')
| step_throw s r rest i results job e s' :
    iteration fuel ttbKey i r results job s = Some (Throw e, s') ->
    step fuel id ttbKey (s, AtRow (r :: rest) i results job)
                         (on_rejected id e s', Settled)
| step_finish s i results job :
    step fuel id ttbKey (s, AtRow [] i results job)
                         (finish id job results s, Settled).

End WithEnv.

End Verify.

(* ================================================================== *)
(** * Concrete hosts and services, for closed examples *)
(* ================================================================== *)

Module Scenario.

(** A host whose case mapping is the Basic Latin one. *)
Definition latin : Runtime := {| toLowerCase := List.map ascii_lower |}.

(** A host whose case mapping covers Basic Latin and the Greek capitals,
    with the Final_Sigma rule of Unicode: a capital sigma that ends a word
    becomes the final sigma.  It agrees with the engine's on strings of
    Basic Latin letters, the Greek letters from U+0391 to U+03C9, digits
    and spaces. *)
Definition is_letter (c : N) : bool :=
  ((65 <=? c) && (c <=? 90) || (97 <=? c) && (c <=? 122)
   || (913 <=? c) && (c <=? 969))%N.
Fixpoint greek_lower (after_letter : bool) (s : jsstring) : jsstring :=
  match s with
  | [] => []
  | c :: r =>
    (if (c =? 931)%N then
       if after_letter
          && negb match r with d :: _ => is_letter d | [] => false end
       then 962%N else 963%N
     else if ((913 <=? c) && (c <=? 939))%N then (c + 32)%N
     else ascii_lower c)
    :: greek_lower (is_letter c) r
  end.
Definition greek : Runtime := {| toLowerCase := greek_lower false |}.

(** A stand-in for Fuzzball with the same range: 100 on equal strings and
    0 on different ones. *)
Definition all_or_nothing : Fuzzball :=
  {| token_set_ratio := fun a b => if str_eqb a b then 100%Z else 0%Z |}.

(** Services without a state of their own: the answer depends on the
    request only. *)
Definition scripted (fa : AladinParams -> fetched AladinResponse)
    (fr : Payload -> fetched Read365ApiResponse) : Network :=
  {| world := unit;
     aladin := fun _ q => (tt, fa q);
     read365 := fun _ p => (tt, fr p) |}.

(** A catalog answer with the given book list and page count. *)
Definition page_of (bs : list Read365Book) (pages : Z)
  : fetched Read365ApiResponse :=
  Response true 200
    (inr {| status := lit "OK";
            data := Some {| allTotalCount := Some (Z.of_nat (length bs));
                            totalPage := Some pages;
                            bookList := Some bs |} |}).

(** A holding of the school named [name]. *)
Definition held_by (name : string) : Read365Book :=
  {| title := None; author := None; schoolName := Some (lit name);
     provName := None; isbn := None |}.

(** The state of a fresh process on the scripted services. *)
Definition start_state (N : Network) (w : @world N) : @machine N :=
  {| net := w; log := []; cache := Cache.empty |}.

End Scenario.

(* ================================================================== *)
(** * The vocabulary of the properties *)
(* ================================================================== *)

Section Vocabulary.
Context `{Runtime} `{Fuzzball} `{Network}.

(** [t] occurs in [s]. *)
Definition occurs_in (t s : jsstring) : Prop :=
  exists before after, s = before ++ t ++ after.

(** The normal form that the specification describes: white space
    stripped, then lower case. *)
Definition school_normal_form (s : jsstring) : jsstring :=
  toLowerCase (strip_spaces s).

(** Text in Basic Latin and Hangul syllables: characters whose lower case
    does not depend on their neighbours. *)
Definition plain (s : jsstring) : bool :=
  forallb (fun c => (c <? 128) || (44032 <=? c) && (c <=? 55203))%N s.

(** What every engine does on such text: the letters A to Z are mapped to
    a to z and nothing else changes. *)
Definition lowers_plain_text : Prop :=
  forall s, plain s = true -> toLowerCase s = List.map ascii_lower s.

(** The two strings differ only in the case of Basic Latin letters and in
    white space. *)
Definition same_but_case_and_space (s t : jsstring) : Prop :=
  List.map ascii_lower (strip_spaces s)
  = List.map ascii_lower (strip_spaces t).

(** The similarity of two strings, in [0, 1]. *)
Definition similarity (a b : jsstring) : float :=
  (number (token_set_ratio a b) / 100)%float.

(** The score in the words of the specification, with its own weights
    0.7 and 0.3. *)
Definition weighted_similarity
    (candidateTitle candidateAuthor queryTitle queryAuthor : jsstring)
  : float :=
  (0.7 * similarity queryTitle candidateTitle
   + 0.3
     * match queryAuthor with
       | [] => 0
       | _ => similarity queryAuthor candidateAuthor
       end)%float.

Definition in_unit_interval (x : float) : bool :=
  PrimFloat.leb 0 x && PrimFloat.leb x 1.

(** The weighted sum of two percentages. *)
Definition blend (t a : Z) : float :=
  (Aladin.w_title * (number t / 100) + Aladin.w_author * (number a / 100))%float.

Definition percentages : list Z := List.map Z.of_nat (seq 0 101).

(** Requests to Aladin in a log. *)
Definition to_aladin (r : request) : bool :=
  match r with ToAladin _ => true | ToRead365 _ => false end.
Definition aladin_calls (l : list request) : nat :=
  length (List.filter to_aladin l).

(** The effect of a computation that only talks to the catalog: the cache
    is untouched and the log grows by catalog requests. *)
Definition catalog_only (s s' : machine) : Prop :=
  cache s' = cache s /\ exists ps, log s' = log s ++ List.map ToRead365 ps.

(** The page count that [searchISBN] reads off an answer. *)
Definition pages_reported (r : fetched Read365ApiResponse) : Z :=
  match r with
  | Response true _ (inr d) =>
    match str_eqb (status d) (lit "OK"), data d with
    | true, Some dd => Read365.num_or_0 (totalPage dd)
    | _, _ => 0
    end
  | _ => 0
  end.

(** The state after one request with body [p]. *)
Definition after_request (p : Payload) (s : machine) : machine :=
  {| net := fst (read365 (net s) p);
     log := log s ++ [ToRead365 p];
     cache := cache s |}.

(** The pages [page], [page + 1], ... ([k] of them). *)
Fixpoint pages_from (page : Z) (k : nat) : list Z :=
  match k with
  | O => []
  | S k' => page :: pages_from (page + 1) k'
  end.

Definition page_request (isbn : jsstring) (provCode : option Read365.ProvCode)
    (page : Z) : request :=
  ToRead365 (Read365.payload_of isbn provCode page 100).

(** The service never reports more than [T] pages. *)
Definition pages_bounded (T : Z) : Prop :=
  forall w p, (pages_reported (snd (read365 w p)) <= T)%Z.

Definition outside (acc : list Read365.ProvCode) (code : jsstring) : bool :=
  negb (Read365.array_includes acc code).

(** The name is one of the properties that the region table inherits from
    [Object.prototype]. *)
Definition inherited (regionName : jsstring) : bool :=
  match Read365.property regionName Read365.Object_prototype with
  | Some _ => true
  | None => false
  end.


(** The searches of the regions taken one by one: every region of the
    list is searched, from the state that the previous search left,
    whether that search returned or threw. *)
Fixpoint region_by_region (fuel : nat) (isbn : jsstring)
    (regions : list Read365.ProvCode) (s : machine)
  : option (list (outcome (list Read365Book)) * machine) :=
  match regions with
  | [] => Some ([], s)
  | code :: rest =>
    match Read365.searchISBNAllPages fuel isbn (Some code) s with
    | None => None
    | Some (o, s1) =>
      match region_by_region fuel isbn rest s1 with
      | Some (os, s2) => Some (o :: os, s2)
      | None => None
      end
    end
  end.

(** The books of the searches that returned. *)
Definition books_fetched (os : list (outcome (list Read365Book)))
  : list Read365Book :=
  List.concat
    (List.map (fun o => match o with Ret bs => bs | Throw _ => [] end) os).

(** The state after one request to Aladin with parameters [q]. *)
Definition after_query (q : AladinParams) (s : machine) : machine :=
  {| net := fst (aladin (net s) q);
     log := log s ++ [ToAladin q];
     cache := cache s |}.

(** The effect of the catalog step on what the resolver step depends on:
    none. *)
Definition resolver_untouched (s s' : machine) : Prop :=
  Cache.isbnCache (cache s') = Cache.isbnCache (cache s)
  /\ aladin_calls (log s') = aladin_calls (log s).

(** The reason that a cache hit restores. *)
Definition cached_reason (c : Cache.ISBNResult) : jsstring :=
  if otruthy (Cache.error c) then default [] (Cache.error c) else [].

(** The state in which the catalog is searched after a miss in the
    search cache. *)
Definition looked_up (school isbn : jsstring) (s : machine) : machine :=
  {| net := net s; log := log s;
     cache := snd (Cache.getSearch school isbn (cache s)) |}.

(** The order of the states of a job: PENDING, then RUNNING, then one of
    COMPLETED and FAILED. *)
Definition advances (a b : Store.JobStatus) : bool :=
  match a, b with
  | Store.pending, _ => true
  | Store.running, Store.pending => false
  | Store.running, _ => true
  | Store.completed, Store.completed => true
  | Store.failed, Store.failed => true
  | _, _ => false
  end.

(** What an observer of a job may rely on. *)
Definition well_formed (j : Store.Job) : Prop :=
  (Store.progress j <= Store.total j)%nat
  /\ (is_Some (Store.resultFile j) <-> Store.status j = Store.completed).

(** What holds of the task and of the stored job between two steps. *)
Definition consistent (id : jsstring) (c : Verify.system * Verify.control)
  : Prop :=
  match c with
  | (s, Verify.AtRow rest i results job) =>
    Verify.jobs s !! id = Some job
    /\ Store.jobId job = id
    /\ Store.status job = Store.running
    /\ Store.resultFile job = None
    /\ Store.progress job = i
    /\ (i + length rest = Store.total job)%nat
  | (s, Verify.Settled) =>
    exists j,
      Verify.jobs s !! id = Some j
      /\ (Store.progress j <= Store.total j)%nat
      /\ ((Store.status j = Store.completed
           /\ is_Some (Store.resultFile j))
          \/ (Store.status j = Store.failed /\ Store.resultFile j = None))
  end.

(** The configuration in which [POST] leaves a new job to its task. *)
Definition started (id fid name : jsstring) (rows : list Store.BookRow)
    (region0 school_level : option jsstring) (s : Verify.system)
  : Verify.system * Verify.control :=
  let job := Verify.new_job id (Store.uploaded fid name rows)
               region0 school_level in
  (Verify.registered job s, Verify.AtRow rows 0 [] job).

End Vocabulary.

(* ================================================================== *)
(** * Scenarios for the closed examples *)
(* ================================================================== *)

Module PagingExamples.

Definition isbn_demian : jsstring := lit "9788937460449".

(** A catalog with nothing to report: no books, zero pages. *)
Definition empty_catalog : Network :=
  Scenario.scripted (fun _ => Rejected []) (fun _ => Scenario.page_of [] 0).

(** A catalog that answers every page with one holding and reports two
    pages. *)
Definition two_pages : Network :=
  Scenario.scripted (fun _ => Rejected [])
    (fun _ => Scenario.page_of [Scenario.held_by "Hanbit"] 2).

(** A catalog that counts its answers and always reports one page more
    than it has served. *)
Definition growing : Network :=
  {| world := nat;
     aladin := fun w _ => (w, Rejected []);
     read365 := fun w _ =>
       (S w, Scenario.page_of [Scenario.held_by "Hanbit"]
               (Z.of_nat w + 2)) |}.

End PagingExamples.

Module ResolverExamples.

(** A resolver that finds nothing. *)
Definition no_results : Network :=
  Scenario.scripted
    (fun _ => Response true 200 (inr {| item := Some [] |}))
    (fun _ => Scenario.page_of [] 0).

Definition ttb : jsstring := lit "ttbkey".

End ResolverExamples.

Module VerifyExamples.

Definition isbn_demian : jsstring := lit "9788937460449".

Definition demian : AladinBook :=
  {| a_title := Some (lit "Demian"); a_author := Some (lit "Hermann Hesse");
     a_isbn13 := Some isbn_demian; a_publisher := None |}.

Definition found_demian : fetched AladinResponse :=
  Response true 200 (inr {| item := Some [demian] |}).

(** Every region holds the book in two schools whose names contain
    the name asked for. *)
Definition two_schools : Network :=
  Scenario.scripted (fun _ => found_demian)
    (fun _ =>
       Scenario.page_of
         [Scenario.held_by "한빛초등학교";
          Scenario.held_by "한빛초등학교병설유치원"] 1).

(** Every region holds the book, in another school. *)
Definition other_school : Network :=
  Scenario.scripted (fun _ => found_demian)
    (fun _ => Scenario.page_of [Scenario.held_by "새솔중학교"] 1).

(** The resolver finds two editions with the title asked for; every
    region holds the book, in another school. *)
Definition two_editions : Network :=
  Scenario.scripted
    (fun _ => Response true 200 (inr {| item := Some [demian; demian] |}))
    (fun _ => Scenario.page_of [Scenario.held_by "새솔중학교"] 1).

(** The region B10 cannot be reached; every other region holds the book
    in one school. *)
Definition seoul_down : Network :=
  Scenario.scripted (fun _ => found_demian)
    (fun p =>
       if match p_provCode p with
          | Some (Text code) => str_eqb code (lit "B10")
          | _ => false
          end
       then Rejected (lit "TypeError: fetch failed")
       else Scenario.page_of [Scenario.held_by "새솔중학교"] 1).

Definition hanbit_demian : Store.BookRow :=
  {| Store.학교명 := lit "한빛초등학교"; Store.도서명 := lit "Demian";
     Store.저자 := []; Store.출판사 := lit "Minumsa" |}.

Definition ttb : jsstring := lit "ttbkey".

End VerifyExamples.

Module BatchExamples.

(** The resolver rejects the request for the title "Momo" and finds
    "Demian" for every other one; the catalog holds the book in another
    school. *)
Definition momo_fails : Network :=
  Scenario.scripted
    (fun q =>
       if str_eqb (Query q) (lit "Momo")
       then Rejected (lit "TypeError: fetch failed")
       else VerifyExamples.found_demian)
    (fun _ => Scenario.page_of [Scenario.held_by "새솔중학교"] 1).

Definition book (title : string) : Store.BookRow :=
  {| Store.학교명 := lit "한빛초등학교"; Store.도서명 := lit title;
     Store.저자 := []; Store.출판사 := [] |}.

Definition fresh : @Verify.system momo_fails :=
  {| Verify.mach := Scenario.start_state momo_fails tt;
     Verify.jobs := ∅ |}.

End BatchExamples.

Module JobExamples.

Definition id : jsstring := lit "3f2a9c1e".

Definition rows : list Store.BookRow :=
  [BatchExamples.book "Demian"; BatchExamples.book "Momo"].

(** The state in which the background task of the job ends. *)
Definition final : @Verify.system BatchExamples.momo_fails :=
  default BatchExamples.fresh
    (@Verify.background Scenario.latin Scenario.all_or_nothing
       BatchExamples.momo_fails 1 id VerifyExamples.ttb
       (Verify.registered
          (Verify.new_job id (Store.uploaded (lit "f1") (lit "books.xlsx") rows)
             None None)
          BatchExamples.fresh)).

End JobExamples.

(* ================================================================== *)
(** * The other routes: job, download, searches *)
(* ================================================================== *)

Module Routes.
Import Store.

(** [s.replace(pat, '')] for a string pattern: the first occurrence of
    [pat] is removed. *)
Fixpoint remove_first (pat s : jsstring) : jsstring :=
  if startsWith s pat then skipn (length pat) s
  else
    match s with
    | [] => []
    | c :: r => c :: remove_first pat r
    end.

(** ** [jobs/[jobId]]: GET and DELETE *)

Record JobView := {
  job_id : jsstring;
  v_status : JobStatus;
  v_progress : nat;
  v_total : nat;
  v_message : jsstring;
  result_file : option jsstring
}.

Definition job_GET (id : jsstring) (jobs : gmap jsstring Job)
  : option JobView :=
  match getJob id jobs with
  | None => None
  | Some job =>
    Some {| job_id := jobId job; v_status := status job;
            v_progress := progress job; v_total := total job;
            v_message := message job; result_file := resultFile job |}
  end.

(** The answer ([None] for 404, the message otherwise) and the map
    afterwards. *)
Definition job_DELETE (id : jsstring) (jobs : gmap jsstring Job)
  : option jsstring * gmap jsstring Job :=
  let (deleted, jobs') := deleteJob id jobs in
  if negb deleted then (None, jobs')
  else (Some (lit "작업 " ++ id ++ lit " 삭제됨"), jobs').

(** ** [download/[filename]] *)

Inductive download_reply :=
| NoSuchFile
| NotReady
| Workbook (rows : list ResultRow) (attachment : jsstring).

Definition is_completed (st : JobStatus) : bool :=
  match st with completed => true | _ => false end.

(** The rows handed to [createResultExcel] and the name of the
    attachment. *)
Definition download (filename : jsstring) (jobs : gmap jsstring Job)
  : download_reply :=
  let id := remove_first (lit "result_") filename in
  match getJob id jobs with
  | None => NoSuchFile
  | Some job =>
    if negb (is_completed (status job))
       || (length (results job) =? 0)%nat
    then NotReady
    else Workbook (results job) (filename ++ lit ".xlsx")
  end.

(** ** The book search route (POST with [isbn], [school], [region]) *)

(** The field [school] of the body, as far as the route tells values
    apart. *)
Inductive SchoolField :=
| NoSchool
    (** absent, or one of [null], [false] and [0] *)
| SchoolText (s : jsstring)
    (** a string *)
| SchoolOther.
    (** any other value: a number, [true], an array or an object *)

(** The body of a request.  [isbn] and [region] are taken to be strings
    when they are truthy ([None]: absent, or one of [null], [false] and
    [0]); a body in which one of them is a number other than 0, [true], an
    array or an object is outside this model.  A body that is itself a
    number, a string, a boolean or an array has none of the fields. *)
Record SearchBody := {
  body_isbn : option jsstring;
  body_school : SchoolField;
  body_region : option jsstring
}.

Definition school_truthy (f : SchoolField) : bool :=
  match f with
  | NoSchool => false
  | SchoolText s => truthy s
  | SchoolOther => true
  end.

(** What calling [findSchoolBooks] with a school that is not a string
    throws, at [schoolName.replace], as [`${error}`] prints it. *)
Definition replace_is_not_a_function : jsstring :=
  lit "TypeError: schoolName.replace is not a function".

Record BookAnswer := {
  b_isbn : jsstring;
  b_school : jsstring;
  b_exists : bool;
  school_count : nat;
  total_count : nat;
  matched_school : option jsstring;
  b_books : list Read365Book
}.

Inductive search_reply :=
| BadRequest (detail : jsstring)
| Answer (a : BookAnswer)
| ServerError (detail : jsstring).

Section WithEnv.
Context `{Runtime} `{Network}.

(** [parsed] is what [await request.json()] gives: the body, or ([inl])
    the error that it throws, or that destructuring the body [null]
    throws. *)
Definition book_search (fuel : nat) (parsed : jsstring + SearchBody)
  : M search_reply :=
  try_catch
    (match parsed with
     | inl error => throw error
     | inr body =>
       let isbn := body_isbn body in
       let school := body_school body in
       let region0 := body_region body in
       if negb (otruthy isbn) then ret (BadRequest (lit "ISBN은 필수입니다"))
       else if negb (school_truthy school)
       then ret (BadRequest (lit "학교명은 필수입니다"))
       else
         let* r :=
           Read365.searchISBNMultiRegion fuel (default [] isbn) region0 6 in
         match school with
         | SchoolText schoolName =>
           let fb :=
             Read365.findSchoolBooks (Read365.m_books r) schoolName in
           let found := Read365.found fb in
           ret (Answer {| b_isbn := default [] isbn;
                          b_school := schoolName;
                          b_exists := (0 <? length found)%nat;
                          school_count := length found;
                          total_count := Read365.m_totalCount r;
                          matched_school := Read365.matchedSchool fb;
                          b_books := firstn 5 found |})
         | NoSchool | SchoolOther => throw replace_is_not_a_function
         end
     end)
    (fun error => ret (ServerError (lit "Read365 API 오류: " ++ error))).

End WithEnv.

End Routes.

(* ================================================================== *)
(** * More vocabulary: cache histories, tidy titles, scores *)
(* ================================================================== *)

Section Histories.
Context `{Runtime} `{Fuzzball}.

(** A call of one of the cache's methods. *)
Inductive cache_op :=
| OpGetISBN (title author : jsstring)
| OpSetISBN (title author : jsstring) (isbn err : option jsstring)
| OpGetSearch (school isbn : jsstring)
| OpSetSearch (school isbn : jsstring) (ex : bool) (count : nat)
    (matched err : option jsstring)
| OpClear.

Definition apply_op (c : Cache.ResultCache) (o : cache_op)
  : Cache.ResultCache :=
  match o with
  | OpGetISBN t a => snd (Cache.getISBN t a c)
  | OpSetISBN t a i e => Cache.setISBN t a i e c
  | OpGetSearch sc i => snd (Cache.getSearch sc i c)
  | OpSetSearch sc i ex n m e => Cache.setSearch sc i ex n m e c
  | OpClear => Cache.clear c
  end.

(** The cache of a process after a history of calls. *)
Definition after_ops (ops : list cache_op) : Cache.ResultCache :=
  fold_left apply_op ops Cache.empty.

(** Lookups of each kind since the last [clear]. *)
Definition isbn_lookups (ops : list cache_op) : nat :=
  fold_left
    (fun n o =>
       match o with OpGetISBN _ _ => S n | OpClear => 0%nat | _ => n end)
    ops 0%nat.
Definition search_lookups (ops : list cache_op) : nat :=
  fold_left
    (fun n o =>
       match o with OpGetSearch _ _ => S n | OpClear => 0%nat | _ => n end)
    ops 0%nat.

(** White space occurs only as single U+0020 characters ([after_space]:
    the previous character was one). *)
Fixpoint single_spaced (after_space : bool) (s : jsstring) : bool :=
  match s with
  | [] => true
  | c :: r =>
    if is_space c
    then (c =? 32)%N && negb after_space && single_spaced true r
    else single_spaced false r
  end.

(** No opening bracket has a closing bracket after it. *)
Fixpoint settled (s : jsstring) : bool :=
  match s with
  | [] => true
  | c :: r => negb (Aladin.is_open c && existsb Aladin.is_close r) && settled r
  end.

(** The first and the last character are not white space. *)
Definition trimmed (s : jsstring) : Prop :=
  (forall c r, s = c :: r -> is_space c = false)
  /\ (forall c r, s = r ++ [c] -> is_space c = false).

(** The score that the resolver's loop gives a candidate. *)
Definition item_score (needleTitle needleAuthor : jsstring)
    (item : AladinBook) : float :=
  Aladin.titleAuthorScore (trim (or_else (a_title item) []))
    (trim (or_else (a_author item) [])) needleTitle needleAuthor.

(** A number value, as opposed to NaN. *)
Definition is_number (x : float) : bool :=
  match Prim2SF x with S754_nan => false | _ => true end.

(** What the loop relies on in a score: it is a number above the initial
    best score of -1. *)
Definition usable_score (x : float) : bool :=
  is_number x && PrimFloat.ltb (-1) x.

(** What the resolver's loop has established after the candidates
    [seen]. *)
Definition best_so_far (needleTitle needleAuthor : jsstring)
    (seen : list AladinBook) (acc : option AladinBook * float) : Prop :=
  match fst acc with
  | None => seen = [] /\ snd acc = (-1)%float
  | Some b =>
    snd acc = item_score needleTitle needleAuthor b
    /\ exists before after,
         seen = before ++ b :: after
         /\ (forall x, In x before ->
                       PrimFloat.ltb (item_score needleTitle needleAuthor x)
                         (item_score needleTitle needleAuthor b) = true)
         /\ (forall x, In x after ->
                       PrimFloat.ltb (item_score needleTitle needleAuthor b)
                         (item_score needleTitle needleAuthor x) = false)
  end.

End Histories.

Section Replay.
Context `{Network}.

(** The book list that [searchISBN] reads off an answer. *)
Definition books_of (r : fetched Read365ApiResponse) : list Read365Book :=
  match r with
  | Response true _ (inr d) =>
    match str_eqb (status d) (lit "OK"), data d with
    | true, Some dd => default [] (bookList dd)
    | _, _ => []
    end
  | _ => []
  end.

(** The answers of the catalog to a sequence of requests, from the state
    [w] of the world on. *)
Fixpoint replay (w : world) (ps : list Payload)
  : list (fetched Read365ApiResponse) :=
  match ps with
  | [] => []
  | p :: rest => snd (read365 w p) :: replay (fst (read365 w p)) rest
  end.

End Replay.

(* ================================================================== *)
(** * More scenarios *)
(* ================================================================== *)

Module MoreExamples.

Definition siddhartha : AladinBook :=
  {| a_title := Some (lit "Siddhartha");
     a_author := Some (lit "Hermann Hesse");
     a_isbn13 := Some (lit " 9788937460586 "); a_publisher := None |}.

(** The resolver returns three candidates, the second and the third with
    the title asked for. *)
Definition three_candidates : Network :=
  Scenario.scripted
    (fun _ =>
       Response true 200
         (inr {| item := Some [siddhartha; VerifyExamples.demian;
                               VerifyExamples.demian] |}))
    (fun _ => Scenario.page_of [Scenario.held_by "새솔중학교"] 1).

End MoreExamples.

(* ================================================================== *)
(** * Properties of the string operations *)
(* ================================================================== *)

Section StringFacts.

Lemma str_eqb_eq (s t : jsstring) : str_eqb s t = true <-> s = t.
Proof.
  revert t; induction s as [|c s IH]; intros [|d t]; simpl; try easy.
  rewrite andb_true_iff, N.eqb_eq, IH. split.
  - intros [E1 E2]. congruence.
  - intros E. injection E as E1 E2. auto.
Qed.

Lemma str_eqb_refl (s : jsstring) : str_eqb s s = true.
Proof. apply str_eqb_eq; reflexivity. Qed.

Lemma str_eqb_neq (s t : jsstring) : str_eqb s t = false <-> s <> t.
Proof.
  rewrite <- str_eqb_eq. destruct (str_eqb s t); split; congruence.
Qed.

Lemma startsWith_iff (s t : jsstring) :
  startsWith s t = true <-> exists after, s = t ++ after.
Proof.
  revert s; induction t as [|d t IH]; intros s; simpl.
  - split; eauto.
  - destruct s as [|c s].
    + split; [discriminate | intros [a Ha]; discriminate].
    + rewrite andb_true_iff, N.eqb_eq, IH. split.
      * intros [E [a Ha]]. exists a. congruence.
      * intros [a Ha]. injection Ha as E1 E2. eauto.
Qed.

Lemma includes_iff (s t : jsstring) :
  includes s t = true <-> occurs_in t s.
Proof.
  unfold occurs_in. induction s as [|c s IH]; simpl.
  - rewrite orb_false_r, startsWith_iff. split.
    + intros [a Ha]. exists [], a. exact Ha.
    + intros [[|b bs] [a Ha]]; [eauto | discriminate].
  - rewrite orb_true_iff, startsWith_iff, IH. split.
    + intros [[a Ha] | [b [a Ha]]].
      * exists [], a. exact Ha.
      * exists (c :: b), a. simpl. congruence.
    + intros [[|b bs] [a Ha]].
      * left. eauto.
      * right. simpl in Ha. injection Ha as _ Ha. eauto.
Qed.

End StringFacts.

(* ================================================================== *)
(** * School matching *)
(* ================================================================== *)

Section SchoolMatching.
Context `{Runtime}.

(** [findSchoolBooks] keeps exactly the books whose school passes the
    test, in order. *)
Lemma findSchoolBooks_found (bs : list Read365Book) (school : jsstring) :
  Read365.found (Read365.findSchoolBooks bs school)
  = List.filter
      (fun b => Read365.schoolNameMatches (or_else (schoolName b) []) school)
      bs.
Proof.
  unfold Read365.findSchoolBooks.
  set (step := fun acc book => _).
  assert (G : forall acc,
    Read365.found (fold_left step bs acc)
    = Read365.found acc
      ++ List.filter
          (fun b =>
             Read365.schoolNameMatches (or_else (schoolName b) []) school)
          bs).
  { induction bs as [|b bs IH]; intros acc; simpl.
    - now rewrite app_nil_r.
    - rewrite IH. unfold step.
      destruct (Read365.schoolNameMatches _ school); simpl.
      + now rewrite <- app_assoc.
      + reflexivity. }
  now rewrite G.
Qed.

End SchoolMatching.

(** C7. For all pairs of school names, the match test of [findSchoolBooks]
    holds if and only if, after stripping all white space and lower-casing
    both names, one is a substring of the other; with the Basic Latin case
    mapping it holds for "OO Elementary School" and "OOElementarySchool"
    and fails for "Central Elementary" and "North Elementary". *)
Theorem schoolNameMatches_iff_containment :
  (forall (R : Runtime) (candidate query : jsstring),
     Read365.schoolNameMatches candidate query = true
     <-> (occurs_in (school_normal_form query) (school_normal_form candidate)
          \/ occurs_in (school_normal_form candidate)
                       (school_normal_form query)))
  /\ @Read365.schoolNameMatches Scenario.latin
       (lit "OO Elementary School") (lit "OOElementarySchool") = true
  /\ @Read365.schoolNameMatches Scenario.latin
       (lit "Central Elementary") (lit "North Elementary") = false.
Proof.
  split; [|split].
  - intros R candidate query. unfold Read365.schoolNameMatches.
    rewrite orb_true_iff, !includes_iff. reflexivity.
  - vm_compute. reflexivity.
  - vm_compute. reflexivity.
Qed.

(* ================================================================== *)
(** * Scoring *)
(* ================================================================== *)

Lemma percentages_complete (z : Z) : (0 <= z <= 100)%Z -> In z percentages.
Proof.
  intros Hz. unfold percentages. apply in_map_iff.
  exists (Z.to_nat z). split; [lia | apply in_seq; lia].
Qed.

(** Every pair of percentages, checked by evaluation in binary64. *)
Lemma blend_grid :
  forallb
    (fun t =>
       in_unit_interval (Aladin.w_title * (number t / 100)
                         + Aladin.w_author * 0)%float
       && forallb (fun a => in_unit_interval (blend t a)) percentages)
    percentages = true.
Proof. vm_compute. reflexivity. Qed.

Lemma blend_in_unit_interval (t a : Z) :
  (0 <= t <= 100)%Z -> (0 <= a <= 100)%Z ->
  in_unit_interval (blend t a) = true
  /\ in_unit_interval (Aladin.w_title * (number t / 100)
                       + Aladin.w_author * 0)%float = true.
Proof.
  intros Ht Ha.
  pose proof blend_grid as G. rewrite forallb_forall in G.
  specialize (G t (percentages_complete t Ht)).
  apply andb_true_iff in G. destruct G as [G0 G].
  rewrite forallb_forall in G. split; [|exact G0].
  apply G, percentages_complete, Ha.
Qed.

(** C6. For all candidate and query strings, the score computed in the
    resolver's loop is 0.7 times the similarity of the titles plus 0.3
    times the similarity of the authors (0 when the query author is empty),
    and, the similarity being a percentage, it lies in [0, 1]. *)
Theorem titleAuthorScore_weighted (F : Fuzzball)
    (percent : forall a b, (0 <= token_set_ratio a b <= 100)%Z)
    (candidateTitle candidateAuthor queryTitle queryAuthor : jsstring) :
  Aladin.titleAuthorScore candidateTitle candidateAuthor queryTitle queryAuthor
  = weighted_similarity candidateTitle candidateAuthor queryTitle queryAuthor
  /\ in_unit_interval
       (Aladin.titleAuthorScore candidateTitle candidateAuthor
          queryTitle queryAuthor) = true.
Proof.
  unfold Aladin.titleAuthorScore, weighted_similarity, similarity.
  pose proof (percent queryTitle candidateTitle) as Ht.
  pose proof (percent queryAuthor candidateAuthor) as Ha.
  destruct (blend_in_unit_interval _ _ Ht Ha) as [B1 B0].
  destruct queryAuthor as [|c q]; simpl truthy; cbv iota.
  - split; [reflexivity | exact B0].
  - split; [reflexivity | exact B1].
Qed.

Lemma titleAuthorScore_weighted_witness :
  @Aladin.titleAuthorScore Scenario.all_or_nothing
    (lit "Demian") (lit "Hesse") (lit "Demian") (lit "Hermann Hesse")
  = @weighted_similarity Scenario.all_or_nothing
      (lit "Demian") (lit "Hesse") (lit "Demian") (lit "Hermann Hesse")
  /\ in_unit_interval
       (@Aladin.titleAuthorScore Scenario.all_or_nothing
          (lit "Demian") (lit "Hesse") (lit "Demian") (lit "Hermann Hesse"))
     = true.
Proof.
  apply (titleAuthorScore_weighted Scenario.all_or_nothing).
  intros a b. simpl. destruct (str_eqb a b); lia.
Defined.

(* ================================================================== *)
(** * Facts about computations *)
(* ================================================================== *)

Section MonadFacts.
Context `{Network}.

Lemma bind_inv {A B} (m : M A) (f : A -> M B) s o s' :
  bind m f s = Some (o, s') ->
  (exists a s1, m s = Some (Ret a, s1) /\ f a s1 = Some (o, s'))
  \/ (exists e, m s = Some (Throw e, s') /\ o = Throw e).
Proof.
  unfold bind. destruct (m s) as [[[a|e] s1]|]; intros E.
  - left; eauto.
  - right. injection E as <- <-. eauto.
  - discriminate.
Qed.

Lemma try_catch_inv {A} (m : M A) (h : jsstring -> M A) s o s' :
  try_catch m h s = Some (o, s') ->
  (exists a, m s = Some (Ret a, s') /\ o = Ret a)
  \/ (exists e s1, m s = Some (Throw e, s1) /\ h e s1 = Some (o, s')).
Proof.
  unfold try_catch. destruct (m s) as [[[a|e] s1]|]; intros E.
  - left. injection E as <- <-. eauto.
  - right; eauto.
  - discriminate.
Qed.

Lemma aladin_calls_app (l1 l2 : list request) :
  aladin_calls (l1 ++ l2) = aladin_calls l1 + aladin_calls l2.
Proof. unfold aladin_calls. now rewrite List.filter_app, length_app. Qed.

Lemma aladin_calls_read365 (ps : list Payload) :
  aladin_calls (List.map ToRead365 ps) = 0.
Proof. induction ps; simpl; auto. Qed.

Lemma catalog_only_refl s : catalog_only s s.
Proof. split; [reflexivity | exists []; simpl; now rewrite app_nil_r]. Qed.

Lemma catalog_only_trans s1 s2 s3 :
  catalog_only s1 s2 -> catalog_only s2 s3 -> catalog_only s1 s3.
Proof.
  intros [C1 [p1 L1]] [C2 [p2 L2]]. split; [congruence|].
  exists (p1 ++ p2). rewrite L2, L1, List.map_app. now rewrite app_assoc.
Qed.

Lemma catalog_only_calls s s' :
  catalog_only s s' -> aladin_calls (log s') = aladin_calls (log s).
Proof.
  intros [_ [ps L]]. rewrite L, aladin_calls_app, aladin_calls_read365. lia.
Qed.

End MonadFacts.

(* ================================================================== *)
(** * Paging through one region *)
(* ================================================================== *)

Section Paging.
Context `{Network}.

Lemma searchISBN_run isbn provCode page pageSize s :
  let p := Read365.payload_of isbn provCode page pageSize in
  exists o,
    Read365.searchISBN isbn provCode page pageSize s
    = Some (o, after_request p s)
    /\ forall r, o = Ret r ->
         Read365.totalPages r = pages_reported (snd (read365 (net s) p)).
Proof.
  intros p. unfold Read365.searchISBN, try_catch, bind, fetch_read365.
  fold p. unfold after_request.
  destruct (read365 (net s) p) as [w [err | ok code body]]; simpl.
  - eexists; split; [reflexivity | discriminate].
  - destruct ok; simpl.
    + destruct body as [err | d]; simpl.
      * eexists; split; [reflexivity | discriminate].
      * destruct (str_eqb (status d) (lit "OK")); simpl;
          [destruct (data d) as [dd|]; simpl|];
          (eexists; split; [reflexivity | intros r [= <-]; reflexivity]).
    + eexists; split; [reflexivity | discriminate].
Qed.

Lemma pages_from_S page k :
  pages_from page (S k) = page :: pages_from (page + 1) k.
Proof. reflexivity. Qed.

Lemma allPages_loop_run (T : Z) (bounded : pages_bounded T) isbn provCode :
  forall fuel page acc s,
    (1 <= fuel)%nat -> (T < page + Z.of_nat fuel)%Z ->
    exists o s' k,
      Read365.allPages_loop fuel isbn provCode acc page s = Some (o, s')
      /\ (1 <= k)%nat /\ (Z.of_nat k <= Z.max 1 (T - page + 1))%Z
      /\ log s' = log s
                  ++ List.map (page_request isbn provCode) (pages_from page k)
      /\ cache s' = cache s.
Proof.
  induction fuel as [|fuel IH]; intros page acc s Hf HT; [lia|].
  simpl. unfold bind at 1.
  destruct (searchISBN_run isbn provCode page 100 s) as [o [E Hpages]].
  simpl in E. rewrite E.
  assert (One : log (after_request (Read365.payload_of isbn provCode page 100) s)
                = log s ++ List.map (page_request isbn provCode)
                                    (pages_from page 1)).
  { reflexivity. }
  destruct o as [r | e].
  - specialize (Hpages r eq_refl).
    destruct (length (Read365.books r) =? 0)%nat.
    { eexists _, _, 1%nat. split; [reflexivity|].
      repeat split; auto; lia. }
    destruct (Read365.totalPages r <=? page)%Z eqn:Elast.
    { eexists _, _, 1%nat. split; [reflexivity|].
      repeat split; auto; lia. }
    apply Z.leb_gt in Elast.
    pose proof (bounded (net s) (Read365.payload_of isbn provCode page 100))
      as Hb.
    rewrite <- Hpages in Hb.
    destruct (IH (page + 1)%Z (acc ++ Read365.books r)
                 (after_request (Read365.payload_of isbn provCode page 100) s))
      as [o' [s' [k [E' [Hk1 [Hk2 [Hlog Hcache]]]]]]]; [lia | lia |].
    exists o', s', (S k). split; [exact E'|].
    split; [lia|]. split; [lia|]. split.
    + rewrite Hlog, pages_from_S. simpl. now rewrite <- app_assoc.
    + rewrite Hcache. reflexivity.
  - eexists _, _, 1%nat. split; [reflexivity|].
    repeat split; auto; lia.
Qed.

(** A page that is empty, or that is the last one reported, ends the
    loop at once. *)
Lemma allPages_loop_stops fuel isbn provCode acc page s r s1 :
  Read365.searchISBN isbn provCode page 100 s = Some (Ret r, s1) ->
  Read365.books r = [] \/ (Read365.totalPages r <= page)%Z ->
  exists bs,
    Read365.allPages_loop (S fuel) isbn provCode acc page s
    = Some (Ret bs, s1).
Proof.
  intros E Stop. simpl. unfold bind at 1. rewrite E.
  destruct Stop as [Empty | Last].
  - rewrite Empty. simpl. eexists; reflexivity.
  - destruct (length (Read365.books r) =? 0)%nat; [eexists; reflexivity|].
    apply Z.leb_le in Last. rewrite Last. eexists; reflexivity.
Qed.

Lemma after_request_catalog_only p s : catalog_only s (after_request p s).
Proof. split; [reflexivity | exists [p]; reflexivity]. Qed.

(** Whatever the service answers, the loop only talks to the catalog. *)
Lemma allPages_loop_effect isbn provCode :
  forall fuel page acc s o s',
    Read365.allPages_loop fuel isbn provCode acc page s = Some (o, s') ->
    catalog_only s s'.
Proof.
  induction fuel as [|fuel IH]; intros page acc s o s' E; [discriminate|].
  simpl in E. unfold bind at 1 in E.
  destruct (searchISBN_run isbn provCode page 100 s) as [o1 [E1 _]].
  simpl in E1. rewrite E1 in E.
  pose proof (after_request_catalog_only
                (Read365.payload_of isbn provCode page 100) s) as C1.
  destruct o1 as [r | e].
  - destruct (length (Read365.books r) =? 0)%nat.
    { injection E as <- <-. exact C1. }
    destruct (Read365.totalPages r <=? page)%Z.
    { injection E as <- <-. exact C1. }
    eapply catalog_only_trans; [exact C1 | eapply IH, E].
  - injection E as <- <-. exact C1.
Qed.

End Paging.

(** C3 (as amended). When the service reports at most [T] pages, the loop
    of [searchISBNAllPages] returns after [k] requests, for the pages
    1, ..., k in this order, with 1 <= k <= max(1, T): the first page is
    always requested, and no page beyond max(1, T) ever is.  A page whose
    book list is empty, or whose number has reached the reported page count
    (even if that page is not empty), ends the loop without another
    request. *)
Theorem searchISBNAllPages_within_pages (N : Network) (T : Z)
    (bounded : pages_bounded T) (isbn : jsstring)
    (provCode : option Read365.ProvCode) (fuel : nat) (s : machine)
    (enough : (Z.max 1 T <= Z.of_nat fuel)%Z) :
  (exists o s' k,
     Read365.searchISBNAllPages fuel isbn provCode s = Some (o, s')
     /\ (1 <= k)%nat /\ (Z.of_nat k <= Z.max 1 T)%Z
     /\ log s' = log s
                 ++ List.map (page_request isbn provCode) (pages_from 1 k))
  /\ (forall f acc page s0 r s1,
        Read365.searchISBN isbn provCode page 100 s0 = Some (Ret r, s1) ->
        Read365.books r = [] \/ (Read365.totalPages r <= page)%Z ->
        exists bs,
          Read365.allPages_loop (S f) isbn provCode acc page s0
          = Some (Ret bs, s1)).
Proof.
  split.
  - destruct (allPages_loop_run T bounded isbn provCode fuel 1 [] s)
      as [o [s' [k [E [Hk1 [Hk2 [Hlog _]]]]]]]; [lia | lia |].
    exists o, s', k. unfold Read365.searchISBNAllPages.
    repeat split; auto. replace (T - 1 + 1)%Z with T in Hk2 by lia. exact Hk2.
  - intros f acc page s0 r s1 E Stop.
    eapply allPages_loop_stops; eauto.
Qed.

Lemma searchISBNAllPages_within_pages_witness :
  (exists o s' k,
     @Read365.searchISBNAllPages PagingExamples.two_pages 2
        PagingExamples.isbn_demian None (Scenario.start_state PagingExamples.two_pages tt)
     = Some (o, s')
     /\ (1 <= k)%nat /\ (Z.of_nat k <= Z.max 1 2)%Z
     /\ log s' = log (Scenario.start_state PagingExamples.two_pages tt)
                 ++ List.map (page_request PagingExamples.isbn_demian None)
                      (pages_from 1 k))
  /\ (forall f acc page s0 r s1,
        @Read365.searchISBN PagingExamples.two_pages
          PagingExamples.isbn_demian None page 100 s0 = Some (Ret r, s1) ->
        Read365.books r = [] \/ (Read365.totalPages r <= page)%Z ->
        exists bs,
          Read365.allPages_loop (S f) PagingExamples.isbn_demian None acc
            page s0
          = Some (Ret bs, s1)).
Proof.
  apply (searchISBNAllPages_within_pages PagingExamples.two_pages 2).
  - intros w p. vm_compute. discriminate.
  - vm_compute. discriminate.
Defined.

(** On the two-page catalog the loop asks for page 1 and page 2 and stops,
    although page 2 is not empty. *)
Example two_pages_two_requests :
  exists bs s',
    @Read365.searchISBNAllPages PagingExamples.two_pages 5
       PagingExamples.isbn_demian None (Scenario.start_state PagingExamples.two_pages tt)
    = Some (Ret bs, s')
    /\ length bs = 2
    /\ log s' = [page_request PagingExamples.isbn_demian None 1;
                 page_request PagingExamples.isbn_demian None 2].
Proof. eexists _, _. vm_compute. repeat split. Qed.

(** Why the bound on the reported page count is needed: on a catalog
    whose page count grows with every answer, the loop never ends. *)
Lemma growing_catalog_never_ends (fuel : nat) :
  @Read365.searchISBNAllPages PagingExamples.growing fuel
     PagingExamples.isbn_demian None
     (Scenario.start_state PagingExamples.growing 0%nat)
  = None.
Proof.
  unfold Read365.searchISBNAllPages.
  generalize (@nil Read365Book) as acc.
  assert (G : forall (l : list request) (c : Cache.ResultCache) w acc,
    @Read365.allPages_loop PagingExamples.growing fuel
      PagingExamples.isbn_demian None acc (Z.of_nat w + 1)
      (@Build_machine PagingExamples.growing w l c) = None).
  { induction fuel as [|fuel IH]; intros l c w acc; [reflexivity|].
    simpl. unfold bind at 1. unfold Read365.searchISBN, try_catch, bind,
      fetch_read365. simpl.
    replace (Z.of_nat w + 2 <=? Z.of_nat w + 1)%Z with false
      by (symmetry; apply Z.leb_gt; lia).
    replace (Z.of_nat w + 1 + 1)%Z with (Z.of_nat (S w) + 1)%Z by lia.
    apply IH. }
  intros acc. exact (G [] Cache.empty 0%nat acc).
Qed.

(** C3, counterexample to the claim as stated: on a catalog that reports
    zero pages and no books, the loop still issues one request, for page 1,
    which is more than the zero pages reported and is page
    [totalPages + 1]. *)
Lemma searchISBNAllPages_requests_first_page_of_none :
  pages_reported (Scenario.page_of [] 0) = 0%Z
  /\ exists s',
       @Read365.searchISBNAllPages PagingExamples.empty_catalog 1
          PagingExamples.isbn_demian None (Scenario.start_state PagingExamples.empty_catalog tt)
       = Some (Ret [], s')
       /\ log s' = [page_request PagingExamples.isbn_demian None (0 + 1)]
       /\ ~ (Z.of_nat (length (log s'))
             <= pages_reported (Scenario.page_of [] 0))%Z.
Proof.
  split; [reflexivity|]. eexists. split; [vm_compute; reflexivity|].
  split; [reflexivity|]. vm_compute. intros Hle. apply Hle. reflexivity.
Qed.

(* ================================================================== *)
(** * Searching several regions *)
(* ================================================================== *)

Section RegionList.

Lemma array_includes_In acc code :
  Read365.array_includes acc code = true <-> In (Read365.Code code) acc.
Proof.
  unfold Read365.array_includes. rewrite existsb_exists. split.
  - intros [[c|m|] [Hx E]]; try discriminate.
    apply str_eqb_eq in E. now subst.
  - intros Hin. exists (Read365.Code code).
    split; [exact Hin | apply str_eqb_refl].
Qed.

Lemma outside_snoc acc c codes :
  ~ In c codes ->
  List.filter (outside (acc ++ [Read365.Code c])) codes
  = List.filter (outside acc) codes.
Proof.
  intros Hc. apply filter_ext_in. intros x Hx. unfold outside. f_equal.
  apply eq_true_iff_eq. rewrite !array_includes_In, in_app_iff. simpl.
  split; [|tauto].
  intros [Hin | [E | []]]; [exact Hin|].
  injection E as <-. contradiction.
Qed.

Lemma fold_add_region (maxRegions : Z) (codes : list jsstring) :
  List.NoDup codes ->
  forall acc,
    fold_left (Read365.add_region maxRegions) codes acc
    = acc ++ List.map Read365.Code
               (firstn (Z.to_nat (maxRegions - Z.of_nat (length acc)))
                  (List.filter (outside acc) codes)).
Proof.
  induction codes as [|c codes IH]; intros ND acc.
  - simpl. now rewrite firstn_nil, app_nil_r.
  - inversion ND as [|? ? Hc ND']; subst. simpl.
    unfold Read365.add_region at 2. unfold outside at 1.
    destruct (Read365.array_includes acc c) eqn:Ein; simpl.
    + apply IH, ND'.
    + destruct (Z.of_nat (length acc) <? maxRegions)%Z eqn:Elt.
      * apply Z.ltb_lt in Elt. rewrite (IH ND'), outside_snoc by exact Hc.
        rewrite length_app. simpl.
        replace (Z.to_nat (maxRegions - Z.of_nat (length acc)))
          with (S (Z.to_nat (maxRegions - Z.of_nat (length acc + 1))))
          by lia.
        simpl. now rewrite <- app_assoc.
      * apply Z.ltb_ge in Elt. rewrite (IH ND').
        replace (Z.to_nat (maxRegions - Z.of_nat (length acc))) with 0%nat
          by lia.
        reflexivity.
Qed.

Lemma MAJOR_REGION_CODES_NoDup : List.NoDup Read365.MAJOR_REGION_CODES.
Proof.
  apply (NoDup_map_inv (fun c => N.to_nat (nth 0 c 0%N))).
  vm_compute. repeat constructor; simpl; intuition discriminate.
Qed.


Lemma property_In {V} (k : jsstring) (obj : list (jsstring * V)) v :
  Read365.property k obj = Some v -> In (k, v) obj.
Proof.
  induction obj as [|[k' v'] obj IH]; simpl; [discriminate|].
  destruct (str_eqb k k') eqn:E.
  - intros [= <-]. apply str_eqb_eq in E. subst k'. now left.
  - intros P. right. auto.
Qed.

Lemma region_table_codes :
  forallb (fun kv => existsb (str_eqb (snd kv)) Read365.MAJOR_REGION_CODES
                     && truthy (snd kv))
    Read365.REGION_CODE_MAP = true.
Proof. vm_compute. reflexivity. Qed.

(** Every code of the region table is a well-known code, and not empty. *)
Lemma region_table_code regionName code :
  Read365.property regionName Read365.REGION_CODE_MAP = Some code ->
  truthy code = true /\ In code Read365.MAJOR_REGION_CODES.
Proof.
  intros P. apply property_In in P.
  pose proof region_table_codes as M.
  rewrite forallb_forall in M. specialize (M _ P). cbn [snd] in M.
  apply andb_true_iff in M. destruct M as [M Tr]. split; [exact Tr|].
  apply existsb_exists in M. destruct M as [c [Hc E]].
  apply str_eqb_eq in E. now subst c.
Qed.


Lemma searchRegions_closed_form primaryRegion maxRegions :
  Read365.searchRegions primaryRegion maxRegions
  = Read365.preferred primaryRegion
    ++ List.map Read365.Code
         (firstn
            (Z.to_nat (maxRegions
                       - Z.of_nat (length (Read365.preferred primaryRegion))))
            (List.filter (outside (Read365.preferred primaryRegion))
               Read365.MAJOR_REGION_CODES)).
Proof. apply fold_add_region, MAJOR_REGION_CODES_NoDup. Qed.

Lemma In_firstn {A} (x : A) n l : In x (firstn n l) -> In x l.
Proof.
  revert n; induction l as [|a l IH]; intros [|n]; simpl; try tauto.
  intros [-> | Hin]; [now left | right; eapply IH, Hin].
Qed.




Lemma searchRegions_length primaryRegion maxRegions :
  (Z.of_nat (length (Read365.searchRegions primaryRegion maxRegions))
   <= Z.max maxRegions (Z.of_nat (length (Read365.preferred primaryRegion))))%Z.
Proof.
  rewrite searchRegions_closed_form, length_app, length_map, length_firstn.
  lia.
Qed.

End RegionList.

Section RegionLoop.
Context `{Network}.

Lemma regions_loop_aggregate fuel isbn regions :
  forall acc s,
    Read365.regions_loop fuel isbn regions acc s
    = match region_by_region fuel isbn regions s with
      | Some (os, s') =>
        Some (Ret {| Read365.m_totalCount :=
                       Read365.m_totalCount acc + length (books_fetched os);
                     Read365.m_books :=
                       Read365.m_books acc ++ books_fetched os |}, s')
      | None => None
      end.
Proof.
  induction regions as [|code rest IH]; intros acc s; simpl.
  - unfold ret, books_fetched. simpl.
    rewrite app_nil_r, Nat.add_0_r. now destruct acc.
  - unfold bind at 1, try_catch, bind at 1.
    destruct (Read365.searchISBNAllPages fuel isbn (Some code) s)
      as [[[bs | e] s1]|]; simpl; [| |reflexivity].
    + rewrite IH. simpl.
      destruct (region_by_region fuel isbn rest s1) as [[os s2]|];
        [|reflexivity].
      unfold books_fetched. simpl.
      rewrite length_app, <- app_assoc, Nat.add_assoc. reflexivity.
    + rewrite IH.
      destruct (region_by_region fuel isbn rest s1) as [[os s2]|];
        reflexivity.
Qed.

Lemma region_by_region_run (T : Z) (bounded : pages_bounded T) fuel isbn
    (enough : (Z.max 1 T <= Z.of_nat fuel)%Z) regions :
  forall s, exists os s',
    region_by_region fuel isbn regions s = Some (os, s')
    /\ catalog_only s s'.
Proof.
  induction regions as [|code rest IH]; intros s; simpl.
  - exists [], s. split; [reflexivity | apply catalog_only_refl].
  - destruct (allPages_loop_run T bounded isbn (Some code) fuel 1 [] s)
      as [o [s1 [k [E [_ [_ [Hlog Hcache]]]]]]]; [lia | lia |].
    unfold Read365.searchISBNAllPages. rewrite E.
    destruct (IH s1) as [os [s2 [E2 C2]]]. rewrite E2.
    exists (o :: os), s2. split; [reflexivity|].
    eapply catalog_only_trans; [|exact C2].
    split; [exact Hcache|].
    exists (List.map (fun pg => Read365.payload_of isbn (Some code) pg 100)
              (pages_from 1 k)).
    rewrite Hlog, List.map_map. reflexivity.
Qed.

(** With a bounded page count and enough fuel, the search over several
    regions returns a result and does not throw; it only talks to the
    catalog. *)
Lemma searchISBNMultiRegion_run (T : Z) (bounded : pages_bounded T) fuel isbn
    (enough : (Z.max 1 T <= Z.of_nat fuel)%Z) primaryRegion maxRegions s :
  exists r s',
    Read365.searchISBNMultiRegion fuel isbn primaryRegion maxRegions s
    = Some (Ret r, s')
    /\ Read365.m_totalCount r = length (Read365.m_books r)
    /\ catalog_only s s'.
Proof.
  unfold Read365.searchISBNMultiRegion. rewrite regions_loop_aggregate.
  destruct (region_by_region_run T bounded fuel isbn enough
              (Read365.searchRegions primaryRegion maxRegions) s)
    as [os [s' [E C]]].
  rewrite E. eexists _, s'. split; [reflexivity|]. split; [|exact C].
  reflexivity.
Qed.

(** Whenever the search over several regions ends, it ends with a result
    whose count is the number of books in it. *)
Lemma searchISBNMultiRegion_count fuel isbn primaryRegion maxRegions s o s' :
  Read365.searchISBNMultiRegion fuel isbn primaryRegion maxRegions s
  = Some (o, s') ->
  exists r, o = Ret r
            /\ Read365.m_totalCount r = length (Read365.m_books r)
            /\ catalog_only s s'.
Proof.
  unfold Read365.searchISBNMultiRegion. rewrite regions_loop_aggregate.
  destruct (region_by_region fuel isbn _ s) as [[os s2]|] eqn:E;
    [|discriminate].
  intros [= <- <-]. eexists. split; [reflexivity|]. split; [reflexivity|].
  clear -E. revert s s2 os E.
  induction (Read365.searchRegions primaryRegion maxRegions)
    as [|code rest IH]; intros s s2 os E; simpl in E.
  - injection E as <- <-. apply catalog_only_refl.
  - destruct (Read365.searchISBNAllPages fuel isbn (Some code) s)
      as [[o1 s1]|] eqn:E1; [|discriminate].
    destruct (region_by_region fuel isbn rest s1) as [[os' s3]|] eqn:E3;
      [|discriminate].
    injection E as <- <-.
    eapply catalog_only_trans; [|eapply IH, E3].
    eapply allPages_loop_effect, E1.
Qed.

End RegionLoop.



(** With no preferred region and the default of 6, the first six
    well-known regions are searched. *)
Example searchRegions_default :
  Read365.searchRegions None 6
  = List.map (fun c => Read365.Code (lit c))
      ["B10"; "C10"; "D10"; "E10"; "F10"; "G10"]%string.
Proof. vm_compute. reflexivity. Qed.

(** A name that the region table inherits from [Object.prototype] is not
    covered by the statement above: the lookup gives a function, which is
    searched first, in a request without [provCode]. *)
Example searchRegions_inherited_name :
  Read365.searchRegions (Some (lit "constructor")) 6
  = Read365.Method (lit "constructor")
    :: List.map (fun c => Read365.Code (lit c))
         ["B10"; "C10"; "D10"; "E10"; "F10"]%string
  /\ p_provCode
       (Read365.payload_of VerifyExamples.isbn_demian
          (Some (Read365.Method (lit "constructor"))) 1 100)
     = None.
Proof. split; vm_compute; reflexivity. Qed.

(** With Seoul preferred and out of reach, the two regions after it are
    still searched and their books returned. *)
Example search_continues_after_failure :
  exists s',
    @Read365.searchISBNMultiRegion VerifyExamples.seoul_down 1
       VerifyExamples.isbn_demian (Some (lit "서울")) 3
       (Scenario.start_state VerifyExamples.seoul_down tt)
    = Some (Ret {| Read365.m_totalCount := 2;
                   Read365.m_books := [Scenario.held_by "새솔중학교";
                                       Scenario.held_by "새솔중학교"] |}, s')
    /\ log s'
       = [page_request VerifyExamples.isbn_demian
            (Some (Read365.Code (lit "B10"))) 1;
          page_request VerifyExamples.isbn_demian
            (Some (Read365.Code (lit "C10"))) 1;
          page_request VerifyExamples.isbn_demian
            (Some (Read365.Code (lit "D10"))) 1].
Proof. eexists. split; vm_compute; reflexivity. Qed.


(* ================================================================== *)
(** * The resolver *)
(* ================================================================== *)

Section Resolver.
Context `{Fuzzball} `{Network}.

(** The resolver always ends; it sends no request for the empty title and
    exactly one otherwise, and it throws what a rejected request carries. *)
Lemma searchISBNByTitleAuthor_run ttbKey title author thr s :
  (title = []
   /\ Aladin.searchISBNByTitleAuthor ttbKey title author thr s
      = Some (Ret {| Aladin.isbn13 := None;
                     Aladin.error := Some (lit "빈 제목");
                     Aladin.candidateCount := 0 |}, s))
  \/ (title <> []
      /\ exists o,
           Aladin.searchISBNByTitleAuthor ttbKey title author thr s
           = Some (o, after_query (Aladin.params_of ttbKey title) s)
           /\ forall err,
                snd (aladin (net s) (Aladin.params_of ttbKey title))
                = Rejected err -> o = Throw err).
Proof.
  unfold Aladin.searchISBNByTitleAuthor.
  destruct title as [|c title]; [left; split; reflexivity|].
  right. split; [discriminate|].
  cbn [truthy negb]. cbv iota.
  set (q := Aladin.params_of ttbKey (c :: title)).
  unfold try_catch, bind, fetch_aladin, after_query.
  destruct (aladin (net s) q) as [w [err | ok code body]]; simpl.
  - eexists; split; [reflexivity | intros e [= <-]; reflexivity].
  - destruct ok; simpl; [|eexists; split; [reflexivity | discriminate]].
    destruct body as [err | d]; simpl;
      [eexists; split; [reflexivity | discriminate]|].
    destruct (length (default [] (item d)) =? 0)%nat; simpl;
      [eexists; split; [reflexivity | discriminate]|].
    destruct (Aladin.pick_best _ _ _) as [[b|] score];
      [|eexists; split; [reflexivity | discriminate]].
    destruct (PrimFloat.leb thr score);
      [|eexists; split; [reflexivity | discriminate]].
    destruct (truthy _);
      eexists; split; reflexivity || discriminate.
Qed.

End Resolver.

(* ================================================================== *)
(** * One record *)
(* ================================================================== *)

Section OneRecord.
Context `{Runtime} `{Fuzzball} `{Network}.

Lemma with_cache_eq {A} (f : Cache.ResultCache -> A * Cache.ResultCache) s :
  with_cache f s
  = Some (Ret (fst (f (cache s))),
          {| net := net s; log := log s; cache := snd (f (cache s)) |}).
Proof. unfold with_cache. now destruct (f (cache s)). Qed.

Lemma getISBN_fst title author c :
  fst (Cache.getISBN title author c)
  = Cache.isbnCache c !! Cache.makeISBNKey title author.
Proof. unfold Cache.getISBN. now destruct (_ !! _). Qed.

Lemma getISBN_snd title author c :
  Cache.isbnCache (snd (Cache.getISBN title author c)) = Cache.isbnCache c
  /\ Cache.searchCache (snd (Cache.getISBN title author c))
     = Cache.searchCache c.
Proof. unfold Cache.getISBN. now destruct (_ !! _). Qed.

Lemma getSearch_fst school isbn c :
  fst (Cache.getSearch school isbn c)
  = Cache.searchCache c !! Cache.makeSearchKey school isbn.
Proof. unfold Cache.getSearch. now destruct (_ !! _). Qed.

Lemma getSearch_snd school isbn c :
  Cache.isbnCache (snd (Cache.getSearch school isbn c)) = Cache.isbnCache c
  /\ Cache.searchCache (snd (Cache.getSearch school isbn c))
     = Cache.searchCache c.
Proof. unfold Cache.getSearch. now destruct (_ !! _). Qed.

Lemma catalog_only_untouched s s' :
  catalog_only s s' -> resolver_untouched s s'.
Proof.
  intros C. split; [|now apply catalog_only_calls].
  destruct C as [-> _]. reflexivity.
Qed.

(** A hit in the ISBN cache: the cached ISBN, and no request. *)
Lemma resolve_step_hit ttbKey title author s c :
  Cache.isbnCache (cache s) !! Cache.makeISBNKey title author = Some c ->
  exists s',
    Verify.resolve_step ttbKey title author s
    = Some (Ret (Cache.isbn13 c, 0, cached_reason c), s')
    /\ log s' = log s /\ net s' = net s
    /\ Cache.isbnCache (cache s') = Cache.isbnCache (cache s)
    /\ Cache.searchCache (cache s') = Cache.searchCache (cache s).
Proof.
  intros Hit. unfold Verify.resolve_step, bind.
  rewrite with_cache_eq, getISBN_fst, Hit. unfold ret.
  eexists. split; [reflexivity|]. simpl.
  destruct (getISBN_snd title author (cache s)) as [E1 E2]. auto.
Qed.

(** A miss: one call of the resolver, whose result, or the error that it
    threw, is cached under the key of the pair. *)
Lemma resolve_step_miss ttbKey title author s :
  Cache.isbnCache (cache s) !! Cache.makeISBNKey title author = None ->
  exists isbn count reason err s',
    Verify.resolve_step ttbKey title author s
    = Some (Ret (isbn, count, reason), s')
    /\ Cache.isbnCache (cache s')
       = <[Cache.makeISBNKey title author
           := {| Cache.isbn13 := isbn; Cache.error := err |}]>
           (Cache.isbnCache (cache s))
    /\ Cache.searchCache (cache s') = Cache.searchCache (cache s)
    /\ (log s' = log s
        \/ log s' = log s ++ [ToAladin (Aladin.params_of ttbKey title)])
    /\ (forall e, title <> [] ->
          snd (aladin (net s) (Aladin.params_of ttbKey title)) = Rejected e ->
          isbn = None /\ reason = lit "알라딘 오류: " ++ e
          /\ err = Some reason).
Proof.
  intros Miss. unfold Verify.resolve_step, bind at 1.
  rewrite with_cache_eq, getISBN_fst, Miss.
  destruct (getISBN_snd title author (cache s)) as [E1 E2].
  set (s0 := {| net := net s; log := log s;
                cache := snd (Cache.getISBN title author (cache s)) |}).
  unfold try_catch, bind at 1.
  destruct (searchISBNByTitleAuthor_run ttbKey title author
              Verify.threshold s0)
    as [[Empty R] | [NonEmpty [o [R Rej]]]]; rewrite R.
  - unfold bind, update_cache, with_cache, ret. simpl.
    eexists _, _, _, _, _. split; [reflexivity|]. simpl.
    unfold Cache.setISBN. simpl. rewrite E1, E2.
    split; [reflexivity|]. split; [reflexivity|]. split; [now left|].
    intros e Hne. contradiction.
  - destruct o as [result | e].
    + unfold bind, update_cache, with_cache, ret. simpl.
      eexists _, _, _, _, _. split; [reflexivity|]. simpl.
      unfold Cache.setISBN. simpl. rewrite E1, E2.
      split; [reflexivity|]. split; [reflexivity|]. split; [now right|].
      intros e _ Hrej. specialize (Rej e Hrej). discriminate.
    + unfold bind, update_cache, with_cache, ret. simpl.
      eexists _, _, _, _, _. split; [reflexivity|]. simpl.
      unfold Cache.setISBN. simpl. rewrite E1, E2.
      split; [reflexivity|]. split; [reflexivity|]. split; [now right|].
      intros e' _ Hrej. specialize (Rej e' Hrej).
      injection Rej as ->. auto.
Qed.

Lemma looked_up_untouched school isbn s :
  resolver_untouched s (looked_up school isbn s).
Proof.
  split; [|reflexivity]. simpl.
  apply (getSearch_snd school isbn (cache s)).
Qed.

Lemma resolver_untouched_trans s1 s2 s3 :
  resolver_untouched s1 s2 -> resolver_untouched s2 s3 ->
  resolver_untouched s1 s3.
Proof. intros [A1 B1] [A2 B2]. split; congruence. Qed.

(** Storing a search result leaves the resolver's side alone. *)
Lemma setSearch_untouched school isbn ex n m e s :
  resolver_untouched s
    {| net := net s; log := log s;
       cache := Cache.setSearch school isbn ex n m e (cache s) |}.
Proof. split; reflexivity. Qed.

(** The catalog step ends with a value, never with a throw, and leaves
    the ISBN cache and the count of resolver requests as they were. *)
Lemma holding_step_effect fuel school isbn count reason s o s' :
  Verify.holding_step fuel school isbn count reason s = Some (o, s') ->
  (exists v, o = Ret v) /\ resolver_untouched s s'.
Proof.
  unfold Verify.holding_step, bind at 1.
  rewrite with_cache_eq, getSearch_fst. fold (looked_up school isbn s).
  pose proof (looked_up_untouched school isbn s) as U0.
  destruct (Cache.searchCache (cache s) !! _) as [c|].
  - intros [= <- <-]. split; [eauto | exact U0].
  - unfold try_catch, bind at 1.
    destruct (Read365.searchISBNMultiRegion fuel isbn None 6
                (looked_up school isbn s)) as [[o1 s1]|] eqn:E1;
      [|discriminate].
    destruct (searchISBNMultiRegion_count _ _ _ _ _ _ _ E1)
      as [r [-> [_ C1]]].
    apply catalog_only_untouched in C1.
    pose proof (resolver_untouched_trans _ _ _ U0 C1) as U1.
    unfold bind, update_cache, with_cache, Verify.search_failed, bind,
      update_cache, with_cache, ret. simpl.
    destruct (0 <? length _)%nat; simpl.
    + intros [= <- <-]. split; [eauto|].
      eapply resolver_untouched_trans; [exact U1|]. split; reflexivity.
    + destruct (Read365.m_totalCount r =? 0)%nat; simpl;
        intros [= <- <-]; (split; [eauto|]);
        (eapply resolver_untouched_trans; [exact U1|]); split; reflexivity.
Qed.

(** With a bounded page count and enough fuel, the catalog step returns. *)
Lemma holding_step_run (T : Z) (bounded : pages_bounded T) fuel
    (enough : (Z.max 1 T <= Z.of_nat fuel)%Z) school isbn count reason s :
  exists v s', Verify.holding_step fuel school isbn count reason s
               = Some (Ret v, s').
Proof.
  destruct (Verify.holding_step fuel school isbn count reason s)
    as [[o s']|] eqn:E.
  - destruct (holding_step_effect _ _ _ _ _ _ _ _ E) as [[v ->] _]. eauto.
  - exfalso. revert E. unfold Verify.holding_step, bind at 1.
    rewrite with_cache_eq, getSearch_fst. fold (looked_up school isbn s).
    destruct (Cache.searchCache (cache s) !! _) as [c|]; [discriminate|].
    unfold try_catch, bind at 1.
    destruct (searchISBNMultiRegion_run T bounded fuel isbn enough None 6
                (looked_up school isbn s)) as [r [s1 [E1 _]]].
    rewrite E1.
    unfold bind, update_cache, with_cache, Verify.search_failed, bind,
      update_cache, with_cache, ret. simpl.
    destruct (0 <? length _)%nat; simpl; [discriminate|].
    destruct (Read365.m_totalCount r =? 0)%nat; discriminate.
Qed.

(** When the catalog search finds a book of the school, reading
    [matchedSchools.length] throws: the reason is the text of that error,
    the mark stays at "found", and the holding is cached as absent. *)
Lemma holding_step_found fuel school isbn count reason s r s1 :
  Cache.searchCache (cache s) !! Cache.makeSearchKey school isbn = None ->
  Read365.searchISBNMultiRegion fuel isbn None 6 (looked_up school isbn s)
  = Some (Ret r, s1) ->
  Read365.found (Read365.findSchoolBooks (Read365.m_books r) school) <> [] ->
  exists s',
    Verify.holding_step fuel school isbn count reason s
    = Some (Ret (Verify.mark true,
                 Read365.matchedSchool
                   (Read365.findSchoolBooks (Read365.m_books r) school),
                 lit "Read365 검색 오류: " ++ Verify.undefined_length), s')
    /\ Cache.searchCache (cache s') !! Cache.makeSearchKey school isbn
       = Some {| Cache.exists_ := false; Cache.itemCount := 0;
                 Cache.matchedSchool := None;
                 Cache.search_error :=
                   Some (lit "Read365 검색 오류: "
                           ++ Verify.undefined_length) |}.
Proof.
  intros Miss E1 Found. unfold Verify.holding_step, bind at 1.
  rewrite with_cache_eq, getSearch_fst, Miss. fold (looked_up school isbn s).
  unfold try_catch, bind at 1. rewrite E1.
  unfold bind, update_cache, with_cache, Verify.search_failed, bind,
    update_cache, with_cache, ret. simpl.
  destruct (Read365.found _) as [|b bs]; [contradiction|]. simpl.
  eexists. split; [reflexivity|]. simpl. apply lookup_insert_eq.
Qed.

(** When the catalog search finds books but none of the school, the
    reason shows the number of books fetched. *)
Lemma holding_step_not_held fuel school isbn count reason s r s1 :
  Cache.searchCache (cache s) !! Cache.makeSearchKey school isbn = None ->
  Read365.searchISBNMultiRegion fuel isbn None 6 (looked_up school isbn s)
  = Some (Ret r, s1) ->
  Read365.found (Read365.findSchoolBooks (Read365.m_books r) school) = [] ->
  Read365.m_books r <> [] ->
  exists matched s',
    Verify.holding_step fuel school isbn count reason s
    = Some (Ret (Verify.mark false, matched,
                 (school ++ lit "에 없음 (타 학교 "
                    ++ show_nat (length (Read365.m_books r))
                    ++ lit "권 보유)")
                 ++ (if (1 <? count)%nat
                     then lit " - 동일 제목 " ++ show_nat count
                            ++ lit "개 버전 존재, 도서명을 더 정확히 입력하세요"
                     else [])), s').
Proof.
  intros Miss E1 NotFound Books. unfold Verify.holding_step, bind at 1.
  rewrite with_cache_eq, getSearch_fst, Miss. fold (looked_up school isbn s).
  unfold try_catch, bind at 1. rewrite E1.
  destruct (searchISBNMultiRegion_count _ _ _ _ _ _ _ E1)
    as [r' [[= <-] [Count _]]].
  unfold bind, update_cache, with_cache, ret. simpl.
  rewrite NotFound. simpl. rewrite Count.
  destruct (length (Read365.m_books r) =? 0)%nat eqn:Z0.
  { apply Nat.eqb_eq, length_zero_iff_nil in Z0. contradiction. }
  destruct (1 <? count)%nat; eexists _, _.
  - rewrite <- !app_assoc. reflexivity.
  - rewrite app_nil_r. reflexivity.
Qed.

(** The resolver step always returns; afterwards the pair has an entry
    in the ISBN cache that holds the ISBN returned, entries that were there
    are kept, and at most one request went to the resolver. *)
Lemma resolve_step_cached ttbKey title author s :
  exists isbn count reason c s1,
    Verify.resolve_step ttbKey title author s
    = Some (Ret (isbn, count, reason), s1)
    /\ Cache.isbnCache (cache s1) !! Cache.makeISBNKey title author = Some c
    /\ Cache.isbn13 c = isbn
    /\ (aladin_calls (log s1) <= aladin_calls (log s) + 1)%nat
    /\ (forall k c0, Cache.isbnCache (cache s) !! k = Some c0 ->
                     Cache.isbnCache (cache s1) !! k = Some c0)
    /\ (forall k, k <> Cache.makeISBNKey title author ->
                  Cache.isbnCache (cache s1) !! k
                  = Cache.isbnCache (cache s) !! k).
Proof.
  destruct (Cache.isbnCache (cache s) !! Cache.makeISBNKey title author)
    as [c|] eqn:L.
  - destruct (resolve_step_hit ttbKey title author s c L)
      as [s1 [E [Hlog [_ [Hc _]]]]].
    exists (Cache.isbn13 c), 0%nat, (cached_reason c), c, s1.
    split; [exact E|]. rewrite Hlog.
    split; [rewrite Hc; exact L|]. split; [reflexivity|].
    split; [lia|]. split; intros k; rewrite Hc; auto.
  - destruct (resolve_step_miss ttbKey title author s L)
      as [isbn [count [reason [err [s1 [E [Hc [_ [Hlog _]]]]]]]]].
    exists isbn, count, reason,
      {| Cache.isbn13 := isbn; Cache.error := err |}, s1.
    split; [exact E|]. rewrite Hc.
    split; [apply lookup_insert_eq|]. split; [reflexivity|]. split.
    + destruct Hlog as [Hl | Hl]; rewrite Hl; [lia|].
      rewrite aladin_calls_app.
      change (aladin_calls [ToAladin (Aladin.params_of ttbKey title)])
        with 1%nat.
      lia.
    + split.
      * intros k c0 Hk. rewrite lookup_insert_ne; [exact Hk|].
        intros <-. congruence.
      * intros k Hk. rewrite lookup_insert_ne; [reflexivity|]. congruence.
Qed.

(** One record, in terms of its two steps. *)
Lemma verifyRow_inv fuel ttbKey r s o s' :
  Verify.verifyRow fuel ttbKey r s = Some (o, s') ->
  exists isbn count reason s1 out,
    Verify.resolve_step ttbKey (Store.도서명 r) (Store.저자 r) s
    = Some (Ret (isbn, count, reason), s1)
    /\ o = Ret out
    /\ Store.row out = r
    /\ Store.ISBN13 out = or_else isbn []
    /\ resolver_untouched s1 s'
    /\ (otruthy isbn = false ->
        s' = s1 /\ Store.사유 out = reason
        /\ Store.존재여부 out = Verify.mark false
        /\ Store.검색학교 out = Store.학교명 r).
Proof.
  unfold Verify.verifyRow, bind at 1.
  destruct (resolve_step_cached ttbKey (Store.도서명 r) (Store.저자 r) s)
    as [isbn [count [reason [c [s1 [E _]]]]]].
  rewrite E. simpl fst; simpl snd. intros Run.
  exists isbn, count, reason, s1.
  destruct (otruthy isbn) eqn:Tr.
  - unfold bind at 1 in Run.
    destruct (Verify.holding_step fuel (Store.학교명 r) (default [] isbn)
                count reason s1) as [[o2 s2]|] eqn:E2; [|discriminate].
    destruct (holding_step_effect _ _ _ _ _ _ _ _ E2) as [[v ->] U].
    injection Run as <- <-.
    eexists. split; [reflexivity|]. split; [reflexivity|].
    split; [reflexivity|]. split; [reflexivity|]. split; [exact U|].
    discriminate.
  - unfold bind, ret in Run. injection Run as <- <-.
    eexists. split; [reflexivity|]. split; [reflexivity|].
    split; [reflexivity|]. split; [reflexivity|].
    split; [split; reflexivity|]. intros _. repeat split.
Qed.

(** With a bounded page count and enough fuel, one record is processed
    to its row. *)
Lemma verifyRow_run (T : Z) (bounded : pages_bounded T) fuel
    (enough : (Z.max 1 T <= Z.of_nat fuel)%Z) ttbKey r s :
  exists out s', Verify.verifyRow fuel ttbKey r s = Some (Ret out, s').
Proof.
  destruct (Verify.verifyRow fuel ttbKey r s) as [[o s']|] eqn:E.
  - destruct (verifyRow_inv _ _ _ _ _ _ E)
      as [? [? [? [? [out [_ [-> _]]]]]]]. eauto.
  - exfalso. revert E. unfold Verify.verifyRow, bind at 1.
    destruct (resolve_step_cached ttbKey (Store.도서명 r) (Store.저자 r) s)
      as [isbn [count [reason [c [s1 [E _]]]]]].
    rewrite E. simpl fst; simpl snd.
    destruct (otruthy isbn); [|discriminate].
    unfold bind at 1.
    destruct (holding_step_run T bounded fuel enough (Store.학교명 r)
                (default [] isbn) count reason s1) as [v [s2 ->]].
    discriminate.
Qed.

End OneRecord.

(** C2 (as amended). For every call of [searchISBNByTitleAuthor] whose
    title is the empty string, the result has no ISBN, the error
    "빈 제목" (empty title) and a candidate count of 0, and the state,
    with its log of outbound requests, is unchanged: no request is
    issued.  In the loop, on a fresh cache, such a record is settled
    locally: the reason is that error behind the loop's prefix, the result
    is cached under the key of the pair, and the log is as it was. *)
Theorem searchISBNByTitleAuthor_empty_title (R : Runtime) (F : Fuzzball)
    (N : Network) (ttbKey author : jsstring) (thr : float) (s : machine) :
  Aladin.searchISBNByTitleAuthor ttbKey [] author thr s
  = Some (Ret {| Aladin.isbn13 := None;
                 Aladin.error := Some (lit "빈 제목");
                 Aladin.candidateCount := 0 |}, s)
  /\ exists c,
       Verify.resolve_step ttbKey [] author
         {| net := net s; log := log s; cache := Cache.empty |}
       = Some (Ret (None, 0%nat, lit "알라딘 ISBN 미확인: " ++ lit "빈 제목"),
               {| net := net s; log := log s; cache := c |})
       /\ Cache.isbnCache c !! Cache.makeISBNKey [] author
          = Some {| Cache.isbn13 := None;
                    Cache.error := Some (lit "빈 제목") |}.
Proof.
  split; [reflexivity|].
  unfold Verify.resolve_step, bind at 1.
  rewrite with_cache_eq, getISBN_fst. cbn [cache Cache.empty Cache.isbnCache].
  rewrite lookup_empty.
  unfold try_catch, bind, update_cache, with_cache, ret. simpl.
  eexists. split; [reflexivity|]. simpl. apply lookup_insert_eq.
Qed.

(** C2, counterexample to the claim as stated: a title of one space is
    blank, yet a request goes out (with an empty query) and the error is
    that of the service's empty answer. *)
Lemma searchISBNByTitleAuthor_blank_title_is_sent :
  forallb is_space (lit " ") = true
  /\ exists s',
       @Aladin.searchISBNByTitleAuthor Scenario.all_or_nothing
          ResolverExamples.no_results ResolverExamples.ttb (lit " ") []
          Verify.threshold
          (Scenario.start_state ResolverExamples.no_results tt)
       = Some (Ret {| Aladin.isbn13 := None;
                      Aladin.error := Some (lit "검색 결과 없음");
                      Aladin.candidateCount := 0 |}, s')
       /\ log s' = [ToAladin (Aladin.params_of ResolverExamples.ttb (lit " "))]
       /\ Query (Aladin.params_of ResolverExamples.ttb (lit " ")) = []
       /\ lit "검색 결과 없음" <> lit "빈 제목".
Proof.
  split; [vm_compute; reflexivity|]. eexists.
  split; [vm_compute; reflexivity|].
  split; [vm_compute; reflexivity|].
  split; [vm_compute; reflexivity|]. vm_compute. discriminate.
Qed.

(** C1, the code at a failing input.  The object that [findSchoolBooks]
    returns has the books found and the first matched name and nothing
    else, so the [matchedSchools] that the loop reads from it is
    [undefined].  For a record whose school is matched by holdings of two
    differently named schools, reading its length throws; the reason
    becomes the text of that error instead of the message about several
    schools of the same name, and the holding is cached as absent. *)
Theorem verifyRow_two_schools_reports_type_error :
  exists s',
    @Verify.verifyRow Scenario.latin Scenario.all_or_nothing
       VerifyExamples.two_schools 1 VerifyExamples.ttb
       VerifyExamples.hanbit_demian
       (Scenario.start_state VerifyExamples.two_schools tt)
    = Some (Ret {| Store.row := VerifyExamples.hanbit_demian;
                   Store.ISBN13 := VerifyExamples.isbn_demian;
                   Store.검색학교 := lit "한빛초등학교";
                   Store.존재여부 := lit "✅";
                   Store.사유 :=
                     lit "Read365 검색 오류: TypeError: Cannot read properties of undefined (reading 'length')" |},
            s')
    /\ Cache.searchCache (cache s')
         !! @Cache.makeSearchKey Scenario.latin (lit "한빛초등학교")
              VerifyExamples.isbn_demian
       = Some {| Cache.exists_ := false; Cache.itemCount := 0;
                 Cache.matchedSchool := None;
                 Cache.search_error :=
                   Some (lit "Read365 검색 오류: TypeError: Cannot read properties of undefined (reading 'length')") |}.
Proof. eexists. split; vm_compute; reflexivity. Qed.

(** C10. With a bounded page count and enough fuel,
    [searchISBNMultiRegion] returns, and the [totalCount] of its result is
    the length of its [books]: the number of entries fetched, not a total
    reported by the service.  This is the number shown in the reason
    "not held by the school" of a record that no fetched entry matches, and
    the entries come from the six regions searched by default. *)
Theorem searchISBNMultiRegion_totalCount (R : Runtime) (F : Fuzzball)
    (N : Network) (T : Z) (bounded : pages_bounded T) (fuel : nat)
    (enough : (Z.max 1 T <= Z.of_nat fuel)%Z) (isbn : jsstring)
    (primaryRegion : option jsstring) (maxRegions : Z) (s : machine) :
  (exists r s',
     Read365.searchISBNMultiRegion fuel isbn primaryRegion maxRegions s
     = Some (Ret r, s')
     /\ Read365.m_totalCount r = length (Read365.m_books r))
  /\ (forall school count reason st r s1,
        Cache.searchCache (cache st) !! Cache.makeSearchKey school isbn
        = None ->
        Read365.searchISBNMultiRegion fuel isbn None 6
          (looked_up school isbn st) = Some (Ret r, s1) ->
        Read365.found (Read365.findSchoolBooks (Read365.m_books r) school)
        = [] ->
        Read365.m_books r <> [] ->
        exists matched s',
          Verify.holding_step fuel school isbn count reason st
          = Some (Ret (Verify.mark false, matched,
                       (school ++ lit "에 없음 (타 학교 "
                          ++ show_nat (length (Read365.m_books r))
                          ++ lit "권 보유)")
                       ++ (if (1 <? count)%nat
                           then lit " - 동일 제목 " ++ show_nat count
                                  ++ lit "개 버전 존재, 도서명을 더 정확히 입력하세요"
                           else [])), s'))
  /\ length (Read365.searchRegions None 6) = 6%nat.
Proof.
  split; [|split].
  - destruct (searchISBNMultiRegion_run T bounded fuel isbn enough
                primaryRegion maxRegions s) as [r [s' [E [C _]]]].
    eauto.
  - intros school count reason st r s1. apply holding_step_not_held.
  - reflexivity.
Qed.

Lemma searchISBNMultiRegion_totalCount_witness :
  exists r s',
    @Read365.searchISBNMultiRegion VerifyExamples.other_school 1
       VerifyExamples.isbn_demian (Some (lit "경기")) 6
       (Scenario.start_state VerifyExamples.other_school tt)
    = Some (Ret r, s')
    /\ Read365.m_totalCount r = length (Read365.m_books r).
Proof.
  refine (proj1 (searchISBNMultiRegion_totalCount Scenario.latin
                   Scenario.all_or_nothing VerifyExamples.other_school 1
                   _ 1 _ VerifyExamples.isbn_demian (Some (lit "경기")) 6
                   (Scenario.start_state VerifyExamples.other_school tt))).
  - intros w p. vm_compute. discriminate.
  - vm_compute. discriminate.
Defined.

(** On that catalog a record of a school that holds nothing is told that
    six other copies exist: one fetched entry for each region searched. *)
Example not_held_counts_fetched_entries :
  exists s',
    @Verify.verifyRow Scenario.latin Scenario.all_or_nothing
       VerifyExamples.other_school 1 VerifyExamples.ttb
       VerifyExamples.hanbit_demian
       (Scenario.start_state VerifyExamples.other_school tt)
    = Some (Ret {| Store.row := VerifyExamples.hanbit_demian;
                   Store.ISBN13 := VerifyExamples.isbn_demian;
                   Store.검색학교 := lit "한빛초등학교";
                   Store.존재여부 := lit "❌";
                   Store.사유 := lit "한빛초등학교에 없음 (타 학교 6권 보유)" |},
            s').
Proof. eexists. vm_compute. reflexivity. Qed.

(* ================================================================== *)
(** * Resolution through the cache *)
(* ================================================================== *)

(** With the Basic Latin case mapping, lower-casing does not turn a
    character into white space or back. *)
Lemma ascii_lower_space (c : N) : is_space (ascii_lower c) = is_space c.
Proof.
  assert (Letters : forall x, (65 <= x <= 122)%N -> is_space x = false).
  { intros x Hx. unfold is_space.
    replace (9 <=? x)%N with true by (symmetry; apply N.leb_le; lia).
    replace (x <=? 13)%N with false by (symmetry; apply N.leb_gt; lia).
    replace (8192 <=? x)%N with false by (symmetry; apply N.leb_gt; lia).
    repeat match goal with
           | |- context [(x =? ?k)%N] =>
             replace (x =? k)%N with false by (symmetry; apply N.eqb_neq; lia)
           end.
    reflexivity. }
  unfold ascii_lower.
  destruct ((65 <=? c) && (c <=? 90))%N eqn:E; [|reflexivity].
  apply andb_true_iff in E. destruct E as [E1 E2].
  apply N.leb_le in E1, E2. rewrite !Letters by lia. reflexivity.
Qed.

(** The cache key of a string, on that host: its characters other than
    white space, in lower case. *)
Lemma latin_normalizeKey (t : jsstring) :
  @Cache.normalizeKey Scenario.latin t
  = List.map ascii_lower (strip_spaces t).
Proof.
  unfold Cache.normalizeKey, strip_spaces. simpl.
  induction t as [|c t IH]; simpl; [reflexivity|].
  rewrite ascii_lower_space. destruct (is_space c); simpl; now rewrite IH.
Qed.

(** Pairs that differ only in case and white space have the same key. *)
Lemma latin_key_ignores_case_and_spaces (t1 a1 t2 a2 : jsstring) :
  List.map ascii_lower (strip_spaces t1)
  = List.map ascii_lower (strip_spaces t2) ->
  List.map ascii_lower (strip_spaces a1)
  = List.map ascii_lower (strip_spaces a2) ->
  @Cache.makeISBNKey Scenario.latin t1 a1
  = @Cache.makeISBNKey Scenario.latin t2 a2.
Proof.
  intros Et Ea. unfold Cache.makeISBNKey.
  rewrite !latin_normalizeKey, Et, Ea. reflexivity.
Qed.

(** The same on any host, for text in Basic Latin and Hangul. *)
Lemma plain_normalizeKey (R : Runtime) (host : lowers_plain_text)
    (t : jsstring) :
  plain t = true ->
  Cache.normalizeKey t = List.map ascii_lower (strip_spaces t).
Proof.
  intros Pt. unfold Cache.normalizeKey. rewrite (host t Pt).
  unfold strip_spaces. clear Pt.
  induction t as [|c t IH]; simpl; [reflexivity|].
  rewrite ascii_lower_space. destruct (is_space c); simpl; now rewrite IH.
Qed.

Lemma plain_key_ignores_case_and_spaces (R : Runtime)
    (host : lowers_plain_text) (t1 a1 t2 a2 : jsstring) :
  plain t1 = true -> plain a1 = true ->
  plain t2 = true -> plain a2 = true ->
  same_but_case_and_space t1 t2 -> same_but_case_and_space a1 a2 ->
  Cache.makeISBNKey t1 a1 = Cache.makeISBNKey t2 a2.
Proof.
  intros P1 Q1 P2 Q2 Et Ea. unfold Cache.makeISBNKey.
  rewrite !(plain_normalizeKey R host) by assumption.
  unfold same_but_case_and_space in Et, Ea. now rewrite Et, Ea.
Qed.

(** Both hosts of the scenarios lower-case such text letter by letter,
    the one with the Final_Sigma rule too. *)
Lemma latin_lowers_plain_text : @lowers_plain_text Scenario.latin.
Proof. intros s _. reflexivity. Qed.

Lemma greek_lowers_plain_text : @lowers_plain_text Scenario.greek.
Proof.
  intros s. cbn [toLowerCase Scenario.greek]. generalize false.
  induction s as [|c s IH]; intros b P; [reflexivity|].
  simpl in P. apply andb_true_iff in P. destruct P as [Pc Ps].
  simpl. rewrite (IH _ Ps). f_equal.
  assert (Hc : (c < 128 \/ 44032 <= c <= 55203)%N).
  { apply orb_true_iff in Pc. destruct Pc as [Lt | In].
    - left. now apply N.ltb_lt.
    - right. apply andb_true_iff in In. destruct In as [H1 H2].
      apply N.leb_le in H1, H2. lia. }
  replace (c =? 931)%N with false by (symmetry; apply N.eqb_neq; lia).
  replace ((913 <=? c) && (c <=? 939))%N with false; [reflexivity|].
  symmetry. apply andb_false_iff.
  destruct Hc as [Lt | In]; [left | right]; apply N.leb_gt; lia.
Qed.

(** C5 (as amended). When two records whose (title, author) pairs have the
    same cache key are processed one after the other, both are processed
    to a row, the second one sends no request to the resolver, so that at
    most one goes out in total, and both rows carry the same ISBN.  Pairs
    written in Basic Latin and Hangul that differ only in the case of
    letters or in white space have the same key. *)
Theorem second_resolution_hits_cache (R : Runtime) (F : Fuzzball)
    (N : Network) (T : Z) (bounded : pages_bounded T) (fuel : nat)
    (enough : (Z.max 1 T <= Z.of_nat fuel)%Z) (ttbKey : jsstring)
    (r1 r2 : Store.BookRow) (s : machine)
    (same_key : Cache.makeISBNKey (Store.도서명 r1) (Store.저자 r1)
                = Cache.makeISBNKey (Store.도서명 r2) (Store.저자 r2)) :
  exists out1 s1 out2 s2,
    Verify.verifyRow fuel ttbKey r1 s = Some (Ret out1, s1)
    /\ Verify.verifyRow fuel ttbKey r2 s1 = Some (Ret out2, s2)
    /\ aladin_calls (log s2) = aladin_calls (log s1)
    /\ (aladin_calls (log s2) <= aladin_calls (log s) + 1)%nat
    /\ Store.ISBN13 out1 = Store.ISBN13 out2
    /\ (exists isbn why sb,
          Verify.resolve_step ttbKey (Store.도서명 r2) (Store.저자 r2) s1
          = Some (Ret (isbn, 0%nat, why), sb)
          /\ log sb = log s1)
    /\ (lowers_plain_text ->
        forall t1 a1 t2 a2,
          plain t1 = true -> plain a1 = true ->
          plain t2 = true -> plain a2 = true ->
          same_but_case_and_space t1 t2 -> same_but_case_and_space a1 a2 ->
          Cache.makeISBNKey t1 a1 = Cache.makeISBNKey t2 a2).
Proof.
  destruct (verifyRow_run T bounded fuel enough ttbKey r1 s)
    as [out1 [s1 E1]].
  destruct (verifyRow_run T bounded fuel enough ttbKey r2 s1)
    as [out2 [s2 E2]].
  exists out1, s1, out2, s2. split; [exact E1|]. split; [exact E2|].
  destruct (verifyRow_inv _ _ _ _ _ _ E1)
    as [isbn1 [n1 [why1 [sa [o1 [Ra [[= <-] [_ [I1 [[Ua Ca] _]]]]]]]]]].
  destruct (verifyRow_inv _ _ _ _ _ _ E2)
    as [isbn2 [n2 [why2 [sb [o2 [Rb [[= <-] [_ [I2 [[Ub Cb] _]]]]]]]]]].
  destruct (resolve_step_cached ttbKey (Store.도서명 r1) (Store.저자 r1) s)
    as [i1 [m1 [w1 [c [sa' [Ra' [Hit [Hisbn [Calls _]]]]]]]]].
  rewrite Ra in Ra'. injection Ra' as Ei1 _ _ Es1. subst i1 sa'.
  rewrite same_key, <- Ua in Hit.
  destruct (resolve_step_hit ttbKey (Store.도서명 r2) (Store.저자 r2) s1 c Hit)
    as [sb' [Rb' [Hlog _]]].
  pose proof Rb as Rb0.
  rewrite Rb in Rb'. injection Rb' as Ei2 En2 Ew2 Es2. subst sb' n2.
  rewrite Hlog in Cb.
  split; [exact Cb|]. split; [lia|]. split; [congruence|].
  split; [exists isbn2, why2, sb; split; [exact Rb0 | exact Hlog]|].
  intros host. apply (plain_key_ignores_case_and_spaces R host).
Qed.

Lemma second_resolution_hits_cache_witness :
  exists out1 s1 out2 s2,
    @Verify.verifyRow Scenario.latin Scenario.all_or_nothing
       VerifyExamples.other_school 1 VerifyExamples.ttb
       {| Store.학교명 := lit "한빛초등학교"; Store.도서명 := lit "Demian";
          Store.저자 := lit "Hermann Hesse"; Store.출판사 := [] |}
       (Scenario.start_state VerifyExamples.other_school tt)
    = Some (Ret out1, s1)
    /\ @Verify.verifyRow Scenario.latin Scenario.all_or_nothing
         VerifyExamples.other_school 1 VerifyExamples.ttb
         {| Store.학교명 := lit "새솔중학교"; Store.도서명 := lit " DEMIAN ";
            Store.저자 := lit "hermann  hesse"; Store.출판사 := [] |} s1
       = Some (Ret out2, s2)
    /\ aladin_calls (log s2) = aladin_calls (log s1)
    /\ (aladin_calls (log s2)
        <= aladin_calls
             (log (Scenario.start_state VerifyExamples.other_school tt)) + 1)%nat
    /\ Store.ISBN13 out1 = Store.ISBN13 out2
    /\ exists isbn why sb,
         @Verify.resolve_step Scenario.latin Scenario.all_or_nothing
           VerifyExamples.other_school VerifyExamples.ttb (lit " DEMIAN ")
           (lit "hermann  hesse") s1
         = Some (Ret (isbn, 0%nat, why), sb)
         /\ log sb = log s1.
Proof.
  destruct (second_resolution_hits_cache Scenario.latin
              Scenario.all_or_nothing VerifyExamples.other_school 1
              ltac:(intros w p; vm_compute; discriminate) 1
              ltac:(vm_compute; discriminate) VerifyExamples.ttb
              {| Store.학교명 := lit "한빛초등학교";
                 Store.도서명 := lit "Demian";
                 Store.저자 := lit "Hermann Hesse"; Store.출판사 := [] |}
              {| Store.학교명 := lit "새솔중학교";
                 Store.도서명 := lit " DEMIAN ";
                 Store.저자 := lit "hermann  hesse"; Store.출판사 := [] |}
              (Scenario.start_state VerifyExamples.other_school tt)
              ltac:(vm_compute; reflexivity))
    as (out1 & s1 & out2 & s2 & A & B & C & D & E & G & _).
  exists out1, s1, out2, s2.
  split; [exact A|]. split; [exact B|]. split; [exact C|].
  split; [exact D|]. split; [exact E | exact G].
Defined.

(** C5, counterexample to the claim as stated: when the resolver finds
    two editions, resolving the same pair twice gives two different
    results, with 2 candidates the first time and 0 the second, since the
    cache keeps the ISBN and the error only.  The rows show it: of two
    schools asking for the same book, only the first is told that several
    editions exist. *)
Lemma second_resolution_loses_candidate_count :
  exists s1 s2,
    @Verify.resolve_step Scenario.latin Scenario.all_or_nothing
       VerifyExamples.two_editions VerifyExamples.ttb (lit "Demian") []
       (Scenario.start_state VerifyExamples.two_editions tt)
    = Some (Ret (Some VerifyExamples.isbn_demian, 2%nat, []), s1)
    /\ @Verify.resolve_step Scenario.latin Scenario.all_or_nothing
         VerifyExamples.two_editions VerifyExamples.ttb (lit "Demian") [] s1
       = Some (Ret (Some VerifyExamples.isbn_demian, 0%nat, []), s2)
    /\ (Some VerifyExamples.isbn_demian, 2%nat, @nil N)
       <> (Some VerifyExamples.isbn_demian, 0%nat, @nil N).
Proof.
  eexists _, _. split; [vm_compute; reflexivity|].
  split; [vm_compute; reflexivity|]. discriminate.
Qed.

(** Outside such text the key can depend on white space.  On a host with
    the Final_Sigma rule, two titles that differ only by a space have
    different keys, because the key is lower-cased before the space is
    removed: the second record is resolved by a request of its own. *)
Example space_changes_key_under_final_sigma :
  strip_spaces (lit "ΑΣ Β") = lit "ΑΣΒ"
  /\ @Cache.makeISBNKey Scenario.greek (lit "ΑΣ Β") []
     <> @Cache.makeISBNKey Scenario.greek (lit "ΑΣΒ") []
  /\ exists out1 s1 out2 s2,
       @Verify.verifyRow Scenario.greek Scenario.all_or_nothing
         VerifyExamples.other_school 1 VerifyExamples.ttb
         (BatchExamples.book "ΑΣ Β")
         (Scenario.start_state VerifyExamples.other_school tt)
       = Some (Ret out1, s1)
       /\ @Verify.verifyRow Scenario.greek Scenario.all_or_nothing
            VerifyExamples.other_school 1 VerifyExamples.ttb
            (BatchExamples.book "ΑΣΒ") s1
          = Some (Ret out2, s2)
       /\ aladin_calls (log s1) = 1%nat
       /\ aladin_calls (log s2) = 2%nat.
Proof.
  split; [vm_compute; reflexivity|].
  split; [vm_compute; discriminate|].
  eexists _, _, _, _.
  split; [vm_compute; reflexivity|].
  split; [vm_compute; reflexivity|].
  split; vm_compute; reflexivity.
Qed.

Example second_school_not_told_of_editions :
  exists s1 s2,
    @Verify.verifyRow Scenario.latin Scenario.all_or_nothing
       VerifyExamples.two_editions 1 VerifyExamples.ttb
       VerifyExamples.hanbit_demian
       (Scenario.start_state VerifyExamples.two_editions tt)
    = Some (Ret {| Store.row := VerifyExamples.hanbit_demian;
                   Store.ISBN13 := VerifyExamples.isbn_demian;
                   Store.검색학교 := lit "한빛초등학교";
                   Store.존재여부 := lit "❌";
                   Store.사유 := lit "한빛초등학교에 없음 (타 학교 6권 보유) - 동일 제목 2개 버전 존재, 도서명을 더 정확히 입력하세요" |}, s1)
    /\ @Verify.verifyRow Scenario.latin Scenario.all_or_nothing
         VerifyExamples.two_editions 1 VerifyExamples.ttb
         {| Store.학교명 := lit "푸른초등학교"; Store.도서명 := lit "Demian";
            Store.저자 := []; Store.출판사 := [] |} s1
       = Some (Ret {| Store.row :=
                        {| Store.학교명 := lit "푸른초등학교";
                           Store.도서명 := lit "Demian";
                           Store.저자 := []; Store.출판사 := [] |};
                      Store.ISBN13 := VerifyExamples.isbn_demian;
                      Store.검색학교 := lit "푸른초등학교";
                      Store.존재여부 := lit "❌";
                      Store.사유 := lit "푸른초등학교에 없음 (타 학교 6권 보유)" |}, s2).
Proof. eexists _, _. split; vm_compute; reflexivity. Qed.

(** The reason of a failed resolution is not replayed either: the first
    row carries the prefix that the loop adds, the second the bare error
    that was cached. *)
Example second_resolution_differs :
  exists s1 s2,
    @Verify.verifyRow Scenario.latin Scenario.all_or_nothing
       ResolverExamples.no_results 1 VerifyExamples.ttb
       VerifyExamples.hanbit_demian
       (Scenario.start_state ResolverExamples.no_results tt)
    = Some (Ret {| Store.row := VerifyExamples.hanbit_demian;
                   Store.ISBN13 := [];
                   Store.검색학교 := lit "한빛초등학교";
                   Store.존재여부 := lit "❌";
                   Store.사유 := lit "알라딘 ISBN 미확인: 검색 결과 없음" |}, s1)
    /\ @Verify.verifyRow Scenario.latin Scenario.all_or_nothing
         ResolverExamples.no_results 1 VerifyExamples.ttb
         VerifyExamples.hanbit_demian s1
       = Some (Ret {| Store.row := VerifyExamples.hanbit_demian;
                      Store.ISBN13 := [];
                      Store.검색학교 := lit "한빛초등학교";
                      Store.존재여부 := lit "❌";
                      Store.사유 := lit "검색 결과 없음" |}, s2)
    /\ lit "알라딘 ISBN 미확인: 검색 결과 없음" <> lit "검색 결과 없음".
Proof.
  eexists _, _. split; [vm_compute; reflexivity|].
  split; [vm_compute; reflexivity|]. vm_compute. discriminate.
Qed.

(* ================================================================== *)
(** * The batch *)
(* ================================================================== *)

Section Batch.
Context `{Runtime} `{Fuzzball} `{Network}.



Lemma iteration_eq fuel ttbKey i r results job s out m :
  Verify.verifyRow fuel ttbKey r (Verify.mach s) = Some (Ret out, m) ->
  Verify.iteration fuel ttbKey i r results job s
  = Some (Ret (results ++ [out],
               Verify.progress_update job i (Store.도서명 r)
                 (results ++ [out])),
          {| Verify.mach := m;
             Verify.jobs :=
               Store.setJob
                 (Verify.progress_update job i (Store.도서명 r)
                    (results ++ [out]))
                 (Verify.jobs s) |}).
Proof. intros E. unfold Verify.iteration. now rewrite E. Qed.

End Batch.



(** The whole run on that scenario, evaluated: the three reasons. *)
Example batch_of_three_reasons :
  exists s' job,
    @Verify.POST Scenario.latin Scenario.all_or_nothing
       BatchExamples.momo_fails 1 (lit "3f2a9c1e-77aa")
       (Some (Store.uploaded (lit "f1") (lit "books.xlsx")
                [BatchExamples.book "Demian"; BatchExamples.book "Momo";
                 BatchExamples.book "Siddhartha"]))
       (Some VerifyExamples.ttb) None None BatchExamples.fresh
    = Some (Verify.Started (lit "3f2a9c1e"), s')
    /\ Verify.jobs s' !! lit "3f2a9c1e" = Some job
    /\ Store.status job = Store.completed
    /\ Store.progress job = 3%nat
    /\ Store.resultFile job = Some (lit "result_3f2a9c1e")
    /\ List.map Store.사유 (Store.results job)
       = [lit "한빛초등학교에 없음 (타 학교 6권 보유)";
          lit "알라딘 오류: TypeError: fetch failed";
          lit "알라딘 ISBN 미확인: 유사도 미달(0.00)"].
Proof.
  eexists _, _. split; [vm_compute; reflexivity|].
  split; [vm_compute; reflexivity|]. repeat split.
Qed.

(* ================================================================== *)
(** * The life of a job *)
(* ================================================================== *)

Section JobLife.
Context `{Runtime} `{Fuzzball} `{Network}.

Lemma consistent_well_formed id c :
  consistent id c ->
  exists j, Verify.jobs (fst c) !! id = Some j /\ well_formed j.
Proof.
  destruct c as [s [rest i results job|]]; simpl.
  - intros (J & _ & St & Rf & Pr & Tot). exists job. split; [exact J|].
    split; [lia|]. rewrite Rf, St. split.
    + intros [x Hx]. discriminate.
    + discriminate.
  - intros (j & J & Pr & Cases). exists j. split; [exact J|].
    split; [exact Pr|].
    destruct Cases as [[St Rf] | [St Rf]]; rewrite St.
    + tauto.
    + rewrite Rf. split; [intros [x Hx]; discriminate | discriminate].
Qed.

Lemma step_consistent fuel id ttbKey c c' :
  consistent id c -> Verify.step fuel id ttbKey c c' -> consistent id c'.
Proof.
  intros Inv St. destruct St as
    [s r rest i results job results' job' s' It
    |s r rest i results job e s' It
    |s i results job]; simpl in Inv; destruct Inv as (J & Id & Run & Rf & Pr & Tot).
  - unfold Verify.iteration in It.
    destruct (Verify.verifyRow fuel ttbKey r (Verify.mach s))
      as [[[out | e] m]|]; [|discriminate|discriminate].
    injection It as <- <- <-. simpl. unfold Store.setJob. simpl.
    rewrite Id, lookup_insert_eq. simpl in Tot. repeat split; auto; lia.
  - unfold Verify.iteration in It.
    destruct (Verify.verifyRow fuel ttbKey r (Verify.mach s))
      as [[[out | e'] m]|]; [discriminate| |discriminate].
    injection It as <- <-. simpl.
    unfold Verify.on_rejected, Store.getJob. simpl. rewrite J. simpl.
    unfold Store.setJob. simpl. rewrite Id, lookup_insert_eq.
    eexists. split; [reflexivity|]. simpl. simpl in Tot.
    split; [lia|]. right. auto.
  - simpl. unfold Store.setJob. simpl. rewrite Id, lookup_insert_eq.
    eexists. split; [reflexivity|]. simpl. simpl in Tot.
    split; [lia|]. left. split; [reflexivity | eauto].
Qed.

Lemma step_advances fuel id ttbKey c c' :
  consistent id c -> Verify.step fuel id ttbKey c c' ->
  exists j j',
    Verify.jobs (fst c) !! id = Some j
    /\ Verify.jobs (fst c') !! id = Some j'
    /\ Store.status j = Store.running
    /\ advances (Store.status j) (Store.status j') = true.
Proof.
  intros Inv St. pose proof (step_consistent _ _ _ _ _ Inv St) as Inv'.
  destruct St; simpl in Inv, Inv'.
  - destruct Inv as (J & _ & Run & _). destruct Inv' as (J' & _ & Run' & _).
    eexists _, _. split; [exact J|]. split; [exact J'|].
    rewrite Run, Run'. auto.
  - destruct Inv as (J & _ & Run & _).
    destruct Inv' as (j' & J' & _ & [[St' _] | [St' _]]);
      eexists _, _; (split; [exact J|]); (split; [exact J'|]);
      rewrite Run, St'; auto.
  - destruct Inv as (J & _ & Run & _).
    destruct Inv' as (j' & J' & _ & [[St' _] | [St' _]]);
      eexists _, _; (split; [exact J|]); (split; [exact J'|]);
      rewrite Run, St'; auto.
Qed.

Lemma started_consistent id fid name rows region0 school_level s :
  consistent id (started id fid name rows region0 school_level s).
Proof.
  simpl. unfold Store.setJob. simpl. rewrite lookup_insert_eq.
  repeat split.
Qed.

Lemma reachable_consistent fuel id ttbKey c0 c :
  consistent id c0 -> rtc (Verify.step fuel id ttbKey) c0 c ->
  consistent id c.
Proof.
  intros Inv Reach. induction Reach as [|c0 c1 c St Reach IH]; [exact Inv|].
  apply IH. eapply step_consistent; eauto.
Qed.

(** The loop of the task, as a sequence of steps. *)
Lemma rows_loop_steps fuel id ttbKey rows :
  forall i results job s o s',
    Verify.rows_loop fuel ttbKey rows i results job s = Some (o, s') ->
    match o with
    | Ret (results', job') =>
      rtc (Verify.step fuel id ttbKey)
        (s, Verify.AtRow rows i results job)
        (Verify.finish id job' results' s', Verify.Settled)
    | Throw e =>
      rtc (Verify.step fuel id ttbKey)
        (s, Verify.AtRow rows i results job)
        (Verify.on_rejected id e s', Verify.Settled)
    end.
Proof.
  induction rows as [|r rest IH]; intros i results job s o s' E; simpl in E.
  - injection E as <- <-. apply rtc_once. constructor.
  - destruct (Verify.iteration fuel ttbKey i r results job s)
      as [[[[results1 job1] | e] s1]|] eqn:It; [| |discriminate].
    + specialize (IH _ _ _ _ _ _ E).
      destruct o as [[results' job'] | e];
        (eapply rtc_l; [eapply Verify.step_row, It | exact IH]).
    + injection E as <- <-. apply rtc_once.
      eapply Verify.step_throw, It.
Qed.

(** The states that the background task of [POST] goes through are those
    of the step relation: its final state is reached by steps. *)
Lemma background_steps fuel id fid name rows region0 school_level ttbKey s s' :
  Verify.background fuel id ttbKey
    (Verify.registered
       (Verify.new_job id (Store.uploaded fid name rows) region0 school_level)
       s) = Some s' ->
  rtc (Verify.step fuel id ttbKey)
    (started id fid name rows region0 school_level s) (s', Verify.Settled).
Proof.
  unfold Verify.background, Verify.processVerification, Store.getJob,
    Verify.registered, Store.setJob.
  cbn [Verify.jobs Store.jobId Verify.new_job].
  rewrite lookup_insert_eq.
  cbn [Store.inputData Store.uploaded Store.data Verify.new_job].
  destruct (Verify.rows_loop fuel ttbKey rows 0 [] _ _)
    as [[[[results' job'] | e] s1]|] eqn:E; [| |discriminate];
    intros [= <-];
    exact (rows_loop_steps fuel id ttbKey rows _ _ _ _ _ _ E).
Qed.

End JobLife.

(** C4. For every job that [POST] creates for an uploaded file, in every
    state reached while and after its records are processed: the stored
    job has [progress <= total] and has a [resultFile] if and only if its
    status is COMPLETED; every step starts from RUNNING and leaves the
    status where it is or moves it to COMPLETED or FAILED, never back. *)
Theorem job_invariants (R : Runtime) (F : Fuzzball) (N : Network)
    (fuel : nat) (ttbKey id fid name : jsstring)
    (rows : list Store.BookRow) (region0 school_level : option jsstring)
    (s : Verify.system) (c : Verify.system * Verify.control)
    (reached :
       rtc (Verify.step fuel id ttbKey)
         (started id fid name rows region0 school_level s) c) :
  (exists j, Verify.jobs (fst c) !! id = Some j /\ well_formed j)
  /\ (forall c', Verify.step fuel id ttbKey c c' ->
        exists j j',
          Verify.jobs (fst c) !! id = Some j
          /\ Verify.jobs (fst c') !! id = Some j'
          /\ Store.status j = Store.running
          /\ advances (Store.status j) (Store.status j') = true).
Proof.
  pose proof (reachable_consistent fuel id ttbKey _ _
                (started_consistent id fid name rows region0 school_level s)
                reached) as Inv.
  split.
  - apply consistent_well_formed, Inv.
  - intros c' St. eapply step_advances; eauto.
Qed.

Lemma job_invariants_witness :
  (exists j,
     Verify.jobs JobExamples.final !! JobExamples.id = Some j
     /\ well_formed j /\ Store.status j = Store.completed
     /\ Store.progress j = 2%nat)
  /\ (forall c',
        @Verify.step Scenario.latin Scenario.all_or_nothing
          BatchExamples.momo_fails 1 JobExamples.id VerifyExamples.ttb
          (JobExamples.final, Verify.Settled) c' ->
        exists j j',
          Verify.jobs JobExamples.final !! JobExamples.id = Some j
          /\ Verify.jobs (fst c') !! JobExamples.id = Some j'
          /\ Store.status j = Store.running
          /\ advances (Store.status j) (Store.status j') = true).
Proof.
  assert (Reached :
    rtc (@Verify.step Scenario.latin Scenario.all_or_nothing
           BatchExamples.momo_fails 1 JobExamples.id VerifyExamples.ttb)
      (started JobExamples.id (lit "f1") (lit "books.xlsx") JobExamples.rows
         None None BatchExamples.fresh)
      (JobExamples.final, Verify.Settled)).
  { apply background_steps. vm_compute. reflexivity. }
  destruct (job_invariants Scenario.latin Scenario.all_or_nothing
              BatchExamples.momo_fails 1 VerifyExamples.ttb JobExamples.id
              (lit "f1") (lit "books.xlsx") JobExamples.rows None None
              BatchExamples.fresh (JobExamples.final, Verify.Settled) Reached)
    as [[j [J W]] Steps].
  split; [|exact Steps].
  exists j. split; [exact J|]. split; [exact W|].
  vm_compute in J. injection J as <-. split; reflexivity.
Defined.

(* ================================================================== *)
(** * The cache as a data structure *)
(* ================================================================== *)

(** X1. What is stored under a pair is what a lookup under any pair with
    the same key returns, in both maps, and the lookup counts as a hit;
    lookups under other keys, and lookups in the other map, answer as
    they did before the store. *)
Theorem cache_store_then_lookup (R : Runtime) (c : Cache.ResultCache)
    (title author title' author' school school' isbn : jsstring)
    (i e m e' : option jsstring) (ex : bool) (n : nat)
    (same_pair : Cache.makeISBNKey title' author'
                 = Cache.makeISBNKey title author)
    (same_school : Cache.normalizeKey school' = Cache.normalizeKey school) :
  let c1 := Cache.setISBN title author i e c in
  let c2 := Cache.setSearch school isbn ex n m e' c in
  fst (Cache.getISBN title' author' c1)
  = Some {| Cache.isbn13 := i; Cache.error := e |}
  /\ Cache.isbnHits (Cache.stats (snd (Cache.getISBN title' author' c1)))
     = S (Cache.isbnHits (Cache.stats c))
  /\ fst (Cache.getSearch school' isbn c2)
     = Some {| Cache.exists_ := ex; Cache.itemCount := n;
               Cache.matchedSchool := m; Cache.search_error := e' |}
  /\ Cache.searchHits (Cache.stats (snd (Cache.getSearch school' isbn c2)))
     = S (Cache.searchHits (Cache.stats c))
  /\ (forall t a,
        Cache.makeISBNKey t a <> Cache.makeISBNKey title author ->
        fst (Cache.getISBN t a c1) = fst (Cache.getISBN t a c))
  /\ (forall sc k,
        Cache.makeSearchKey sc k <> Cache.makeSearchKey school isbn ->
        fst (Cache.getSearch sc k c2) = fst (Cache.getSearch sc k c))
  /\ (forall sc k,
        fst (Cache.getSearch sc k c1) = fst (Cache.getSearch sc k c))
  /\ (forall t a, fst (Cache.getISBN t a c2) = fst (Cache.getISBN t a c)).
Proof.
  intros c1 c2. subst c1 c2.
  assert (K : Cache.makeSearchKey school' isbn
              = Cache.makeSearchKey school isbn).
  { unfold Cache.makeSearchKey. now rewrite same_school. }
  split; [|split; [|split; [|split; [|split; [|split; [|split]]]]]].
  - rewrite getISBN_fst, same_pair. apply lookup_insert_eq.
  - unfold Cache.getISBN. rewrite same_pair.
    unfold Cache.setISBN at 1. cbn [Cache.isbnCache].
    rewrite lookup_insert_eq. reflexivity.
  - rewrite getSearch_fst, K. apply lookup_insert_eq.
  - unfold Cache.getSearch. rewrite K.
    unfold Cache.setSearch at 1. cbn [Cache.searchCache].
    rewrite lookup_insert_eq. reflexivity.
  - intros t a Hne. rewrite !getISBN_fst. simpl.
    apply lookup_insert_ne. congruence.
  - intros sc k Hne. rewrite !getSearch_fst. simpl.
    apply lookup_insert_ne. congruence.
  - intros sc k. rewrite !getSearch_fst. reflexivity.
  - intros t a. rewrite !getISBN_fst. reflexivity.
Qed.

Lemma cache_store_then_lookup_witness :
  fst (@Cache.getISBN Scenario.latin (lit " DEMIAN ") (lit "hermann  hesse")
         (@Cache.setISBN Scenario.latin (lit "Demian") (lit "Hermann Hesse")
            (Some VerifyExamples.isbn_demian) None Cache.empty))
  = Some {| Cache.isbn13 := Some VerifyExamples.isbn_demian;
            Cache.error := None |}.
Proof.
  refine (proj1 (cache_store_then_lookup Scenario.latin Cache.empty
                   (lit "Demian") (lit "Hermann Hesse")
                   (lit " DEMIAN ") (lit "hermann  hesse")
                   (lit "한빛 초등학교") (lit "한빛초등학교")
                   VerifyExamples.isbn_demian
                   (Some VerifyExamples.isbn_demian) None None None
                   false 0 _ _)).
  - vm_compute. reflexivity.
  - vm_compute. reflexivity.
Defined.

Section CacheHistory.
Context `{Runtime}.

Lemma after_ops_snoc ops o :
  after_ops (ops ++ [o]) = apply_op (after_ops ops) o.
Proof. unfold after_ops. now rewrite fold_left_app. Qed.

Lemma isbn_lookups_snoc ops o :
  isbn_lookups (ops ++ [o])
  = match o with
    | OpGetISBN _ _ => S (isbn_lookups ops)
    | OpClear => 0%nat
    | _ => isbn_lookups ops
    end.
Proof. unfold isbn_lookups. now rewrite fold_left_app. Qed.

Lemma search_lookups_snoc ops o :
  search_lookups (ops ++ [o])
  = match o with
    | OpGetSearch _ _ => S (search_lookups ops)
    | OpClear => 0%nat
    | _ => search_lookups ops
    end.
Proof. unfold search_lookups. now rewrite fold_left_app. Qed.

End CacheHistory.

(** X2. After any history of calls on a new cache, the two size counters
    are the numbers of entries of the two maps, and hits and misses of
    each kind add up to the number of lookups of that kind since the last
    [clear]. *)
Theorem cache_counters_agree (R : Runtime) (ops : list cache_op) :
  let c := after_ops ops in
  let st := Cache.getStats c in
  Cache.isbnCacheSize st = size (Cache.isbnCache c)
  /\ Cache.searchCacheSize st = size (Cache.searchCache c)
  /\ (Cache.isbnHits st + Cache.isbnMisses st = isbn_lookups ops)%nat
  /\ (Cache.searchHits st + Cache.searchMisses st = search_lookups ops)%nat.
Proof.
  induction ops as [|o ops IH] using rev_ind.
  - repeat split; apply map_size_empty.
  - cbv zeta in *. rewrite after_ops_snoc, isbn_lookups_snoc,
      search_lookups_snoc.
    destruct IH as (I1 & I2 & I3 & I4). unfold Cache.getStats in *.
    destruct o as [t a | t a i e | sc i | sc i ex n m e |]; simpl.
    + unfold Cache.getISBN.
      destruct (Cache.isbnCache (after_ops ops) !! _); simpl;
        repeat split; auto; lia.
    + repeat split; auto.
    + unfold Cache.getSearch.
      destruct (Cache.searchCache (after_ops ops) !! _); simpl;
        repeat split; auto; lia.
    + repeat split; auto.
    + repeat split; apply map_size_empty.
Qed.

(** X3. The separator of the key is not escaped: for a title, a middle
    part and an author written in Basic Latin and Hangul, moving the
    bar-joined middle part from the end of the title to the start of the
    author gives the same key, so that the two pairs share one cache
    entry. *)
Theorem isbn_key_collides (R : Runtime) (host : lowers_plain_text)
    (title middle author : jsstring)
    (plain_title : plain title = true)
    (plain_middle : plain middle = true)
    (plain_author : plain author = true) :
  Cache.makeISBNKey (title ++ lit "|" ++ middle) author
  = Cache.makeISBNKey title (middle ++ lit "|" ++ author).
Proof.
  assert (Bar : plain (lit "|") = true) by reflexivity.
  unfold Cache.makeISBNKey.
  rewrite !(plain_normalizeKey R host)
    by (unfold plain in *; rewrite ?forallb_app, ?plain_title,
          ?plain_middle, ?plain_author, ?Bar; reflexivity).
  unfold strip_spaces. rewrite !List.filter_app, !List.map_app.
  change (List.map ascii_lower
            (List.filter (fun c => negb (is_space c)) (lit "|")))
    with (lit "|").
  now rewrite <- !app_assoc.
Qed.

Lemma isbn_key_collides_witness :
  @Cache.makeISBNKey Scenario.latin (lit "Momo" ++ lit "|" ++ lit "Ende")
    (lit "Thienemann")
  = @Cache.makeISBNKey Scenario.latin (lit "Momo")
      (lit "Ende" ++ lit "|" ++ lit "Thienemann").
Proof.
  apply (isbn_key_collides Scenario.latin).
  - intros s' _. reflexivity.
  - reflexivity.
  - reflexivity.
  - reflexivity.
Defined.

(* ================================================================== *)
(** * The query title *)
(* ================================================================== *)

Section Trimming.

Lemma trimStart_split (s : jsstring) :
  exists pre, s = pre ++ trimStart s /\ forallb is_space pre = true.
Proof.
  induction s as [|c s IH]; simpl.
  - exists []. split; reflexivity.
  - destruct (is_space c) eqn:E.
    + destruct IH as [pre [E1 E2]]. exists (c :: pre). simpl.
      rewrite E, E2. split; [now f_equal | reflexivity].
    + exists []. split; reflexivity.
Qed.

Lemma trimStart_head (s : jsstring) c r :
  trimStart s = c :: r -> is_space c = false.
Proof.
  induction s as [|d s IH]; simpl; [discriminate|].
  destruct (is_space d) eqn:E; [exact IH|]. intros [= <- _]. exact E.
Qed.

Lemma trimStart_fixed (s : jsstring) :
  (forall c r, s = c :: r -> is_space c = false) -> trimStart s = s.
Proof.
  destruct s as [|c r]; [reflexivity|]. intros Hd. simpl.
  now rewrite (Hd c r eq_refl).
Qed.

Lemma forallb_rev {A} (f : A -> bool) l :
  forallb f (List.rev l) = forallb f l.
Proof.
  induction l as [|a l IH]; [reflexivity|]. simpl.
  rewrite forallb_app, IH. simpl. rewrite andb_true_r. apply andb_comm.
Qed.

(** [trim] cuts white space off both ends and nothing else. *)
Lemma trim_split (s : jsstring) :
  exists pre post,
    s = pre ++ trim s ++ post
    /\ forallb is_space pre = true /\ forallb is_space post = true.
Proof.
  unfold trim.
  destruct (trimStart_split s) as [pre [E1 P1]].
  destruct (trimStart_split (List.rev (trimStart s))) as [post' [E2 P2]].
  exists pre, (List.rev post'). split; [|split; [exact P1|]].
  - rewrite <- rev_app_distr, <- E2, rev_involutive. exact E1.
  - now rewrite forallb_rev.
Qed.

Lemma trim_trimmed (s : jsstring) : trimmed (trim s).
Proof.
  unfold trim, trimmed. split.
  - intros c r E.
    destruct (trimStart_split (List.rev (trimStart s))) as [post' [E2 _]].
    assert (Ev : trimStart (List.rev (trimStart s)) = List.rev r ++ [c]).
    { rewrite <- (rev_involutive (trimStart _)), E. reflexivity. }
    rewrite Ev in E2.
    apply (f_equal (@List.rev N)) in E2.
    rewrite rev_involutive, !rev_app_distr in E2. simpl in E2.
    eapply trimStart_head, E2.
  - intros c r E.
    assert (Ev : trimStart (List.rev (trimStart s)) = c :: List.rev r).
    { rewrite <- (rev_involutive (trimStart _)), E, rev_app_distr.
      reflexivity. }
    eapply trimStart_head, Ev.
Qed.

Lemma trim_fixed (s : jsstring) : trimmed s -> trim s = s.
Proof.
  intros [Hd Tl]. unfold trim. rewrite (trimStart_fixed s Hd).
  rewrite trimStart_fixed; [apply rev_involutive|].
  intros c r E. apply (Tl c (List.rev r)).
  rewrite <- (rev_involutive s), E. reflexivity.
Qed.

Lemma trim_In (s : jsstring) x : In x (trim s) -> In x s.
Proof.
  destruct (trim_split s) as [pre [post [E _]]]. intros Hin.
  rewrite E, !in_app_iff. tauto.
Qed.

End Trimming.

Section TitleShape.

Lemma punct_not_bracket c :
  Aladin.is_punct c = true ->
  Aladin.is_open c = false /\ Aladin.is_close c = false.
Proof.
  unfold Aladin.is_punct. rewrite !orb_true_iff, !N.eqb_eq.
  intros [[[[[-> | ->] | ->] | ->] | ->] | ->]; split; reflexivity.
Qed.

Lemma bracket_not_space c :
  Aladin.is_open c || Aladin.is_close c = true -> is_space c = false.
Proof.
  unfold Aladin.is_open, Aladin.is_close. rewrite !orb_true_iff, !N.eqb_eq.
  intros [[-> | ->] | [-> | ->]]; reflexivity.
Qed.

Lemma space_not_bracket c :
  is_space c = true ->
  Aladin.is_open c = false /\ Aladin.is_close c = false.
Proof.
  intros Sp. pose proof (bracket_not_space c) as B.
  destruct (Aladin.is_open c), (Aladin.is_close c); simpl in B;
    try (specialize (B eq_refl); congruence); auto.
Qed.

(** *** Brackets *)

Lemma drop_annotations_closers b s :
  existsb Aladin.is_close s = false ->
  existsb Aladin.is_close (Aladin.drop_annotations b s) = false.
Proof.
  revert b. induction s as [|c r IH]; intros b; simpl; [now destruct b|].
  rewrite orb_false_iff. intros [Hc Hr]. destruct b; rewrite ?Hc, ?Hr.
  - apply IH, Hr.
  - rewrite andb_false_r. simpl. rewrite Hc. apply IH, Hr.
Qed.

Lemma drop_annotations_settled b s :
  settled (Aladin.drop_annotations b s) = true.
Proof.
  revert b. induction s as [|c r IH]; intros b; simpl; [now destruct b|].
  destruct b.
  - destruct (Aladin.is_close c); apply IH.
  - destruct (Aladin.is_open c) eqn:Op; simpl.
    + destruct (existsb Aladin.is_close r) eqn:Cl; simpl.
      * apply IH.
      * rewrite Op, (drop_annotations_closers false r Cl). apply IH.
    + rewrite Op. apply IH.
Qed.

Lemma drop_annotations_fixed s :
  settled s = true -> Aladin.drop_annotations false s = s.
Proof.
  induction s as [|c r IH]; simpl; [reflexivity|].
  rewrite andb_true_iff, negb_true_iff. intros [Hc Hr].
  rewrite Hc, (IH Hr). reflexivity.
Qed.

Lemma settled_app_r l m : settled (l ++ m) = true -> settled m = true.
Proof.
  induction l as [|c l IH]; simpl; [auto|].
  rewrite andb_true_iff. intros [_ Hr]. auto.
Qed.

Lemma settled_app_l m post : settled (m ++ post) = true -> settled m = true.
Proof.
  induction m as [|c m IH]; simpl; [auto|].
  rewrite !andb_true_iff, !negb_true_iff, existsb_app.
  intros [Hc Hr]. split; [|auto].
  destruct (Aladin.is_open c); [|reflexivity]. simpl in *.
  apply orb_false_iff in Hc. tauto.
Qed.

Lemma blank_punct_closers s :
  existsb Aladin.is_close (Aladin.blank_punct s)
  = existsb Aladin.is_close s.
Proof.
  induction s as [|c r IH]; simpl; [reflexivity|]. rewrite IH. f_equal.
  destruct (Aladin.is_punct c) eqn:P; [|reflexivity].
  destruct (punct_not_bracket c P) as [_ ->]. reflexivity.
Qed.

Lemma blank_punct_settled s :
  settled (Aladin.blank_punct s) = settled s.
Proof.
  induction s as [|c r IH]; simpl; [reflexivity|].
  fold (Aladin.blank_punct r). rewrite IH, blank_punct_closers. f_equal.
  destruct (Aladin.is_punct c) eqn:P; [|reflexivity].
  destruct (punct_not_bracket c P) as [-> _]. reflexivity.
Qed.

Lemma collapse_spaces_closers b s :
  existsb Aladin.is_close (Aladin.collapse_spaces b s)
  = existsb Aladin.is_close s.
Proof.
  revert b. induction s as [|c r IH]; intros b; simpl; [reflexivity|].
  destruct (is_space c) eqn:Sp.
  - destruct (space_not_bracket c Sp) as [_ ->]. simpl.
    destruct b; simpl; apply IH.
  - simpl. now rewrite IH.
Qed.

Lemma collapse_spaces_settled b s :
  settled (Aladin.collapse_spaces b s) = settled s.
Proof.
  revert b. induction s as [|c r IH]; intros b; simpl; [reflexivity|].
  destruct (is_space c) eqn:Sp.
  - destruct (space_not_bracket c Sp) as [-> _]. simpl.
    destruct b; simpl; apply IH.
  - simpl. now rewrite IH, collapse_spaces_closers.
Qed.

(** *** Punctuation *)

Lemma blank_punct_clean s :
  forallb (fun c => negb (Aladin.is_punct c)) (Aladin.blank_punct s) = true.
Proof.
  induction s as [|c r IH]; simpl; [reflexivity|].
  fold (Aladin.blank_punct r). rewrite IH, andb_true_r.
  destruct (Aladin.is_punct c) eqn:P; [reflexivity | now rewrite P].
Qed.

Lemma blank_punct_fixed s :
  forallb (fun c => negb (Aladin.is_punct c)) s = true ->
  Aladin.blank_punct s = s.
Proof.
  induction s as [|c r IH]; simpl; [reflexivity|].
  rewrite andb_true_iff, negb_true_iff. intros [-> Hr].
  fold (Aladin.blank_punct r). now rewrite (IH Hr).
Qed.

Lemma collapse_spaces_clean b s :
  forallb (fun c => negb (Aladin.is_punct c)) s = true ->
  forallb (fun c => negb (Aladin.is_punct c)) (Aladin.collapse_spaces b s)
  = true.
Proof.
  revert b. induction s as [|c r IH]; intros b; simpl; [reflexivity|].
  rewrite andb_true_iff. intros [Hc Hr].
  destruct (is_space c); [destruct b|]; simpl.
  - apply IH, Hr.
  - apply IH, Hr.
  - rewrite Hc. apply IH, Hr.
Qed.

(** *** White space *)

Lemma collapse_spaces_single b s :
  single_spaced b (Aladin.collapse_spaces b s) = true.
Proof.
  revert b. induction s as [|c r IH]; intros b; simpl; [reflexivity|].
  destruct (is_space c) eqn:Sp.
  - destruct b; [apply IH|]. simpl. apply IH.
  - simpl. rewrite Sp. apply IH.
Qed.

Lemma collapse_spaces_fixed b s :
  single_spaced b s = true -> Aladin.collapse_spaces b s = s.
Proof.
  revert b. induction s as [|c r IH]; intros b; simpl; [reflexivity|].
  destruct (is_space c).
  - rewrite !andb_true_iff, negb_true_iff, N.eqb_eq.
    intros [[-> ->] Hr]. now rewrite (IH true Hr).
  - intros Hr. now rewrite (IH false Hr).
Qed.

Lemma single_spaced_weaken s :
  single_spaced true s = true -> single_spaced false s = true.
Proof.
  destruct s as [|c r]; simpl; [auto|].
  destruct (is_space c); [|auto]. rewrite andb_false_r. discriminate.
Qed.

Lemma single_spaced_app_r b l m :
  single_spaced b (l ++ m) = true -> single_spaced false m = true.
Proof.
  revert b. induction l as [|c l IH]; intros b; simpl.
  - destruct b; [apply single_spaced_weaken | auto].
  - destruct (is_space c).
    + rewrite !andb_true_iff. intros [_ Hr]. eapply IH, Hr.
    + apply IH.
Qed.

Lemma single_spaced_app_l b m post :
  single_spaced b (m ++ post) = true -> single_spaced b m = true.
Proof.
  revert b. induction m as [|c m IH]; intros b; simpl; [auto|].
  destruct (is_space c).
  - rewrite !andb_true_iff. intros [Hc Hr]. split; [exact Hc|]. eapply IH, Hr.
  - apply IH.
Qed.

Lemma forallb_infix {A} (f : A -> bool) pre m post :
  forallb f (pre ++ m ++ post) = true -> forallb f m = true.
Proof.
  rewrite !forallb_app, !andb_true_iff. tauto.
Qed.

(** A title that is already tidy is left as it is. *)
Lemma normalizeTitle_fixed q :
  settled q = true ->
  forallb (fun c => negb (Aladin.is_punct c)) q = true ->
  single_spaced false q = true ->
  trimmed q ->
  Aladin.normalizeTitle q = q.
Proof.
  intros S P W T. unfold Aladin.normalizeTitle.
  rewrite (drop_annotations_fixed q S), (blank_punct_fixed q P),
    (collapse_spaces_fixed false q W).
  apply trim_fixed, T.
Qed.

Lemma normalizeTitle_shape title :
  settled (Aladin.normalizeTitle title) = true
  /\ forallb (fun c => negb (Aladin.is_punct c))
       (Aladin.normalizeTitle title) = true
  /\ single_spaced false (Aladin.normalizeTitle title) = true
  /\ trimmed (Aladin.normalizeTitle title).
Proof.
  unfold Aladin.normalizeTitle.
  set (x := Aladin.collapse_spaces false
              (Aladin.blank_punct (Aladin.drop_annotations false title))).
  destruct (trim_split x) as [pre [post [E _]]].
  assert (Sx : settled x = true).
  { unfold x. rewrite collapse_spaces_settled, blank_punct_settled.
    apply drop_annotations_settled. }
  assert (Px : forallb (fun c => negb (Aladin.is_punct c)) x = true).
  { unfold x. apply collapse_spaces_clean, blank_punct_clean. }
  assert (Wx : single_spaced false x = true).
  { apply collapse_spaces_single. }
  rewrite E in Sx, Px, Wx.
  split; [|split; [|split]].
  - eapply settled_app_l, settled_app_r, Sx.
  - eapply forallb_infix, Px.
  - eapply single_spaced_app_l, single_spaced_app_r, Wx.
  - apply trim_trimmed.
Qed.

End TitleShape.

(** X4. The query that the resolver sends for a title contains none of
    the characters . : ; , - _, contains white space only as single
    U+0020 characters, neither starts nor ends with white space, and has
    no opening bracket with a closing bracket after it. *)
Theorem normalizeTitle_tidy (ttbKey title : jsstring) :
  let q := Query (Aladin.params_of ttbKey title) in
  forallb (fun c => negb (Aladin.is_punct c)) q = true
  /\ single_spaced false q = true
  /\ trimmed q
  /\ settled q = true.
Proof.
  destruct (normalizeTitle_shape title) as (S & P & W & T).
  simpl. auto.
Qed.

(** X5. Normalising a title twice gives what normalising it once gives. *)
Theorem normalizeTitle_idempotent (title : jsstring) :
  Aladin.normalizeTitle (Aladin.normalizeTitle title)
  = Aladin.normalizeTitle title.
Proof.
  destruct (normalizeTitle_shape title) as (S & P & W & T).
  apply normalizeTitle_fixed; assumption.
Qed.

(* ================================================================== *)
(** * The best candidate *)
(* ================================================================== *)

Section FloatOrder.

Ltac compare_cases :=
  change (Pos.compare_cont Eq) with Pos.compare in *;
  repeat match goal with
         | H : context [(?a ?= ?b)%Z] |- _ => destruct (Z.compare_spec a b)
         | |- context [(?a ?= ?b)%Z] => destruct (Z.compare_spec a b)
         | H : context [(?a ?= ?b)%positive] |- _ =>
           destruct (Pos.compare_spec a b)
         | |- context [(?a ?= ?b)%positive] => destruct (Pos.compare_spec a b)
         end;
  simpl in *; subst; try congruence; try lia.

Lemma SFcompare_Lt_trans a b c :
  SFcompare a b = Some Lt -> SFcompare b c = Some Lt ->
  SFcompare a c = Some Lt.
Proof.
  destruct a as [sa|sa| |sa ma ea], b as [sb|sb| |sb mb eb],
    c as [sc|sc| |sc mc ec]; simpl; intros H1 H2; try discriminate;
    repeat match goal with s : bool |- _ => destruct s end;
    try discriminate; try reflexivity; compare_cases.
Qed.

Lemma SFcompare_not_Lt_trans a b c :
  a <> S754_nan ->
  SFcompare b a <> Some Lt -> SFcompare b c = Some Lt ->
  SFcompare a c = Some Lt.
Proof.
  destruct a as [sa|sa| |sa ma ea], b as [sb|sb| |sb mb eb],
    c as [sc|sc| |sc mc ec]; simpl; intros N H1 H2; try discriminate;
    try congruence;
    repeat match goal with s : bool |- _ => destruct s end;
    try discriminate; try reflexivity; try congruence; compare_cases.
Qed.

Lemma SFltb_Lt a b : SFltb a b = true <-> SFcompare a b = Some Lt.
Proof.
  unfold SFltb. destruct (SFcompare a b) as [[]|]; split; congruence.
Qed.

Lemma ltb_trans x y z :
  PrimFloat.ltb x y = true -> PrimFloat.ltb y z = true ->
  PrimFloat.ltb x z = true.
Proof.
  rewrite !ltb_spec, !SFltb_Lt. apply SFcompare_Lt_trans.
Qed.

(** For numbers, "not below" composes with "below". *)
Lemma ltb_not_trans x b y :
  is_number x = true ->
  PrimFloat.ltb b x = false -> PrimFloat.ltb b y = true ->
  PrimFloat.ltb x y = true.
Proof.
  unfold is_number. rewrite !ltb_spec. intros Nx H1 H2.
  apply SFltb_Lt. apply SFltb_Lt in H2.
  apply (SFcompare_not_Lt_trans _ (Prim2SF b)); [| |exact H2].
  - intros E. rewrite E in Nx. discriminate.
  - intros E. apply SFltb_Lt in E. congruence.
Qed.

Lemma SFleb_trans a b c :
  SFleb a b = true -> SFleb b c = true -> SFleb a c = true.
Proof.
  unfold SFleb.
  destruct a as [sa|sa| |sa ma ea], b as [sb|sb| |sb mb eb],
    c as [sc|sc| |sc mc ec]; simpl; intros H1 H2; try discriminate;
    repeat match goal with s : bool |- _ => destruct s end;
    try discriminate; try reflexivity; compare_cases.
Qed.

Lemma leb_trans x y z :
  PrimFloat.leb x y = true -> PrimFloat.leb y z = true ->
  PrimFloat.leb x z = true.
Proof. rewrite !leb_spec. apply SFleb_trans. Qed.

End FloatOrder.

(** Every score that percentages can give, checked by evaluation. *)
Lemma score_grid :
  forallb
    (fun t =>
       usable_score (Aladin.w_title * (number t / 100)
                     + Aladin.w_author * 0)%float
       && forallb (fun a => usable_score (blend t a)) percentages)
    percentages = true.
Proof. vm_compute. reflexivity. Qed.

Section BestCandidate.
Context `{Fuzzball}.
Variables needleTitle needleAuthor : jsstring.

Let score := item_score needleTitle needleAuthor.
Let step := fun (acc : option AladinBook * float) (item : AladinBook) =>
  if PrimFloat.ltb (snd acc) (score item) then (Some item, score item)
  else acc.

Lemma pick_best_fold items :
  Aladin.pick_best needleTitle needleAuthor items
  = fold_left step items (None, (-1)%float).
Proof. reflexivity. Qed.

Lemma score_usable (percent : forall a b, (0 <= token_set_ratio a b <= 100)%Z)
    item :
  usable_score (score item) = true.
Proof.
  unfold score, item_score, Aladin.titleAuthorScore.
  set (t := token_set_ratio needleTitle _).
  set (a := token_set_ratio needleAuthor _).
  assert (Ht : (0 <= t <= 100)%Z) by apply percent.
  assert (Ha : (0 <= a <= 100)%Z) by apply percent.
  pose proof score_grid as G. rewrite forallb_forall in G.
  specialize (G t (percentages_complete t Ht)).
  apply andb_true_iff in G. destruct G as [G0 G].
  rewrite forallb_forall in G. specialize (G a (percentages_complete a Ha)).
  destruct (truthy needleAuthor); assumption.
Qed.

(** The candidate kept is one of those seen, and the score kept is its
    score. *)
Lemma fold_best_member items :
  forall acc b,
    (forall b0, fst acc = Some b0 -> snd acc = score b0) ->
    fst (fold_left step items acc) = Some b ->
    (In b items \/ fst acc = Some b)
    /\ snd (fold_left step items acc) = score b.
Proof.
  induction items as [|y items IH]; intros acc b Hacc Hb; simpl in *.
  - split; [now right | apply Hacc, Hb].
  - destruct (IH (step acc y) b) as [[Hin | Hst] Hsc]; [|exact Hb| |].
    + unfold step. destruct (PrimFloat.ltb (snd acc) (score y)); simpl.
      * now intros b0 [= <-].
      * exact Hacc.
    + split; [left; now right | exact Hsc].
    + split; [|exact Hsc]. revert Hst. unfold step.
      destruct (PrimFloat.ltb (snd acc) (score y)); simpl.
      * intros [= <-]. left. now left.
      * intros E. now right.
Qed.

Lemma pick_best_member items b sc :
  Aladin.pick_best needleTitle needleAuthor items = (Some b, sc) ->
  In b items /\ sc = score b.
Proof.
  rewrite pick_best_fold. intros E.
  assert (Init : forall b0, fst (@None AladinBook, (-1)%float) = Some b0 ->
                            snd (@None AladinBook, (-1)%float) = score b0).
  { intros b0. discriminate. }
  assert (Kept : fst (fold_left step items (None, (-1)%float)) = Some b).
  { now rewrite E. }
  destruct (fold_best_member items _ b Init Kept) as [[Hin | Hn] Hsc].
  - rewrite E in Hsc. auto.
  - discriminate.
Qed.

Lemma best_so_far_step
    (percent : forall a b, (0 <= token_set_ratio a b <= 100)%Z)
    seen acc y :
  best_so_far needleTitle needleAuthor seen acc ->
  best_so_far needleTitle needleAuthor (seen ++ [y]) (step acc y).
Proof.
  destruct acc as [[b|] sc]; unfold best_so_far, step; simpl;
    fold score.
  - intros [-> (before & after & -> & Lower & NotHigher)].
    destruct (PrimFloat.ltb (score b) (score y)) eqn:Cmp; simpl.
    + split; [reflexivity|]. exists (before ++ b :: after), [].
      split; [reflexivity|]. split; [|intros x []].
      intros x Hin. apply in_app_iff in Hin. destruct Hin as [Hin | [<- | Hin]].
      * eapply ltb_trans; [apply Lower, Hin | exact Cmp].
      * exact Cmp.
      * apply (ltb_not_trans _ (score b)); [|apply NotHigher, Hin | exact Cmp].
        pose proof (score_usable percent x) as U.
        apply andb_true_iff in U. tauto.
    + split; [reflexivity|]. exists before, (after ++ [y]).
      split; [now rewrite <- app_assoc|]. split; [exact Lower|].
      intros x Hin. apply in_app_iff in Hin.
      destruct Hin as [Hin | [<- | []]]; [apply NotHigher, Hin | exact Cmp].
  - intros [-> ->].
    pose proof (score_usable percent y) as U.
    apply andb_true_iff in U. destruct U as [_ U]. rewrite U. simpl.
    split; [reflexivity|]. exists [], []. split; [reflexivity|].
    split; intros x [].
Qed.

Lemma best_so_far_fold
    (percent : forall a b, (0 <= token_set_ratio a b <= 100)%Z) items :
  forall seen acc,
    best_so_far needleTitle needleAuthor seen acc ->
    best_so_far needleTitle needleAuthor (seen ++ items)
      (fold_left step items acc).
Proof.
  induction items as [|y items IH]; intros seen acc Inv; simpl.
  - now rewrite app_nil_r.
  - replace (seen ++ y :: items) with ((seen ++ [y]) ++ items)
      by now rewrite <- app_assoc.
    apply IH, best_so_far_step; assumption.
Qed.

End BestCandidate.

(** X7. When similarities are percentages, the loop of the resolver keeps
    the first candidate with the highest score: every candidate before it
    scores strictly lower and no candidate after it scores higher; only
    for an empty list is no candidate kept. *)
Theorem pick_best_first_maximum (F : Fuzzball)
    (percent : forall a b, (0 <= token_set_ratio a b <= 100)%Z)
    (needleTitle needleAuthor : jsstring) (items : list AladinBook) :
  match Aladin.pick_best needleTitle needleAuthor items with
  | (Some b, sc) =>
    sc = item_score needleTitle needleAuthor b
    /\ exists before after,
         items = before ++ b :: after
         /\ (forall x, In x before ->
               PrimFloat.ltb (item_score needleTitle needleAuthor x) sc
               = true)
         /\ (forall x, In x after ->
               PrimFloat.ltb sc (item_score needleTitle needleAuthor x)
               = false)
  | (None, _) => items = []
  end.
Proof.
  pose proof (best_so_far_fold needleTitle needleAuthor percent items []
                (None, (-1)%float) (conj eq_refl eq_refl)) as Inv.
  rewrite <- pick_best_fold in Inv. simpl in Inv.
  destruct (Aladin.pick_best needleTitle needleAuthor items) as [[b|] sc];
    unfold best_so_far in Inv; simpl in Inv.
  - destruct Inv as [-> Rest]. split; [reflexivity | exact Rest].
  - tauto.
Qed.

Lemma pick_best_first_maximum_witness :
  match @Aladin.pick_best Scenario.all_or_nothing (lit "Demian") []
          [MoreExamples.siddhartha; VerifyExamples.demian;
           VerifyExamples.demian] with
  | (Some b, sc) =>
    sc = @item_score Scenario.all_or_nothing (lit "Demian") [] b
    /\ exists before after,
         [MoreExamples.siddhartha; VerifyExamples.demian;
          VerifyExamples.demian] = before ++ b :: after
         /\ (forall x, In x before ->
               PrimFloat.ltb
                 (@item_score Scenario.all_or_nothing (lit "Demian") [] x) sc
               = true)
         /\ (forall x, In x after ->
               PrimFloat.ltb sc
                 (@item_score Scenario.all_or_nothing (lit "Demian") [] x)
               = false)
  | (None, _) =>
    [MoreExamples.siddhartha; VerifyExamples.demian; VerifyExamples.demian]
    = []
  end.
Proof.
  apply (pick_best_first_maximum Scenario.all_or_nothing).
  intros a b. simpl. destruct (str_eqb a b); lia.
Defined.

(** On that list the second candidate is kept, not the third. *)
Example pick_best_keeps_the_first_of_equals :
  @Aladin.pick_best Scenario.all_or_nothing (lit "Demian") []
    [MoreExamples.siddhartha; VerifyExamples.demian; VerifyExamples.demian]
  = (Some VerifyExamples.demian, 0x1.6666666666666p-1%float).
Proof. vm_compute. reflexivity. Qed.

(** X6. A result that the resolver returns has an ISBN or an error, never
    both and never neither.  An ISBN returned is not empty, has no white
    space at its ends, and is the trimmed [isbn13] of one of the candidates
    of the answer, whose score reaches the threshold; the candidate count
    is then the number of candidates. *)
Theorem resolver_result_well_formed (F : Fuzzball) (N : Network)
    (ttbKey title author : jsstring) (thr : float) (s s' : machine)
    (r : Aladin.Resolved)
    (returned : Aladin.searchISBNByTitleAuthor ttbKey title author thr s
                = Some (Ret r, s')) :
  (is_Some (Aladin.isbn13 r) <-> Aladin.error r = None)
  /\ forall i,
       Aladin.isbn13 r = Some i ->
       i <> [] /\ trimmed i
       /\ exists code d b,
            snd (aladin (net s) (Aladin.params_of ttbKey title))
            = Response true code (inr d)
            /\ In b (default [] (item d))
            /\ i = trim (or_else (a_isbn13 b) [])
            /\ Aladin.candidateCount r = length (default [] (item d))
            /\ PrimFloat.leb thr (item_score (trim title) (trim author) b)
               = true.
Proof.
  assert (No : forall e n,
    (is_Some (@None jsstring) <-> Some e = None)
    /\ forall i, Aladin.isbn13 {| Aladin.isbn13 := None;
                                   Aladin.error := Some e;
                                   Aladin.candidateCount := n |} = Some i ->
         i <> [] /\ trimmed i
         /\ exists code d b,
              snd (aladin (net s) (Aladin.params_of ttbKey title))
              = Response true code (inr d)
              /\ In b (default [] (item d))
              /\ i = trim (or_else (a_isbn13 b) [])
              /\ Aladin.candidateCount
                   {| Aladin.isbn13 := None; Aladin.error := Some e;
                      Aladin.candidateCount := n |}
                 = length (default [] (item d))
              /\ PrimFloat.leb thr (item_score (trim title) (trim author) b)
                 = true).
  { intros e n. split; [|discriminate].
    split; [intros [x Hx]; discriminate | discriminate]. }
  revert returned. unfold Aladin.searchISBNByTitleAuthor.
  destruct (truthy title); cbn [negb]; cbv iota.
  2:{ intros [= <- _]. apply No. }
  unfold try_catch, bind, fetch_aladin.
  destruct (aladin (net s) (Aladin.params_of ttbKey title))
    as [w [err | ok code body]] eqn:Ans; simpl; [discriminate|].
  destruct ok; simpl; [|discriminate].
  destruct body as [err | d]; simpl; [discriminate|].
  destruct (length (default [] (item d)) =? 0)%nat.
  { intros [= <- _]. apply No. }
  replace (trim (if truthy author then author else []))
    with (trim author) by now destruct author.
  destruct (Aladin.pick_best (trim title) (trim author)
              (default [] (item d))) as [[b|] sc] eqn:Best.
  2:{ intros [= <- _]. apply No. }
  destruct (pick_best_member _ _ _ _ _ Best) as [Hin ->].
  destruct (PrimFloat.leb thr _) eqn:Reach.
  2:{ intros [= <- _]. apply No. }
  destruct (truthy (trim (or_else (a_isbn13 b) []))) eqn:Tr.
  2:{ intros [= <- _]. apply No. }
  intros [= <- _]. simpl. split.
  - split; [reflexivity | eauto].
  - intros i [= <-]. split.
    + intros E. rewrite E in Tr. discriminate.
    + split; [apply trim_trimmed|]. exists code, d, b. auto.
Qed.

Lemma resolver_result_well_formed_witness :
  exists i,
    i <> [] /\ trimmed i
    /\ i = trim (lit " 9788937460586 ").
Proof.
  destruct (resolver_result_well_formed Scenario.all_or_nothing
              MoreExamples.three_candidates ResolverExamples.ttb
              (lit "Siddhartha") [] Verify.threshold
              (Scenario.start_state MoreExamples.three_candidates tt)
              _ _ ltac:(vm_compute; reflexivity)) as [_ W].
  destruct (W _ eq_refl) as (Ne & Tr & _).
  eexists. split; [exact Ne|]. split; [exact Tr|].
  vm_compute. reflexivity.
Defined.

(* ================================================================== *)
(** * The school reported by [findSchoolBooks] *)
(* ================================================================== *)

Section SchoolBooksFacts.
Context `{Runtime}.

Lemma or_else_named (o : option jsstring) (s : jsstring) :
  or_else o [] = s -> s <> [] -> o = Some s.
Proof.
  destruct o as [[|c t]|]; simpl; intros E Hs; congruence.
Qed.

(** What the loop of [findSchoolBooks] keeps true of its two variables. *)
Lemma findSchoolBooks_loop (bs : list Read365Book) (school : jsstring) :
  let r := Read365.findSchoolBooks bs school in
  match Read365.matchedSchool r with
  | None => Read365.found r = []
  | Some [] =>
    Read365.found r <> []
    /\ forall b, In b (Read365.found r) -> or_else (schoolName b) [] = []
  | Some s =>
    exists pre b post,
      Read365.found r = pre ++ b :: post
      /\ or_else (schoolName b) [] = s
      /\ forall x, In x pre -> or_else (schoolName x) [] = []
  end.
Proof.
  unfold Read365.findSchoolBooks.
  set (step := fun acc book => _).
  set (Inv := fun acc : Read365.SchoolBooks =>
    match Read365.matchedSchool acc with
    | None => Read365.found acc = []
    | Some [] =>
      Read365.found acc <> []
      /\ forall b, In b (Read365.found acc) -> or_else (schoolName b) [] = []
    | Some s =>
      exists pre b post,
        Read365.found acc = pre ++ b :: post
        /\ or_else (schoolName b) [] = s
        /\ forall x, In x pre -> or_else (schoolName x) [] = []
    end).
  assert (G : forall acc, Inv acc -> Inv (fold_left step bs acc)).
  { induction bs as [|b bs IH]; intros acc HI; simpl; [exact HI|].
    apply IH. unfold step at 1.
    destruct (Read365.schoolNameMatches _ school); [|exact HI].
    destruct acc as [f m]. unfold Inv in *. simpl in *.
    destruct m as [[|c t]|]; simpl.
    - destruct HI as [Hne Hall].
      destruct (or_else (schoolName b) []) as [|c t] eqn:Nb.
      + split; [now destruct f|].
        intros x Hx. apply in_app_or in Hx.
        destruct Hx as [Hx | [Hx | []]]; [auto | now subst x].
      + exists f, b, []. auto.
    - destruct HI as (pre & b0 & post & Ef & Nb & Hpre).
      exists pre, b0, (post ++ [b]). rewrite Ef, <- app_assoc. auto.
    - subst f. simpl.
      destruct (or_else (schoolName b) []) as [|c t] eqn:Nb.
      + split; [discriminate|]. intros x [Hx | []]. now subst x.
      + exists [], b, []. split; [reflexivity|]. split; [exact Nb|].
        intros x []. }
  apply (G {| Read365.found := []; Read365.matchedSchool := None |}).
  reflexivity.
Qed.

End SchoolBooksFacts.

(** X8. [findSchoolBooks] reports no school exactly when it found no book.
    A school reported by name is the school name of the first found book
    that has a name: the found books before it have none (or the empty
    one).  The empty name is reported only when no found book has a
    name. *)
Theorem findSchoolBooks_matchedSchool (R : Runtime)
    (bs : list Read365Book) (school : jsstring) :
  let r := Read365.findSchoolBooks bs school in
  (Read365.matchedSchool r = None <-> Read365.found r = [])
  /\ (forall s,
        Read365.matchedSchool r = Some s -> s <> [] ->
        exists pre b post,
          Read365.found r = pre ++ b :: post
          /\ schoolName b = Some s
          /\ Read365.schoolNameMatches s school = true
          /\ forall x, In x pre -> or_else (schoolName x) [] = [])
  /\ (Read365.matchedSchool r = Some [] ->
      forall b, In b (Read365.found r) -> or_else (schoolName b) [] = []).
Proof.
  intros r. pose proof (findSchoolBooks_loop bs school) as L.
  fold r in L. cbv zeta in L.
  destruct (Read365.matchedSchool r) as [[|c t]|] eqn:Em.
  - destruct L as [Hne Hall]. split; [split; [discriminate | tauto]|].
    split; [intros s [= <-] Hs; congruence | auto].
  - destruct L as (pre & b & post & Ef & Nb & Hpre).
    split.
    { split; [discriminate|]. rewrite Ef. now destruct pre. }
    split; [|discriminate].
    intros s [= <-] _. exists pre, b, post.
    split; [exact Ef|].
    split; [apply or_else_named; [exact Nb | discriminate]|].
    split; [|exact Hpre].
    assert (Hin : In b (Read365.found r))
      by (rewrite Ef; apply in_or_app; right; left; reflexivity).
    unfold r in Hin. rewrite findSchoolBooks_found in Hin.
    apply filter_In in Hin. rewrite Nb in Hin. apply Hin.
  - split; [tauto|]. split; discriminate.
Qed.

(** X9. A book without a school name, or whose name is white space only,
    is found for every school; and a query of white space only finds every
    book (given that the lower case of the empty string is the empty
    string). *)
Theorem findSchoolBooks_blank_names (R : Runtime)
    (lower_empty : toLowerCase [] = [])
    (bs : list Read365Book) (school : jsstring) :
  (forall b, In b bs ->
             strip_spaces (or_else (schoolName b) []) = [] ->
             In b (Read365.found (Read365.findSchoolBooks bs school)))
  /\ (strip_spaces school = [] ->
      Read365.found (Read365.findSchoolBooks bs school) = bs).
Proof.
  assert (Inc : forall s, includes s [] = true).
  { intros s. apply includes_iff. exists [], s. reflexivity. }
  rewrite findSchoolBooks_found. split.
  - intros b Hin Hb. apply filter_In. split; [exact Hin|].
    unfold Read365.schoolNameMatches. rewrite Hb, lower_empty, Inc.
    apply orb_true_r.
  - intros Hs. apply forallb_filter_id. apply forallb_forall.
    intros b _. unfold Read365.schoolNameMatches.
    now rewrite Hs, lower_empty, Inc.
Qed.

Lemma findSchoolBooks_blank_names_witness :
  Read365.found
    (@Read365.findSchoolBooks Scenario.latin
       [Scenario.held_by "새솔중학교"; Scenario.held_by "한빛초등학교"]
       (lit " "))
  = [Scenario.held_by "새솔중학교"; Scenario.held_by "한빛초등학교"].
Proof.
  apply (findSchoolBooks_blank_names Scenario.latin eq_refl).
  reflexivity.
Defined.

(* ================================================================== *)
(** * Region names and region codes *)
(* ================================================================== *)

Section RegionCodes.

Lemma major_codes_named :
  forallb (fun c => existsb
                      (fun kv =>
                         match Read365.getProvCode (fst kv) with
                         | Some (Read365.Code c') => str_eqb c c'
                         | _ => false
                         end)
                      Read365.REGION_CODE_MAP)
    Read365.MAJOR_REGION_CODES = true.
Proof. vm_compute. reflexivity. Qed.

(** The names of [Object.prototype] are not keys of the table, and what
    they give is truthy and not a string. *)
Lemma prototype_names :
  forallb (fun kv =>
             match Read365.property (fst kv) Read365.REGION_CODE_MAP,
                   snd kv with
             | None, Read365.Method _ | None, Read365.ObjectPrototype => true
             | _, _ => false
             end)
    Read365.Object_prototype = true.
Proof. vm_compute. reflexivity. Qed.

End RegionCodes.

(** X10. The region table and the list of well-known codes agree: a string
    that [getProvCode] returns is one of the seventeen well-known codes,
    and every well-known code is the code of some region name.  For the
    names that the table inherits from [Object.prototype], [getProvCode]
    returns the inherited function or object, which is not a string.  The
    regions that [searchISBNMultiRegion] searches are what [getProvCode]
    returned for the preferred region, followed by well-known codes
    only. *)
Theorem searchRegions_well_known
    (primaryRegion : option jsstring) (maxRegions : Z) :
  (forall regionName code,
     Read365.getProvCode regionName = Some (Read365.Code code) ->
     In code Read365.MAJOR_REGION_CODES)
  /\ (forall code,
        In code Read365.MAJOR_REGION_CODES ->
        exists regionName,
          Read365.getProvCode regionName = Some (Read365.Code code))
  /\ (forall regionName,
        inherited regionName = true ->
        exists v,
          Read365.getProvCode regionName = Some v
          /\ forall code, v <> Read365.Code code)
  /\ exists codes,
       Read365.searchRegions primaryRegion maxRegions
       = Read365.preferred primaryRegion ++ List.map Read365.Code codes
       /\ forall code, In code codes -> In code Read365.MAJOR_REGION_CODES.
Proof.
  split; [|split; [|split]].
  - intros regionName code. unfold Read365.getProvCode,
      Read365.REGION_CODE_MAP_at.
    destruct (Read365.property regionName Read365.REGION_CODE_MAP)
      as [c|] eqn:P.
    + destruct (region_table_code _ _ P) as [Tr Hin]. simpl. rewrite Tr.
      intros [= <-]. exact Hin.
    + destruct (Read365.property regionName Read365.Object_prototype)
        as [v|] eqn:Q; [|discriminate].
      apply property_In in Q. pose proof prototype_names as M.
      rewrite forallb_forall in M. specialize (M _ Q). cbn [fst snd] in M.
      rewrite P in M. destruct v; simpl; congruence.
  - intros code Hin. pose proof major_codes_named as M.
    rewrite forallb_forall in M. specialize (M _ Hin).
    apply existsb_exists in M. destruct M as [[k v] [_ M]].
    cbn [fst] in M. exists k.
    destruct (Read365.getProvCode k) as [[c'|m|]|]; try discriminate.
    apply str_eqb_eq in M. now subst c'.
  - intros regionName Inh. unfold inherited in Inh.
    destruct (Read365.property regionName Read365.Object_prototype)
      as [v|] eqn:Q; [|discriminate].
    pose proof (property_In _ _ _ Q) as Qin.
    pose proof prototype_names as M.
    rewrite forallb_forall in M. specialize (M _ Qin). cbn [fst snd] in M.
    unfold Read365.getProvCode, Read365.REGION_CODE_MAP_at.
    destruct (Read365.property regionName Read365.REGION_CODE_MAP);
      [destruct v; discriminate|].
    rewrite Q. destruct v as [c|m|]; [discriminate| |]; simpl;
      (eexists; split; [reflexivity | discriminate]).
  - eexists. split; [apply searchRegions_closed_form|].
    intros code Hin. apply In_firstn in Hin. apply filter_In in Hin.
    apply Hin.
Qed.

(* ================================================================== *)
(** * A whole batch *)
(* ================================================================== *)

Section WholeBatch.
Context `{Runtime} `{Fuzzball} `{Network}.

(** With a bounded page count and enough fuel, the loop over the records
    runs to its end: one row per record, in order; the job object keeps
    its identity and is stored under its identifier after every
    iteration. *)
Lemma rows_loop_run (T : Z) (bounded : pages_bounded T) fuel
    (enough : (Z.max 1 T <= Z.of_nat fuel)%Z) ttbKey rows :
  forall i results job s,
  exists outs job' s',
    Verify.rows_loop fuel ttbKey rows i results job s
    = Some (Ret (results ++ outs, job'), s')
    /\ List.map Store.row outs = rows
    /\ Store.jobId job' = Store.jobId job
    /\ Store.status job' = Store.status job
    /\ Store.total job' = Store.total job
    /\ Store.inputData job' = Store.inputData job
    /\ Store.resultFile job' = Store.resultFile job
    /\ (forall id, id <> Store.jobId job ->
                   Verify.jobs s' !! id = Verify.jobs s !! id)
    /\ (rows <> [] ->
        Store.progress job' = (i + length rows)%nat
        /\ Store.results job' = results ++ outs
        /\ Verify.jobs s' !! Store.jobId job = Some job').
Proof.
  induction rows as [|r rest IH]; intros i results job s.
  - exists [], job, s. simpl. rewrite app_nil_r.
    do 7 (split; [reflexivity|]). split; [reflexivity|].
    intros Hne. now destruct Hne.
  - destruct (verifyRow_run T bounded fuel enough ttbKey r (Verify.mach s))
      as [out [m Run]].
    pose proof (verifyRow_inv _ _ _ _ _ _ Run)
      as [_ [_ [_ [_ [out' [_ [[= <-] [Hrow _]]]]]]]].
    simpl Verify.rows_loop. rewrite (iteration_eq _ _ _ _ _ _ _ _ _ Run).
    set (job1 := Verify.progress_update job i (Store.도서명 r)
                   (results ++ [out])).
    set (s1 := {| Verify.mach := m;
                  Verify.jobs := Store.setJob job1 (Verify.jobs s) |}).
    destruct (IH (S i) (results ++ [out]) job1 s1)
      as (outs & job' & s' & Loop & Hrows & Hid & Hst & Htot & Hin & Hrf
          & Hothers & Hlast).
    exists (out :: outs), job', s'.
    rewrite <- app_assoc in Loop. simpl in Loop.
    split; [exact Loop|].
    split; [simpl; congruence|].
    split; [exact Hid|]. split; [exact Hst|]. split; [exact Htot|].
    split; [exact Hin|]. split; [exact Hrf|].
    split.
    + intros id Hne. rewrite (Hothers id Hne). unfold s1. simpl.
      unfold Store.setJob. now apply lookup_insert_ne.
    + intros _. destruct rest as [|r' rest'].
      * simpl in Loop. injection Loop as Eo Ej Es.
        apply app_inv_head in Eo. injection Eo as <-.
        subst job' s'. unfold s1, job1. simpl.
        split; [lia|]. split; [reflexivity|].
        unfold Store.setJob. simpl. apply lookup_insert_eq.
      * destruct Hlast as (Hp & Hres & Hjob); [discriminate|].
        rewrite <- app_assoc in Hres. simpl in Hres.
        split; [simpl in *; lia|]. split; [exact Hres|].
        exact Hjob.
Qed.

(** [POST] on an uploaded file, with the key set, in terms of the loop. *)
Lemma POST_eq fuel uuid fid name key rows region0 school_level s
    outs job' s1 :
  key <> [] ->
  let id := slice0 8 uuid in
  let job0 := Verify.new_job id (Store.uploaded fid name rows)
                region0 school_level in
  Verify.rows_loop fuel key rows 0 [] job0 (Verify.registered job0 s)
  = Some (Ret (outs, job'), s1) ->
  Verify.POST fuel uuid (Some (Store.uploaded fid name rows)) (Some key)
    region0 school_level s
  = Some (Verify.Started id, Verify.finish id job' outs s1).
Proof.
  intros has_key id job0 Loop. unfold Verify.POST.
  replace (otruthy (Some key)) with true by now destruct key.
  cbn [negb]. cbv iota. fold id. fold job0.
  unfold Verify.background, Verify.processVerification.
  assert (Reg : Store.getJob id (Verify.jobs (Verify.registered job0 s))
                = Some job0).
  { unfold Store.getJob, Verify.registered, Store.setJob. simpl.
    apply lookup_insert_eq. }
  rewrite Reg.
  change (default [] (Some key)) with key.
  change (Store.inputData job0) with rows.
  now rewrite Loop.
Qed.

End WholeBatch.

(** X11. Every batch completes.  For an uploaded file with any number of
    records, with the resolver key set, a bounded page count and enough
    fuel, [POST] and the task that it starts end with the job stored under
    the first eight characters of the identifier drawn, in state
    "completed" (never "failed": no error of a service leaves the loop),
    with progress and total equal to the number of records, one result row
    per record in the order of the records, the result file named after
    the job, and the jobs of other identifiers as they were. *)
Theorem batch_completes (R : Runtime) (F : Fuzzball) (N : Network)
    (T : Z) (bounded : pages_bounded T) (fuel : nat)
    (enough : (Z.max 1 T <= Z.of_nat fuel)%Z)
    (uuid fid name key : jsstring) (rows : list Store.BookRow)
    (region0 school_level : option jsstring) (s : Verify.system)
    (has_key : key <> []) :
  let id := slice0 8 uuid in
  exists job s',
    Verify.POST fuel uuid (Some (Store.uploaded fid name rows)) (Some key)
      region0 school_level s
    = Some (Verify.Started id, s')
    /\ Store.getJob id (Verify.jobs s') = Some job
    /\ Store.jobId job = id
    /\ Store.status job = Store.completed
    /\ Store.progress job = length rows
    /\ Store.total job = length rows
    /\ List.map Store.row (Store.results job) = rows
    /\ Store.resultFile job = Some (lit "result_" ++ id)
    /\ Store.message job
       = lit "완료! " ++ show_nat (length rows) ++ lit "권 처리됨 (API 모드)"
    /\ forall id', id' <> id ->
                   Verify.jobs s' !! id' = Verify.jobs s !! id'.
Proof.
  intros id.
  set (job0 := Verify.new_job id (Store.uploaded fid name rows)
                 region0 school_level).
  destruct (rows_loop_run T bounded fuel enough key rows 0 [] job0
              (Verify.registered job0 s))
    as (outs & job' & s1 & Loop & Hrows & Hid & Hst & Htot & Hin & Hrf
        & Hothers & Hlast).
  simpl app in Loop.
  exists (Verify.finished id job' outs), (Verify.finish id job' outs s1).
  split; [exact (POST_eq _ _ _ _ _ _ _ _ _ _ _ _ has_key Loop)|].
  assert (Eid : Store.jobId (Verify.finished id job' outs) = id)
    by (simpl; rewrite Hid; reflexivity).
  split.
  { unfold Store.getJob, Verify.finish, Store.setJob.
    cbn [Verify.jobs]. rewrite Eid. apply lookup_insert_eq. }
  split; [exact Eid|]. split; [reflexivity|].
  split.
  { cbn [Verify.finished Store.progress]. destruct rows as [|r rest].
    - simpl in Loop. injection Loop as _ <- _. reflexivity.
    - destruct Hlast as (Hp & _); [discriminate|]. exact Hp. }
  split.
  { cbn [Verify.finished Store.total]. rewrite Htot. simpl.
    reflexivity. }
  split; [exact Hrows|]. split; [reflexivity|].
  split.
  { cbn [Verify.finished Store.message]. rewrite Hin. reflexivity. }
  intros id' Hne. unfold Verify.finish, Store.setJob. cbn [Verify.jobs].
  rewrite Eid. rewrite lookup_insert_ne by congruence.
  rewrite Hothers by (simpl; congruence).
  unfold Verify.registered, Store.setJob. cbn [Verify.jobs].
  apply lookup_insert_ne. simpl. congruence.
Qed.

Lemma batch_completes_witness :
  exists job s',
    @Verify.POST Scenario.latin Scenario.all_or_nothing
      BatchExamples.momo_fails 1 JobExamples.id
      (Some (Store.uploaded (lit "f1") (lit "books.xlsx") JobExamples.rows))
      (Some VerifyExamples.ttb) None None BatchExamples.fresh
    = Some (Verify.Started (slice0 8 JobExamples.id), s')
    /\ Store.getJob (slice0 8 JobExamples.id) (Verify.jobs s') = Some job
    /\ Store.status job = Store.completed
    /\ Store.progress job = length JobExamples.rows.
Proof.
  destruct (batch_completes Scenario.latin Scenario.all_or_nothing
              BatchExamples.momo_fails 1
              ltac:(intros w p; vm_compute; discriminate) 1
              ltac:(vm_compute; discriminate)
              JobExamples.id (lit "f1") (lit "books.xlsx")
              VerifyExamples.ttb JobExamples.rows None None
              BatchExamples.fresh ltac:(vm_compute; discriminate))
    as (job & s' & P & J & _ & St & Pr & _).
  exists job, s'. auto.
Defined.

(* ================================================================== *)
(** * How many requests a batch sends *)
(* ================================================================== *)

Section Budget.
Context `{Runtime} `{Fuzzball} `{Network}.
Variable T : Z.
Hypothesis bounded : pages_bounded T.
Variable fuel : nat.
Hypothesis enough : (Z.max 1 T <= Z.of_nat fuel)%Z.

Lemma pages_from_length page k : length (pages_from page k) = k.
Proof. revert page; induction k; intros page; simpl; auto. Qed.

(** Searching a list of regions sends at most max(1, T) requests per
    region, all of them to the catalog. *)
Lemma region_by_region_budget isbn regions :
  forall s, exists os s' ps,
    region_by_region fuel isbn regions s = Some (os, s')
    /\ log s' = log s ++ List.map ToRead365 ps
    /\ cache s' = cache s
    /\ (Z.of_nat (length ps) <= Z.of_nat (length regions) * Z.max 1 T)%Z.
Proof using bounded enough.
  induction regions as [|code rest IH]; intros s.
  - exists [], s, []. simpl. rewrite app_nil_r. auto with zarith.
  - destruct (allPages_loop_run T bounded isbn (Some code) fuel 1 [] s)
      as (o & s1 & k & E & Hk1 & Hk & Hlog & Hc); [lia | lia |].
    destruct (IH s1) as (os & s2 & ps & E2 & Hlog2 & Hc2 & Hlen).
    exists (o :: os), s2,
      (List.map (fun p => Read365.payload_of isbn (Some code) p 100)
         (pages_from 1 k) ++ ps).
    cbn [region_by_region]. unfold Read365.searchISBNAllPages.
    rewrite E, E2. split; [reflexivity|].
    split.
    { rewrite Hlog2, Hlog, List.map_app, List.map_map, <- app_assoc.
      reflexivity. }
    split; [congruence|].
    rewrite length_app, length_map, pages_from_length.
    cbn [length]. lia.
Qed.

Lemma searchISBNMultiRegion_budget isbn s :
  exists r s' ps,
    Read365.searchISBNMultiRegion fuel isbn None 6 s = Some (Ret r, s')
    /\ log s' = log s ++ List.map ToRead365 ps
    /\ cache s' = cache s
    /\ (Z.of_nat (length ps) <= 6 * Z.max 1 T)%Z.
Proof using bounded enough.
  unfold Read365.searchISBNMultiRegion. rewrite regions_loop_aggregate.
  destruct (region_by_region_budget isbn (Read365.searchRegions None 6) s)
    as (os & s' & ps & E & Hlog & Hc & Hlen).
  rewrite E. eexists _, s', ps. split; [reflexivity|].
  split; [exact Hlog|]. split; [exact Hc|].
  pose proof (searchRegions_length None 6) as L.
  change (Z.max 6 (Z.of_nat (length (Read365.preferred None)))) with 6%Z
    in L.
  set (n := length (Read365.searchRegions None 6)) in *. nia.
Qed.

(** The catalog step sends at most six times max(1, T) requests, all of
    them to the catalog, and none when the search cache has the pair. *)
Lemma holding_step_budget school isbn count reason s :
  exists v s' ps,
    Verify.holding_step fuel school isbn count reason s = Some (Ret v, s')
    /\ log s' = log s ++ List.map ToRead365 ps
    /\ (Z.of_nat (length ps) <= 6 * Z.max 1 T)%Z
    /\ (is_Some (Cache.searchCache (cache s)
                   !! Cache.makeSearchKey school isbn) -> ps = []).
Proof using bounded enough.
  unfold Verify.holding_step, bind at 1.
  rewrite with_cache_eq, getSearch_fst. fold (looked_up school isbn s).
  destruct (Cache.searchCache (cache s) !! _) as [c|].
  - eexists _, _, []. split; [reflexivity|]. simpl.
    rewrite app_nil_r. split; [reflexivity|]. split; [lia | auto].
  - unfold try_catch, bind at 1.
    destruct (searchISBNMultiRegion_budget isbn (looked_up school isbn s))
      as (r & s1 & ps & E1 & Hlog & _ & Hlen).
    rewrite E1.
    unfold bind, update_cache, with_cache, Verify.search_failed, bind,
      update_cache, with_cache, ret. simpl.
    assert (No : is_Some (@None Cache.SearchResult) -> ps = [])
      by (intros [x Hx]; discriminate).
    destruct (0 <? length _)%nat; simpl.
    + eexists _, _, ps. split; [reflexivity|]. simpl. auto.
    + destruct (Read365.m_totalCount r =? 0)%nat; simpl;
        (eexists _, _, ps; split; [reflexivity|]; simpl; auto).
Qed.

Lemma resolve_step_log ttbKey title author s :
  exists isbn count reason s1 qs,
    Verify.resolve_step ttbKey title author s
    = Some (Ret (isbn, count, reason), s1)
    /\ log s1 = log s ++ qs
    /\ (qs = [] \/ qs = [ToAladin (Aladin.params_of ttbKey title)])
    /\ (is_Some (Cache.isbnCache (cache s)
                   !! Cache.makeISBNKey title author) -> qs = []).
Proof using bounded enough.
  destruct (Cache.isbnCache (cache s) !! Cache.makeISBNKey title author)
    as [c|] eqn:L.
  - destruct (resolve_step_hit ttbKey title author s c L)
      as [s1 [E [Hlog _]]].
    eexists _, _, _, s1, []. split; [exact E|].
    rewrite app_nil_r. auto.
  - destruct (resolve_step_miss ttbKey title author s L)
      as [isbn [count [reason [err [s1 [E [_ [_ [Hlog _]]]]]]]]].
    assert (No : forall qs : list request,
                   is_Some (@None Cache.ISBNResult) -> qs = [])
      by (intros qs [x Hx]; discriminate).
    destruct Hlog as [Hl | Hl].
    + eexists _, _, _, s1, []. split; [exact E|].
      rewrite app_nil_r. auto.
    + eexists _, _, _, s1, [_]. split; [exact E|]. split; [exact Hl|].
      split; [now right | apply No].
Qed.

(** One record: at most one request to the resolver, then at most six
    times max(1, T) requests to the catalog. *)
Lemma verifyRow_budget ttbKey r s :
  exists out s' qs ps,
    Verify.verifyRow fuel ttbKey r s = Some (Ret out, s')
    /\ log s' = log s ++ qs ++ List.map ToRead365 ps
    /\ (qs = [] \/ qs = [ToAladin (Aladin.params_of ttbKey (Store.도서명 r))])
    /\ (Z.of_nat (length ps) <= 6 * Z.max 1 T)%Z
    /\ (Store.ISBN13 out = [] -> ps = []).
Proof using bounded enough.
  unfold Verify.verifyRow, bind at 1.
  destruct (resolve_step_log ttbKey (Store.도서명 r) (Store.저자 r) s)
    as (isbn & count & reason & s1 & qs & E & Hlog & Hqs & _).
  rewrite E. simpl fst; simpl snd.
  destruct (otruthy isbn) eqn:Tr.
  - unfold bind at 1.
    destruct (holding_step_budget (Store.학교명 r) (default [] isbn)
                count reason s1)
      as (v & s2 & ps & E2 & Hlog2 & Hlen & _).
    rewrite E2. unfold ret. eexists _, s2, qs, ps.
    split; [reflexivity|].
    split; [rewrite Hlog2, Hlog, <- app_assoc; reflexivity|].
    split; [exact Hqs|]. split; [exact Hlen|]. simpl.
    intros Empty. destruct isbn as [[|c t]|]; discriminate.
  - unfold bind, ret. eexists _, s1, qs, []. split; [reflexivity|].
    simpl. rewrite app_nil_r. split; [exact Hlog|].
    split; [exact Hqs|]. split; [lia | auto].
Qed.

(** The loop over the records: every record within its budget. *)
Lemma rows_loop_budget ttbKey rows :
  forall i results job s,
  exists results' job' s' sent,
    Verify.rows_loop fuel ttbKey rows i results job s
    = Some (Ret (results', job'), s')
    /\ log (Verify.mach s') = log (Verify.mach s) ++ sent
    /\ (aladin_calls sent <= length rows)%nat
    /\ (Z.of_nat (length sent)
        <= Z.of_nat (length rows) * (1 + 6 * Z.max 1 T))%Z.
Proof using bounded enough.
  induction rows as [|r rest IH]; intros i results job s.
  - exists results, job, s, []. rewrite app_nil_r.
    split; [reflexivity|]. split; [reflexivity|].
    split; [apply Nat.le_refl|]. cbn [length]. lia.
  - destruct (verifyRow_budget ttbKey r (Verify.mach s))
      as (out & m & qs & ps & Run & Hlog & Hqs & Hlen & _).
    simpl Verify.rows_loop. rewrite (iteration_eq _ _ _ _ _ _ _ _ _ Run).
    match goal with
    | |- context [Verify.rows_loop _ _ _ _ ?rs ?j ?s1] =>
      destruct (IH (S i) rs j s1)
        as (results' & job' & s' & sent & Loop & Hlog' & Hcalls & Hsent)
    end.
    exists results', job', s', (qs ++ List.map ToRead365 ps ++ sent).
    split; [exact Loop|].
    split.
    { rewrite Hlog'. cbn [Verify.mach]. rewrite Hlog, <- !app_assoc.
      reflexivity. }
    split.
    + rewrite !aladin_calls_app, aladin_calls_read365.
      assert (aladin_calls qs <= 1)%nat
        by (destruct Hqs as [-> | ->]; cbn; lia).
      cbn [length]. lia.
    + rewrite !length_app, length_map.
      assert (length qs <= 1)%nat
        by (destruct Hqs as [-> | ->]; cbn; lia).
      cbn [length]. lia.
Qed.

End Budget.

(** X12. One record sends at most one request to the resolver, and it
    precedes the requests to the catalog, of which there are at most six
    times max(1, T) when the catalog reports at most [T] pages; when the
    row has no ISBN, nothing is sent to the catalog. *)
Theorem verifyRow_requests (R : Runtime) (F : Fuzzball) (N : Network)
    (T : Z) (bounded : pages_bounded T) (fuel : nat)
    (enough : (Z.max 1 T <= Z.of_nat fuel)%Z)
    (ttbKey : jsstring) (r : Store.BookRow) (s : machine) :
  exists out s' qs ps,
    Verify.verifyRow fuel ttbKey r s = Some (Ret out, s')
    /\ log s' = log s ++ qs ++ List.map ToRead365 ps
    /\ (qs = [] \/ qs = [ToAladin (Aladin.params_of ttbKey (Store.도서명 r))])
    /\ (Z.of_nat (length ps) <= 6 * Z.max 1 T)%Z
    /\ (Store.ISBN13 out = [] -> ps = []).
Proof. exact (verifyRow_budget T bounded fuel enough ttbKey r s). Qed.

Lemma verifyRow_requests_witness :
  exists out s' qs ps,
    @Verify.verifyRow Scenario.latin Scenario.all_or_nothing
      BatchExamples.momo_fails 1 VerifyExamples.ttb
      (BatchExamples.book "Demian")
      (Scenario.start_state BatchExamples.momo_fails tt)
    = Some (Ret out, s')
    /\ log s' = qs ++ List.map ToRead365 ps
    /\ (length qs <= 1)%nat /\ (length ps <= 6)%nat.
Proof.
  destruct (verifyRow_requests Scenario.latin Scenario.all_or_nothing
              BatchExamples.momo_fails 1
              ltac:(intros w p; vm_compute; discriminate) 1
              ltac:(vm_compute; discriminate) VerifyExamples.ttb
              (BatchExamples.book "Demian")
              (Scenario.start_state BatchExamples.momo_fails tt))
    as (out & s' & qs & ps & Run & Hlog & Hqs & Hlen & _).
  exists out, s', qs, ps. split; [exact Run|]. split; [exact Hlog|].
  split; [destruct Hqs as [-> | ->]; simpl; lia | lia].
Defined.

(** X13. A batch of n records sends at most n requests to the resolver
    and at most n * (1 + 6 * max(1, T)) requests in all. *)
Theorem batch_request_budget (R : Runtime) (F : Fuzzball) (N : Network)
    (T : Z) (bounded : pages_bounded T) (fuel : nat)
    (enough : (Z.max 1 T <= Z.of_nat fuel)%Z)
    (uuid fid name key : jsstring) (rows : list Store.BookRow)
    (region0 school_level : option jsstring) (s : Verify.system)
    (has_key : key <> []) :
  exists s' sent,
    Verify.POST fuel uuid (Some (Store.uploaded fid name rows)) (Some key)
      region0 school_level s
    = Some (Verify.Started (slice0 8 uuid), s')
    /\ log (Verify.mach s') = log (Verify.mach s) ++ sent
    /\ (aladin_calls sent <= length rows)%nat
    /\ (Z.of_nat (length sent)
        <= Z.of_nat (length rows) * (1 + 6 * Z.max 1 T))%Z.
Proof.
  set (id := slice0 8 uuid).
  set (job0 := Verify.new_job id (Store.uploaded fid name rows)
                 region0 school_level).
  destruct (rows_loop_budget T bounded fuel enough key rows 0 [] job0
              (Verify.registered job0 s))
    as (results' & job' & s1 & sent & Loop & Hlog & Hcalls & Hsent).
  exists (Verify.finish id job' results' s1), sent.
  split; [exact (POST_eq _ _ _ _ _ _ _ _ _ _ _ _ has_key Loop)|].
  split; [exact Hlog|]. split; assumption.
Qed.

Lemma batch_request_budget_witness :
  exists s' sent,
    @Verify.POST Scenario.latin Scenario.all_or_nothing
      BatchExamples.momo_fails 1 JobExamples.id
      (Some (Store.uploaded (lit "f1") (lit "books.xlsx") JobExamples.rows))
      (Some VerifyExamples.ttb) None None BatchExamples.fresh
    = Some (Verify.Started (slice0 8 JobExamples.id), s')
    /\ log (Verify.mach s') = sent
    /\ (aladin_calls sent <= 2)%nat
    /\ (length sent <= 14)%nat.
Proof.
  destruct (batch_request_budget Scenario.latin Scenario.all_or_nothing
              BatchExamples.momo_fails 1
              ltac:(intros w p; vm_compute; discriminate) 1
              ltac:(vm_compute; discriminate)
              JobExamples.id (lit "f1") (lit "books.xlsx")
              VerifyExamples.ttb JobExamples.rows None None
              BatchExamples.fresh ltac:(vm_compute; discriminate))
    as (s' & sent & P & Hlog & Hcalls & Hsent).
  exists s', sent. split; [exact P|]. split; [exact Hlog|].
  split; [exact Hcalls|].
  change (length JobExamples.rows) with 2%nat in Hsent. lia.
Defined.

(* ================================================================== *)
(** * The same record again *)
(* ================================================================== *)

Section Repetition.
Context `{Runtime} `{Fuzzball} `{Network}.

(** A hit in the search cache: the cached holding, and no request. *)
Lemma holding_step_hit fuel school isbn count reason s c :
  Cache.searchCache (cache s) !! Cache.makeSearchKey school isbn = Some c ->
  Verify.holding_step fuel school isbn count reason s
  = Some (Ret (Verify.mark (Cache.exists_ c), Cache.matchedSchool c,
               if otruthy (Cache.search_error c)
               then default [] (Cache.search_error c) else reason),
          looked_up school isbn s).
Proof.
  intros Hit. unfold Verify.holding_step, bind.
  rewrite with_cache_eq, getSearch_fst, Hit. reflexivity.
Qed.

(** After the catalog step the search cache has the pair. *)
Lemma holding_step_caches fuel school isbn count reason s o s' :
  Verify.holding_step fuel school isbn count reason s = Some (o, s') ->
  is_Some (Cache.searchCache (cache s')
             !! Cache.makeSearchKey school isbn).
Proof.
  unfold Verify.holding_step, bind at 1.
  rewrite with_cache_eq, getSearch_fst. fold (looked_up school isbn s).
  destruct (Cache.searchCache (cache s) !! _) as [c|] eqn:L.
  - intros [= <- <-]. simpl.
    rewrite (proj2 (getSearch_snd school isbn (cache s))), L. eauto.
  - unfold try_catch, bind at 1.
    destruct (Read365.searchISBNMultiRegion fuel isbn None 6
                (looked_up school isbn s)) as [[o1 s1]|] eqn:E1;
      [|discriminate].
    destruct (searchISBNMultiRegion_count _ _ _ _ _ _ _ E1)
      as [r [-> _]].
    unfold bind, update_cache, with_cache, Verify.search_failed, bind,
      update_cache, with_cache, ret. simpl.
    destruct (0 <? length _)%nat; simpl.
    + intros [= <- <-]. simpl. rewrite lookup_insert_eq. eauto.
    + destruct (Read365.m_totalCount r =? 0)%nat; simpl;
        intros [= <- <-]; simpl; rewrite lookup_insert_eq; eauto.
Qed.

Lemma mark_true_false : Verify.mark true <> Verify.mark false.
Proof. vm_compute. discriminate. Qed.

(** On a miss the catalog is searched, and the mark "held" means that a
    book of the school was found. *)
Lemma holding_step_miss_inv fuel school isbn count reason s o s' :
  Cache.searchCache (cache s) !! Cache.makeSearchKey school isbn = None ->
  Verify.holding_step fuel school isbn count reason s = Some (o, s') ->
  exists r s1,
    Read365.searchISBNMultiRegion fuel isbn None 6 (looked_up school isbn s)
    = Some (Ret r, s1)
    /\ forall matched why,
         o = Ret (Verify.mark true, matched, why) ->
         Read365.found (Read365.findSchoolBooks (Read365.m_books r) school)
         <> [].
Proof.
  intros Miss. unfold Verify.holding_step, bind at 1.
  rewrite with_cache_eq, getSearch_fst, Miss.
  fold (looked_up school isbn s). unfold try_catch, bind at 1.
  destruct (Read365.searchISBNMultiRegion fuel isbn None 6
              (looked_up school isbn s)) as [[o1 s1]|] eqn:E1;
    [|discriminate].
  destruct (searchISBNMultiRegion_count _ _ _ _ _ _ _ E1) as [r [-> _]].
  intros Run. exists r, s1. split; [reflexivity|].
  intros matched why -> Found. revert Run.
  unfold bind, update_cache, with_cache, ret. simpl.
  rewrite Found. simpl.
  destruct (Read365.m_totalCount r =? 0)%nat; simpl;
    intros [= Hm _ _ _]; exact (mark_true_false (eq_sym Hm)).
Qed.

End Repetition.

(** X14. Once a record has been processed, a record with the same school,
    title and author is processed without any request, whatever the fuel
    and the key: both caches answer.  Its row carries the same ISBN. *)
Theorem repeated_record_sends_nothing (R : Runtime) (F : Fuzzball)
    (N : Network) (fuel fuel' : nat) (ttbKey ttbKey' : jsstring)
    (r r' : Store.BookRow) (s s' : machine) (out : Store.ResultRow)
    (first : Verify.verifyRow fuel ttbKey r s = Some (Ret out, s'))
    (same_school : Store.학교명 r' = Store.학교명 r)
    (same_title : Store.도서명 r' = Store.도서명 r)
    (same_author : Store.저자 r' = Store.저자 r) :
  exists out' s'',
    Verify.verifyRow fuel' ttbKey' r' s' = Some (Ret out', s'')
    /\ log s'' = log s'
    /\ net s'' = net s'
    /\ Store.ISBN13 out' = Store.ISBN13 out.
Proof.
  revert first. unfold Verify.verifyRow at 1, bind at 1.
  destruct (resolve_step_cached ttbKey (Store.도서명 r) (Store.저자 r) s)
    as (isbn & count & reason & c & s1 & E & Hc & Hisbn & _).
  rewrite E. simpl fst; simpl snd. intros first.
  assert (Step2 :
    Cache.isbnCache (cache s') = Cache.isbnCache (cache s1)
    /\ Store.ISBN13 out = or_else isbn []
    /\ (otruthy isbn = true ->
        is_Some (Cache.searchCache (cache s')
                   !! Cache.makeSearchKey (Store.학교명 r)
                        (default [] isbn)))).
  { destruct (otruthy isbn) eqn:Tr.
    - unfold bind at 1 in first.
      destruct (Verify.holding_step fuel (Store.학교명 r) (default [] isbn)
                  count reason s1) as [[o2 s2]|] eqn:E2; [|discriminate].
      destruct (holding_step_effect _ _ _ _ _ _ _ _ E2) as [[v ->] [U _]].
      apply holding_step_caches in E2.
      injection first as <- <-. auto.
    - unfold bind, ret in first. injection first as <- <-.
      split; [reflexivity|]. split; [reflexivity | discriminate]. }
  destruct Step2 as (Hcache & Hout & Hsearch).
  rewrite <- Hcache in Hc.
  destruct (resolve_step_hit ttbKey' (Store.도서명 r) (Store.저자 r) s' c Hc)
    as (s2 & E2 & Hlog & Hnet & _ & Hsc).
  unfold Verify.verifyRow, bind at 1.
  rewrite same_title, same_author, same_school, E2.
  simpl fst; simpl snd. rewrite Hisbn.
  destruct (otruthy isbn) eqn:Tr.
  - destruct (Hsearch eq_refl) as [c2 Hc2]. rewrite <- Hsc in Hc2.
    unfold bind at 1.
    rewrite (holding_step_hit _ _ _ _ _ _ _ Hc2). unfold ret.
    eexists _, _. split; [reflexivity|]. simpl. auto.
  - unfold bind, ret. eexists _, _. split; [reflexivity|]. simpl. auto.
Qed.

Lemma repeated_record_sends_nothing_witness :
  exists out s' out' s'',
    @Verify.verifyRow Scenario.latin Scenario.all_or_nothing
      BatchExamples.momo_fails 1 VerifyExamples.ttb
      (BatchExamples.book "Demian")
      (Scenario.start_state BatchExamples.momo_fails tt)
    = Some (Ret out, s')
    /\ @Verify.verifyRow Scenario.latin Scenario.all_or_nothing
         BatchExamples.momo_fails 0 [] (BatchExamples.book "Demian") s'
       = Some (Ret out', s'')
    /\ log s'' = log s'.
Proof.
  eexists _, _.
  assert (first :
    @Verify.verifyRow Scenario.latin Scenario.all_or_nothing
      BatchExamples.momo_fails 1 VerifyExamples.ttb
      (BatchExamples.book "Demian")
      (Scenario.start_state BatchExamples.momo_fails tt)
    = Some (Ret _, _)) by (vm_compute; reflexivity).
  destruct (repeated_record_sends_nothing Scenario.latin
              Scenario.all_or_nothing BatchExamples.momo_fails 1 0
              VerifyExamples.ttb [] (BatchExamples.book "Demian")
              (BatchExamples.book "Demian") _ _ _ first
              eq_refl eq_refl eq_refl)
    as (out' & s'' & Again & Hlog & _).
  exists out', s''. split; [exact first|]. split; [exact Again | exact Hlog].
Defined.

(** X15. A holding that the catalog search finds is never reported
    cleanly.  When the catalog step runs on a pair that the search cache
    does not have and marks the book as held, its reason is the text of
    the TypeError thrown by reading [matchedSchools.length], and the cache
    records the book as absent: the catalog step for the same pair then
    marks the book as not held, with that reason, without a request. *)
Theorem found_holding_is_cached_as_absent (R : Runtime) (F : Fuzzball)
    (N : Network) (fuel fuel' : nat) (school isbn reason reason' : jsstring)
    (count count' : nat) (s s' : machine)
    (matched : option jsstring) (why : jsstring)
    (miss : Cache.searchCache (cache s) !! Cache.makeSearchKey school isbn
            = None)
    (held : Verify.holding_step fuel school isbn count reason s
            = Some (Ret (Verify.mark true, matched, why), s')) :
  why = lit "Read365 검색 오류: " ++ Verify.undefined_length
  /\ exists s'',
       Verify.holding_step fuel' school isbn count' reason' s'
       = Some (Ret (Verify.mark false, None, why), s'')
       /\ log s'' = log s'.
Proof.
  destruct (holding_step_miss_inv _ _ _ _ _ _ _ _ miss held)
    as (r & s1 & E1 & Found).
  specialize (Found _ _ eq_refl).
  destruct (holding_step_found fuel school isbn count reason s r s1
              miss E1 Found) as (s0 & Run & Cached).
  rewrite Run in held. injection held as _ <- <-.
  split; [reflexivity|].
  rewrite (holding_step_hit fuel' school isbn count' reason' s0 _ Cached).
  eexists. split; reflexivity.
Qed.

Lemma found_holding_is_cached_as_absent_witness :
  exists s' s'',
    @Verify.holding_step Scenario.latin VerifyExamples.two_schools 1
      (lit "한빛초등학교") VerifyExamples.isbn_demian 1 []
      (Scenario.start_state VerifyExamples.two_schools tt)
    = Some (Ret (Verify.mark true, Some (lit "한빛초등학교"),
                 lit "Read365 검색 오류: " ++ Verify.undefined_length), s')
    /\ @Verify.holding_step Scenario.latin VerifyExamples.two_schools 0
         (lit "한빛초등학교") VerifyExamples.isbn_demian 0 [] s'
       = Some (Ret (Verify.mark false, None,
                    lit "Read365 검색 오류: " ++ Verify.undefined_length),
               s'').
Proof.
  eexists.
  assert (held :
    @Verify.holding_step Scenario.latin VerifyExamples.two_schools 1
      (lit "한빛초등학교") VerifyExamples.isbn_demian 1 []
      (Scenario.start_state VerifyExamples.two_schools tt)
    = Some (Ret (Verify.mark true, Some (lit "한빛초등학교"),
                 lit "Read365 검색 오류: " ++ Verify.undefined_length), _))
    by (vm_compute; reflexivity).
  destruct (found_holding_is_cached_as_absent Scenario.latin
              Scenario.all_or_nothing VerifyExamples.two_schools 1 0
              (lit "한빛초등학교") VerifyExamples.isbn_demian [] [] 1 0
              (Scenario.start_state VerifyExamples.two_schools tt) _ _ _
              ltac:(vm_compute; reflexivity) held)
    as (_ & s'' & Again & _).
  exists s''. split; [exact held | exact Again].
Defined.

(* ================================================================== *)
(** * The other routes *)
(* ================================================================== *)

Section RoutesFacts.

Lemma startsWith_app (p s : jsstring) : startsWith (p ++ s) p = true.
Proof. apply startsWith_iff. eauto. Qed.

(** Removing the first occurrence of a prefix leaves the rest. *)
Lemma remove_first_prefix (p s : jsstring) :
  Routes.remove_first p (p ++ s) = s.
Proof.
  assert (E : forall t, startsWith t p = true ->
                        Routes.remove_first p t = skipn (length p) t).
  { intros [|c t] St; simpl; now rewrite St. }
  rewrite E by apply startsWith_app. clear E.
  induction p as [|c p IH]; simpl; auto.
Qed.

Lemma length_filter_le {A} (f : A -> bool) (l : list A) :
  (length (List.filter f l) <= length l)%nat.
Proof.
  induction l as [|x l IH]; simpl; [lia|].
  destruct (f x); simpl; lia.
Qed.

End RoutesFacts.

(** X16. Deleting a job does not stop its task.  After DELETE the job is
    gone from the map, but the task still holds the job object: with a
    bounded page count and enough fuel, the loop goes on over the records
    that remain, stores the job again at the end of the next iteration,
    and the job is served as completed when the task ends. *)
Theorem delete_does_not_cancel (R : Runtime) (F : Fuzzball) (N : Network)
    (T : Z) (bounded : pages_bounded T) (fuel : nat)
    (enough : (Z.max 1 T <= Z.of_nat fuel)%Z)
    (ttbKey : jsstring) (rest : list Store.BookRow) (i : nat)
    (results : list Store.ResultRow) (job : Store.Job) (s : Verify.system) :
  let id := Store.jobId job in
  let s0 := {| Verify.mach := Verify.mach s;
               Verify.jobs := snd (Routes.job_DELETE id (Verify.jobs s)) |} in
  Routes.job_GET id (Verify.jobs s0) = None
  /\ exists results' job' s',
       Verify.rows_loop fuel ttbKey rest i results job s0
       = Some (Ret (results', job'), s')
       /\ (rest <> [] ->
           exists view,
             Routes.job_GET id (Verify.jobs s') = Some view
             /\ Routes.v_status view = Store.status job
             /\ Routes.v_progress view = (i + length rest)%nat)
       /\ exists view,
            Routes.job_GET id (Verify.jobs (Verify.finish id job' results' s'))
            = Some view
            /\ Routes.v_status view = Store.completed
            /\ Routes.result_file view = Some (lit "result_" ++ id).
Proof.
  intros id s0. split.
  { unfold s0, Routes.job_GET, Routes.job_DELETE, Store.deleteJob,
      Store.getJob.
    cbn [Verify.jobs].
    destruct (negb _); cbn [snd]; now rewrite lookup_delete_eq. }
  destruct (rows_loop_run T bounded fuel enough ttbKey rest i results job s0)
    as (outs & job' & s' & Loop & _ & Hid & Hst & _ & _ & _ & _ & Hlast).
  exists (results ++ outs), job', s'. split; [exact Loop|]. split.
  - intros Hne. destruct (Hlast Hne) as (Hp & _ & Hjob).
    unfold Routes.job_GET, Store.getJob. fold id in Hjob. rewrite Hjob.
    eexists. split; [reflexivity|]. simpl. auto.
  - unfold Routes.job_GET, Store.getJob, Verify.finish, Store.setJob.
    cbn [Verify.jobs].
    replace (Store.jobId (Verify.finished id job' (results ++ outs)))
      with id by (simpl; now rewrite Hid).
    rewrite lookup_insert_eq. eexists. split; [reflexivity|].
    simpl. auto.
Qed.

Lemma delete_does_not_cancel_witness :
  exists results' job' s',
    @Verify.rows_loop Scenario.latin Scenario.all_or_nothing
      BatchExamples.momo_fails 1 VerifyExamples.ttb JobExamples.rows 0 []
      (Verify.new_job JobExamples.id
         (Store.uploaded (lit "f1") (lit "books.xlsx") JobExamples.rows)
         None None)
      BatchExamples.fresh
    = Some (Ret (results', job'), s')
    /\ exists view,
         Routes.job_GET JobExamples.id (Verify.jobs s') = Some view
         /\ Routes.v_progress view = 2%nat.
Proof.
  destruct (delete_does_not_cancel Scenario.latin Scenario.all_or_nothing
              BatchExamples.momo_fails 1
              ltac:(intros w p; vm_compute; discriminate) 1
              ltac:(vm_compute; discriminate) VerifyExamples.ttb
              JobExamples.rows 0 []
              (Verify.new_job JobExamples.id
                 (Store.uploaded (lit "f1") (lit "books.xlsx")
                    JobExamples.rows) None None)
              BatchExamples.fresh)
    as (_ & results' & job' & s' & Loop & Stored & _).
  exists results', job', s'. split; [exact Loop|].
  destruct (Stored ltac:(discriminate)) as (view & G & _ & Pr).
  exists view. split; [exact G | exact Pr].
Defined.

(** X17. From the job to its workbook.  When a batch has ended, the job
    route serves the name of the result file, "result_" followed by the
    job identifier, and the download route, given that name, finds the job
    again and hands its result rows, one per record in order, to the
    workbook writer, with the attachment name ending in ".xlsx".  A batch
    without records is the exception: its job is completed, but the
    download route answers that the result is not ready. *)
Theorem download_after_batch (R : Runtime) (F : Fuzzball) (N : Network)
    (T : Z) (bounded : pages_bounded T) (fuel : nat)
    (enough : (Z.max 1 T <= Z.of_nat fuel)%Z)
    (uuid fid name key : jsstring) (rows : list Store.BookRow)
    (region0 school_level : option jsstring) (s : Verify.system)
    (has_key : key <> []) :
  let id := slice0 8 uuid in
  exists s' view file,
    Verify.POST fuel uuid (Some (Store.uploaded fid name rows)) (Some key)
      region0 school_level s
    = Some (Verify.Started id, s')
    /\ Routes.job_GET id (Verify.jobs s') = Some view
    /\ Routes.v_status view = Store.completed
    /\ Routes.result_file view = Some file
    /\ file = lit "result_" ++ id
    /\ match rows with
       | [] => Routes.download file (Verify.jobs s') = Routes.NotReady
       | _ =>
         exists out,
           Routes.download file (Verify.jobs s')
           = Routes.Workbook out (file ++ lit ".xlsx")
           /\ List.map Store.row out = rows
       end.
Proof.
  intros id.
  set (job0 := Verify.new_job id (Store.uploaded fid name rows)
                 region0 school_level).
  destruct (rows_loop_run T bounded fuel enough key rows 0 [] job0
              (Verify.registered job0 s))
    as (outs & job' & s1 & Loop & Hrows & Hid & _).
  simpl app in Loop.
  assert (Stored :
    Verify.jobs (Verify.finish id job' outs s1) !! id
    = Some (Verify.finished id job' outs)).
  { unfold Verify.finish, Store.setJob. cbn [Verify.jobs].
    replace (Store.jobId (Verify.finished id job' outs)) with id
      by (simpl; now rewrite Hid).
    apply lookup_insert_eq. }
  exists (Verify.finish id job' outs s1). eexists _, (lit "result_" ++ id).
  split; [exact (POST_eq _ _ _ _ _ _ _ _ _ _ _ _ has_key Loop)|].
  unfold Routes.job_GET, Routes.download, Store.getJob.
  rewrite remove_first_prefix, Stored.
  split; [reflexivity|]. split; [reflexivity|]. split; [reflexivity|].
  split; [reflexivity|].
  cbn [Verify.finished Store.status Store.results Routes.is_completed negb
       orb].
  destruct rows as [|r rest].
  - apply map_eq_nil in Hrows. now subst outs.
  - destruct outs as [|o outs]; [discriminate|].
    exists (o :: outs). split; [reflexivity | exact Hrows].
Qed.

Lemma download_after_batch_witness :
  exists s' out,
    @Verify.POST Scenario.latin Scenario.all_or_nothing
      BatchExamples.momo_fails 1 JobExamples.id
      (Some (Store.uploaded (lit "f1") (lit "books.xlsx") JobExamples.rows))
      (Some VerifyExamples.ttb) None None BatchExamples.fresh
    = Some (Verify.Started (slice0 8 JobExamples.id), s')
    /\ Routes.download (lit "result_" ++ slice0 8 JobExamples.id)
         (Verify.jobs s')
       = Routes.Workbook out
           ((lit "result_" ++ slice0 8 JobExamples.id) ++ lit ".xlsx")
    /\ List.map Store.row out = JobExamples.rows.
Proof.
  destruct (download_after_batch Scenario.latin Scenario.all_or_nothing
              BatchExamples.momo_fails 1
              ltac:(intros w p; vm_compute; discriminate) 1
              ltac:(vm_compute; discriminate)
              JobExamples.id (lit "f1") (lit "books.xlsx")
              VerifyExamples.ttb JobExamples.rows None None
              BatchExamples.fresh ltac:(vm_compute; discriminate))
    as (s' & view & file & P & _ & _ & _ & -> & out & D & Hrows).
  exists s', out. split; [exact P|]. split; [exact D | exact Hrows].
Defined.

(** X18. The book search route, for a body whose [isbn] and [region] are
    strings when present.  With a bounded page count and enough fuel the
    route always answers.  It answers with a server error in two cases
    only: the body cannot be read (nothing is sent), or the ISBN is there
    and the school is a value other than a string, in which case the
    regions are searched first and the error is the TypeError of
    [schoolName.replace].  It answers "bad request" exactly when the ISBN or
    the school is missing or empty, and then without any request.
    Otherwise the answer counts at most as many books of the school as
    books in all, says "exists" exactly when the count of the school is not
    zero, names a matched school exactly then, and lists the first five
    books found, each of which passes the school test.  The cache is not
    involved. *)
Theorem book_search_answers (R : Runtime) (N : Network)
    (T : Z) (bounded : pages_bounded T) (fuel : nat)
    (enough : (Z.max 1 T <= Z.of_nat fuel)%Z)
    (parsed : jsstring + Routes.SearchBody) (s : machine) :
  exists reply s',
    Routes.book_search fuel parsed s = Some (Ret reply, s')
    /\ catalog_only s s'
    /\ match reply with
       | Routes.ServerError detail =>
         (exists error,
            parsed = inl error /\ s' = s
            /\ detail = lit "Read365 API 오류: " ++ error)
         \/ (exists body,
               parsed = inr body
               /\ otruthy (Routes.body_isbn body) = true
               /\ Routes.body_school body = Routes.SchoolOther
               /\ detail = lit "Read365 API 오류: "
                             ++ Routes.replace_is_not_a_function)
       | Routes.BadRequest _ =>
         exists body,
           parsed = inr body /\ s' = s
           /\ otruthy (Routes.body_isbn body)
              && Routes.school_truthy (Routes.body_school body) = false
       | Routes.Answer a =>
         exists body school,
           parsed = inr body
           /\ otruthy (Routes.body_isbn body) = true
           /\ Routes.body_school body = Routes.SchoolText school
           /\ school <> []
           /\ Routes.b_isbn a = default [] (Routes.body_isbn body)
           /\ Routes.b_school a = school
           /\ (Routes.school_count a <= Routes.total_count a)%nat
           /\ (Routes.b_exists a = true <-> Routes.school_count a <> 0%nat)
           /\ (is_Some (Routes.matched_school a)
               <-> Routes.school_count a <> 0%nat)
           /\ length (Routes.b_books a) = Nat.min 5 (Routes.school_count a)
           /\ forall b,
                In b (Routes.b_books a) ->
                Read365.schoolNameMatches (or_else (schoolName b) []) school
                = true
       end.
Proof.
  unfold Routes.book_search, try_catch.
  destruct parsed as [error | body].
  { eexists _, s. split; [reflexivity|].
    split; [apply catalog_only_refl|]. left. eauto. }
  destruct body as [isbn school region0]. cbn [Routes.body_isbn
    Routes.body_school Routes.body_region]. cbv zeta.
  destruct (otruthy isbn) eqn:Ti; cbn [negb andb]; cbv iota.
  2:{ eexists _, s. split; [reflexivity|].
      split; [apply catalog_only_refl|]. eexists.
      split; [reflexivity|]. split; [reflexivity|]. simpl.
      now rewrite Ti. }
  destruct (Routes.school_truthy school) eqn:Ts; cbn [negb]; cbv iota.
  2:{ eexists _, s. split; [reflexivity|].
      split; [apply catalog_only_refl|]. eexists.
      split; [reflexivity|]. split; [reflexivity|]. simpl.
      now rewrite Ti, Ts. }
  unfold bind.
  destruct (searchISBNMultiRegion_run T bounded fuel (default [] isbn)
              enough region0 6 s) as (r & s1 & E & Count & Cat).
  rewrite E.
  destruct school as [|school|]; [discriminate| |].
  2:{ unfold throw, ret. eexists _, s1. split; [reflexivity|].
      split; [exact Cat|]. right. eexists.
      split; [reflexivity|]. simpl. auto. }
  unfold ret. eexists _, s1. split; [reflexivity|].
  split; [exact Cat|].
  exists {| Routes.body_isbn := isbn;
            Routes.body_school := Routes.SchoolText school;
            Routes.body_region := region0 |}, school.
  cbn [Routes.b_isbn Routes.b_school Routes.b_exists Routes.school_count
       Routes.total_count Routes.matched_school Routes.b_books
       Routes.body_isbn Routes.body_school].
  pose proof (findSchoolBooks_found (Read365.m_books r) school) as Found.
  pose proof (findSchoolBooks_loop (Read365.m_books r) school) as Loop.
  cbv zeta in Loop.
  set (fb := Read365.findSchoolBooks (Read365.m_books r) school) in *.
  split; [reflexivity|]. split; [exact Ti|]. split; [reflexivity|].
  split; [intros ->; discriminate|].
  split; [reflexivity|]. split; [reflexivity|].
  split.
  { rewrite Count, Found. apply length_filter_le. }
  split.
  { rewrite Nat.ltb_lt. lia. }
  split.
  { destruct (Read365.matchedSchool fb) as [[|c t]|].
    - destruct Loop as [Hne _]. split; [|eauto].
      intros _ Z0. apply length_zero_iff_nil in Z0. contradiction.
    - destruct Loop as (pre & b & post & -> & _). split; [|eauto].
      intros _. rewrite length_app. simpl. lia.
    - rewrite Loop. simpl. split; [intros [x Hx]; discriminate | lia]. }
  split.
  { apply length_firstn. }
  intros b Hin. apply In_firstn in Hin. rewrite Found in Hin.
  apply filter_In in Hin. apply Hin.
Qed.

Lemma book_search_answers_witness :
  exists reply s',
    @Routes.book_search Scenario.latin VerifyExamples.two_schools 1
      (inr {| Routes.body_isbn := Some VerifyExamples.isbn_demian;
              Routes.body_school := Routes.SchoolText (lit "한빛초등학교");
              Routes.body_region := Some (lit "경기") |})
      (Scenario.start_state VerifyExamples.two_schools tt)
    = Some (Ret reply, s')
    /\ match reply with
       | Routes.Answer a => Routes.b_exists a = true
       | _ => False
       end.
Proof.
  destruct (book_search_answers Scenario.latin VerifyExamples.two_schools 1
              ltac:(intros w p; vm_compute; discriminate) 1
              ltac:(vm_compute; discriminate)
              (inr {| Routes.body_isbn := Some VerifyExamples.isbn_demian;
                      Routes.body_school :=
                        Routes.SchoolText (lit "한빛초등학교");
                      Routes.body_region := Some (lit "경기") |})
              (Scenario.start_state VerifyExamples.two_schools tt))
    as (reply & s' & Run & _ & Shape).
  exists reply, s'. split; [exact Run|].
  assert (Run' := Run). vm_compute in Run'.
  injection Run' as <- _. vm_compute. reflexivity.
Defined.

(** A school that is a number: the six regions are searched, then the
    call of [findSchoolBooks] throws and the route answers with a server
    error. *)
Example book_search_school_not_a_string :
  exists s',
    @Routes.book_search Scenario.latin VerifyExamples.two_schools 1
      (inr {| Routes.body_isbn := Some VerifyExamples.isbn_demian;
              Routes.body_school := Routes.SchoolOther;
              Routes.body_region := None |})
      (Scenario.start_state VerifyExamples.two_schools tt)
    = Some (Ret (Routes.ServerError
                   (lit "Read365 API 오류: "
                      ++ Routes.replace_is_not_a_function)), s')
    /\ length (log s') = 6%nat.
Proof. eexists. split; vm_compute; reflexivity. Qed.

(* ================================================================== *)
(** * What paging collects *)
(* ================================================================== *)

Section Collected.
Context `{Network}.

(** The result of [searchISBN], when it returns, read off the answer. *)
Lemma searchISBN_books isbn provCode page pageSize s r s1 :
  Read365.searchISBN isbn provCode page pageSize s = Some (Ret r, s1) ->
  let p := Read365.payload_of isbn provCode page pageSize in
  s1 = after_request p s
  /\ Read365.books r = books_of (snd (read365 (net s) p)).
Proof.
  intros Run p. revert Run.
  unfold Read365.searchISBN, try_catch, bind, fetch_read365.
  fold p. unfold after_request, books_of.
  destruct (read365 (net s) p) as [w [err | ok code body]]; simpl;
    [discriminate|].
  destruct ok; simpl; [|discriminate].
  destruct body as [err | d]; simpl; [discriminate|].
  destruct (str_eqb (status d) (lit "OK")); simpl;
    [destruct (data d) as [dd|]; simpl|];
    intros [= <- <-]; split; reflexivity.
Qed.

Lemma allPages_loop_collects isbn provCode :
  forall fuel page acc s bs s',
    Read365.allPages_loop fuel isbn provCode acc page s = Some (Ret bs, s') ->
    exists k,
      log s' = log s
               ++ List.map (page_request isbn provCode) (pages_from page k)
      /\ bs = acc
              ++ List.concat
                   (List.map books_of
                      (replay (net s)
                         (List.map
                            (fun q => Read365.payload_of isbn provCode q 100)
                            (pages_from page k)))).
Proof.
  induction fuel as [|fuel IH]; intros page acc s bs s'; [discriminate|].
  cbn [Read365.allPages_loop]. unfold bind at 1.
  destruct (Read365.searchISBN isbn provCode page 100 s)
    as [[[r|e] s1]|] eqn:E; [|discriminate|discriminate].
  destruct (searchISBN_books _ _ _ _ _ _ _ E) as [Es1 Hb].
  destruct (length (Read365.books r) =? 0)%nat eqn:Z0.
  { intros [= <- <-]. exists 1%nat. split.
    - rewrite Es1. reflexivity.
    - apply Nat.eqb_eq, length_zero_iff_nil in Z0.
      simpl. rewrite <- Hb, Z0. simpl. now rewrite app_nil_r. }
  destruct (Read365.totalPages r <=? page)%Z.
  { intros [= <- <-]. exists 1%nat. split.
    - rewrite Es1. reflexivity.
    - simpl. rewrite <- Hb, app_nil_r. reflexivity. }
  intros Run. destruct (IH _ _ _ _ _ Run) as (k & Hlog & Hbs).
  exists (S k). split.
  - rewrite Hlog, Es1. cbn [pages_from List.map after_request log].
    rewrite <- app_assoc. reflexivity.
  - rewrite Hbs, Es1. cbn [pages_from List.map replay after_request net
                           List.concat].
    rewrite <- Hb, <- app_assoc. reflexivity.
Qed.

End Collected.

(** X19. What [searchISBNAllPages] returns is what the catalog answered:
    the book lists of the pages 1, ..., k that it requested, in the order
    of the pages, with nothing dropped, repeated or added. *)
Theorem searchISBNAllPages_collects (N : Network) (fuel : nat)
    (isbn : jsstring) (provCode : option Read365.ProvCode) (s s' : machine)
    (bs : list Read365Book)
    (returned : Read365.searchISBNAllPages fuel isbn provCode s
                = Some (Ret bs, s')) :
  exists k,
    log s' = log s ++ List.map (page_request isbn provCode) (pages_from 1 k)
    /\ bs = List.concat
              (List.map books_of
                 (replay (net s)
                    (List.map
                       (fun q => Read365.payload_of isbn provCode q 100)
                       (pages_from 1 k)))).
Proof.
  exact (allPages_loop_collects isbn provCode fuel 1%Z [] s bs s' returned).
Qed.

Lemma searchISBNAllPages_collects_witness :
  exists bs s',
    @Read365.searchISBNAllPages PagingExamples.two_pages 5
      PagingExamples.isbn_demian None
      (Scenario.start_state PagingExamples.two_pages tt)
    = Some (Ret bs, s')
    /\ exists k,
         bs = List.concat
                (List.map books_of
                   (@replay PagingExamples.two_pages tt
                      (List.map
                         (fun q =>
                            Read365.payload_of PagingExamples.isbn_demian
                              None q 100)
                         (pages_from 1 k)))).
Proof.
  eexists _, _.
  assert (returned :
    @Read365.searchISBNAllPages PagingExamples.two_pages 5
      PagingExamples.isbn_demian None
      (Scenario.start_state PagingExamples.two_pages tt)
    = Some (Ret _, _)) by (vm_compute; reflexivity).
  split; [exact returned|].
  destruct (searchISBNAllPages_collects PagingExamples.two_pages 5
              PagingExamples.isbn_demian None _ _ _ returned)
    as (k & _ & Hbs).
  exists k. exact Hbs.
Defined.

(** X20. Lowering the threshold never loses an ISBN: when the resolver
    returns an ISBN at one threshold, it returns the same result, after the
    same request, at every lower threshold. *)
Theorem resolver_threshold_monotone (F : Fuzzball) (N : Network)
    (ttbKey title author : jsstring) (thr thr' : float) (s s' : machine)
    (r : Aladin.Resolved) (i : jsstring)
    (lower : PrimFloat.leb thr' thr = true)
    (returned : Aladin.searchISBNByTitleAuthor ttbKey title author thr s
                = Some (Ret r, s'))
    (resolved : Aladin.isbn13 r = Some i) :
  Aladin.searchISBNByTitleAuthor ttbKey title author thr' s
  = Some (Ret r, s').
Proof.
  revert returned. unfold Aladin.searchISBNByTitleAuthor.
  destruct (truthy title); cbn [negb]; cbv iota.
  2:{ intros [= <- _]. discriminate. }
  unfold try_catch, bind, fetch_aladin.
  destruct (aladin (net s) (Aladin.params_of ttbKey title))
    as [w [err | ok code body]]; simpl; [discriminate|].
  destruct ok; simpl; [|discriminate].
  destruct body as [err | d]; simpl; [discriminate|].
  destruct (length (default [] (item d)) =? 0)%nat.
  { intros [= <- _]. discriminate. }
  destruct (Aladin.pick_best _ _ (default [] (item d))) as [[b|] sc].
  2:{ intros [= <- _]. discriminate. }
  destruct (PrimFloat.leb thr sc) eqn:Reach.
  2:{ intros [= <- _]. discriminate. }
  rewrite (leb_trans _ _ _ lower Reach). auto.
Qed.

Lemma resolver_threshold_monotone_witness :
  exists r s',
    @Aladin.searchISBNByTitleAuthor Scenario.all_or_nothing
      MoreExamples.three_candidates ResolverExamples.ttb
      (lit "Siddhartha") [] 0.5%float
      (Scenario.start_state MoreExamples.three_candidates tt)
    = Some (Ret r, s')
    /\ Aladin.isbn13 r = Some (lit "9788937460586").
Proof.
  eexists _, _.
  assert (returned :
    @Aladin.searchISBNByTitleAuthor Scenario.all_or_nothing
      MoreExamples.three_candidates ResolverExamples.ttb
      (lit "Siddhartha") [] Verify.threshold
      (Scenario.start_state MoreExamples.three_candidates tt)
    = Some (Ret _, _)) by (vm_compute; reflexivity).
  split.
  - exact (resolver_threshold_monotone Scenario.all_or_nothing
             MoreExamples.three_candidates ResolverExamples.ttb
             (lit "Siddhartha") [] Verify.threshold 0.5%float _ _ _
             (lit "9788937460586") ltac:(vm_compute; reflexivity)
             returned ltac:(vm_compute; reflexivity)).
  - vm_compute. reflexivity.
Defined.

(* ================================================================== *)
(** * The shape of a result row *)
(* ================================================================== *)

Section RowShape.
Context `{Runtime} `{Fuzzball} `{Network}.

(** The mark that the catalog step leaves is one of the two marks. *)
Lemma holding_step_mark fuel school isbn count reason s v s' :
  Verify.holding_step fuel school isbn count reason s = Some (Ret v, s') ->
  exists b, fst (fst v) = Verify.mark b.
Proof.
  unfold Verify.holding_step, bind at 1.
  rewrite with_cache_eq, getSearch_fst. fold (looked_up school isbn s).
  destruct (Cache.searchCache (cache s) !! _) as [c|].
  - intros [= <- _]. simpl. eauto.
  - unfold try_catch, bind at 1.
    destruct (Read365.searchISBNMultiRegion fuel isbn None 6
                (looked_up school isbn s)) as [[o1 s1]|] eqn:E1;
      [|discriminate].
    destruct (searchISBNMultiRegion_count _ _ _ _ _ _ _ E1)
      as [r [-> _]].
    unfold bind, update_cache, with_cache, Verify.search_failed, bind,
      update_cache, with_cache, ret. simpl.
    destruct (0 <? length _)%nat; simpl.
    + intros [= <- _]. exists true. reflexivity.
    + destruct (Read365.m_totalCount r =? 0)%nat; simpl;
        intros [= <- _]; exists false; reflexivity.
Qed.

Lemma or_else_nonempty (o : option jsstring) (d : jsstring) :
  d <> [] -> or_else o d <> [].
Proof.
  intros Hd. destruct o as [[|c t]|]; simpl; [exact Hd | discriminate
                                                | exact Hd].
Qed.

End RowShape.

(** X21. Every result row repeats its record, carries one of the two
    marks, is marked as held only with an ISBN, and names a school
    searched whenever the record names a school. *)
Theorem result_row_shape (R : Runtime) (F : Fuzzball) (N : Network)
    (fuel : nat) (ttbKey : jsstring) (r : Store.BookRow) (s s' : machine)
    (out : Store.ResultRow)
    (processed : Verify.verifyRow fuel ttbKey r s = Some (Ret out, s')) :
  Store.row out = r
  /\ (exists b, Store.존재여부 out = Verify.mark b)
  /\ (Store.존재여부 out = Verify.mark true -> Store.ISBN13 out <> [])
  /\ (Store.학교명 r <> [] -> Store.검색학교 out <> []).
Proof.
  revert processed. unfold Verify.verifyRow, bind at 1.
  destruct (resolve_step_cached ttbKey (Store.도서명 r) (Store.저자 r) s)
    as (isbn & count & reason & c & s1 & E & _).
  rewrite E. simpl fst; simpl snd.
  destruct (otruthy isbn) eqn:Tr.
  - unfold bind at 1.
    destruct (Verify.holding_step fuel (Store.학교명 r) (default [] isbn)
                count reason s1) as [[[v|e] s2]|] eqn:E2;
      [|discriminate|discriminate].
    destruct (holding_step_mark _ _ _ _ _ _ _ _ E2) as [b Hb].
    unfold ret. intros [= <- _]. simpl.
    split; [reflexivity|]. split; [eauto|]. split.
    + intros _. destruct isbn as [[|ch t]|]; simpl in *; discriminate.
    + apply or_else_nonempty.
  - unfold bind, ret. intros [= <- _]. simpl.
    split; [reflexivity|]. split; [exists false; reflexivity|]. split.
    + intros Hm. exfalso.
      exact (mark_true_false (eq_sym Hm)).
    + auto.
Qed.

Lemma result_row_shape_witness :
  exists out s',
    @Verify.verifyRow Scenario.latin Scenario.all_or_nothing
      BatchExamples.momo_fails 1 VerifyExamples.ttb
      (BatchExamples.book "Demian")
      (Scenario.start_state BatchExamples.momo_fails tt)
    = Some (Ret out, s')
    /\ Store.row out = BatchExamples.book "Demian"
    /\ Store.검색학교 out <> [].
Proof.
  eexists _, _.
  assert (processed :
    @Verify.verifyRow Scenario.latin Scenario.all_or_nothing
      BatchExamples.momo_fails 1 VerifyExamples.ttb
      (BatchExamples.book "Demian")
      (Scenario.start_state BatchExamples.momo_fails tt)
    = Some (Ret _, _)) by (vm_compute; reflexivity).
  split; [exact processed|].
  destruct (result_row_shape Scenario.latin Scenario.all_or_nothing
              BatchExamples.momo_fails 1 VerifyExamples.ttb
              (BatchExamples.book "Demian") _ _ _ processed)
    as (Hrow & _ & _ & Hschool).
  split; [exact Hrow|]. apply Hschool. vm_compute. discriminate.
Defined.

(* ================================================================== *)
(** * What the search cache forgets *)
(* ================================================================== *)

Section AbsentHolding.
Context `{Runtime} `{Fuzzball} `{Network}.

Lemma nonempty_prefix (a b : jsstring) : a <> [] -> a ++ b <> [].
Proof. destruct a; [congruence | discriminate]. Qed.

(** When the catalog search returns and finds no book of the school, the
    step gives a reason, and the holding is cached as absent without the
    reason. *)
Lemma holding_step_absent fuel school isbn count reason s r s1 :
  Cache.searchCache (cache s) !! Cache.makeSearchKey school isbn = None ->
  Read365.searchISBNMultiRegion fuel isbn None 6 (looked_up school isbn s)
  = Some (Ret r, s1) ->
  Read365.found (Read365.findSchoolBooks (Read365.m_books r) school) = [] ->
  exists why s',
    Verify.holding_step fuel school isbn count reason s
    = Some (Ret (Verify.mark false, None, why), s')
    /\ why <> []
    /\ Cache.searchCache (cache s') !! Cache.makeSearchKey school isbn
       = Some {| Cache.exists_ := false; Cache.itemCount := 0;
                 Cache.matchedSchool := None;
                 Cache.search_error := None |}.
Proof.
  intros Miss E1 NotFound.
  assert (NoMatch :
    Read365.matchedSchool
      (Read365.findSchoolBooks (Read365.m_books r) school) = None).
  { pose proof (findSchoolBooks_loop (Read365.m_books r) school) as L.
    cbv zeta in L. rewrite NotFound in L.
    destruct (Read365.matchedSchool _) as [[|c t]|]; [| |reflexivity].
    - destruct L as [L _]. congruence.
    - destruct L as (pre & b & post & L & _). now destruct pre. }
  assert (W1 : lit "주요 지역에 등록된 도서 없음" <> [])
    by (vm_compute; discriminate).
  assert (W2 : forall rest, (school ++ lit "에 없음 (타 학교 " ++ rest) <> []).
  { intros rest E. apply app_eq_nil in E. destruct E as [_ E].
    apply app_eq_nil in E. destruct E as [E _].
    vm_compute in E. discriminate. }
  unfold Verify.holding_step, bind at 1.
  rewrite with_cache_eq, getSearch_fst, Miss. fold (looked_up school isbn s).
  unfold try_catch, bind at 1. rewrite E1.
  cbv zeta. rewrite NotFound, NoMatch.
  cbn [length Nat.ltb Nat.leb]. cbv iota.
  unfold bind at 1, update_cache, with_cache. cbv iota beta.
  destruct (Read365.m_totalCount r =? 0)%nat.
  - unfold ret. eexists _, _. split; [reflexivity|]. split; [exact W1|].
    cbn [cache Cache.setSearch Cache.searchCache]. apply lookup_insert_eq.
  - unfold ret. eexists _, _. split; [reflexivity|]. split.
    + destruct count as [|[|n]]; rewrite <- ?app_assoc; apply W2.
    + cbn [cache Cache.setSearch Cache.searchCache]. apply lookup_insert_eq.
Qed.

End AbsentHolding.

(** X22. The reason of an absent holding is not cached.  When the catalog
    step runs on a pair that the search cache does not have and marks the
    book as not held after a search, it gives a reason that is not empty;
    the catalog step for the same pair afterwards marks the book as not
    held without a request, but with the reason that it was entered with
    (the empty one after a resolved ISBN) in place of that reason. *)
Theorem absent_holding_reason_is_not_cached (R : Runtime) (F : Fuzzball)
    (N : Network) (fuel fuel' : nat) (school isbn reason reason' : jsstring)
    (count count' : nat) (s s' : machine)
    (matched : option jsstring) (why : jsstring)
    (miss : Cache.searchCache (cache s) !! Cache.makeSearchKey school isbn
            = None)
    (absent : Verify.holding_step fuel school isbn count reason s
              = Some (Ret (Verify.mark false, matched, why), s')) :
  why <> [] /\ matched = None
  /\ exists s'',
       Verify.holding_step fuel' school isbn count' reason' s'
       = Some (Ret (Verify.mark false, None, reason'), s'')
       /\ log s'' = log s'.
Proof.
  destruct (holding_step_miss_inv _ _ _ _ _ _ _ _ miss absent)
    as (r & s1 & E1 & _).
  destruct (Read365.found
              (Read365.findSchoolBooks (Read365.m_books r) school))
    as [|b bs] eqn:Found.
  - destruct (holding_step_absent fuel school isbn count reason s r s1
                miss E1 Found) as (why0 & s0 & Run & Hwhy & Cached).
    rewrite Run in absent. injection absent as <- <- <-.
    split; [exact Hwhy|]. split; [reflexivity|].
    rewrite (holding_step_hit fuel' school isbn count' reason' s0 _ Cached).
    eexists. split; reflexivity.
  - destruct (holding_step_found fuel school isbn count reason s r s1
                miss E1) as (s0 & Run & _).
    { rewrite Found. discriminate. }
    rewrite Run in absent.
    apply (f_equal (fun o => match o with
                             | Some (Ret (m, _, _), _) => m
                             | _ => []
                             end)) in absent.
    exfalso. exact (mark_true_false absent).
Qed.

Lemma absent_holding_reason_is_not_cached_witness :
  exists why s' s'',
    @Verify.holding_step Scenario.latin VerifyExamples.other_school 1
      (lit "한빛초등학교") VerifyExamples.isbn_demian 1 []
      (Scenario.start_state VerifyExamples.other_school tt)
    = Some (Ret (Verify.mark false, None, why), s')
    /\ why <> []
    /\ @Verify.holding_step Scenario.latin VerifyExamples.other_school 0
         (lit "한빛초등학교") VerifyExamples.isbn_demian 0 [] s'
       = Some (Ret (Verify.mark false, None, []), s'').
Proof.
  eexists _, _.
  assert (absent :
    @Verify.holding_step Scenario.latin VerifyExamples.other_school 1
      (lit "한빛초등학교") VerifyExamples.isbn_demian 1 []
      (Scenario.start_state VerifyExamples.other_school tt)
    = Some (Ret (Verify.mark false, None, _), _))
    by (vm_compute; reflexivity).
  destruct (absent_holding_reason_is_not_cached Scenario.latin
              Scenario.all_or_nothing VerifyExamples.other_school 1 0
              (lit "한빛초등학교") VerifyExamples.isbn_demian [] [] 1 0
              (Scenario.start_state VerifyExamples.other_school tt) _ _ _
              ltac:(vm_compute; reflexivity) absent)
    as (Hwhy & _ & s'' & Again & _).
  exists s''. split; [exact absent|]. split; [exact Hwhy | exact Again].
Defined.
